(** * EIA storage accrual engine: gap estimators, monthly rollforward, accruals

    Shallow embedding of
      - [src/eia_sa/accrual/methods.py]     (MethodA, MethodB, MethodC, BlendedEstimator)
      - [src/eia_sa/transform/build_gold.py] (build_monthly_rollforward)
      - [src/eia_sa/accrual/calculator.py]   (calc_accruals)

    Conventions of the embedding.
      - A Python [float] is an exact rational ([Q]); rounding, infinities and
        NaN of binary64 are outside the model, and [float(x)] is the identity.
      - A [datetime.date] is a record of year, month and day with the
        proleptic Gregorian ordinal of CPython's [datetime] module.
      - A pandas frame is the list of its rows; a column that may hold
        NaN/None is an [option].
      - A Python exception is the [Raise] case of [result].
      - A pandas [Timestamp] or [Period] end time counts nanoseconds in 64
        bits: the end of a month outside 1677-09 .. 2262-03 is an
        [OutOfBoundsDatetime].
      - What [pd.to_datetime] and [pd.read_csv] make of a report or ledger
        date outside the range of a nanosecond [Timestamp] depends on the
        version of pandas and is not modelled: the statements that say an
        estimator or the builder returns take those dates within the range
        ([dates_in_bounds], [ledger_readable]). *)

From Stdlib Require Import ZArith QArith Qabs Lia Lqa.
From stdpp Require Import base gmap strings list sorting.

(** ** Exceptions *)

Inductive exn : Set :=
| TypeError
| ValueError
| OutOfBoundsDatetime
| AttributeError.

Inductive result (A : Type) : Type :=
| Ok (a : A)
| Raise (e : exn).

Arguments Ok {A} a.
Arguments Raise {A} e.

Definition bind {A B : Type} (r : result A) (k : A -> result B) : result B :=
  match r with
  | Ok a => k a
  | Raise e => Raise e
  end.

Notation "'perform' x <- r ; k" := (bind r (fun x => k))
  (at level 10, x name, r at level 100, k at level 200).

(** ** Calendar dates (CPython [datetime.date]) *)

Module Dates.

Record date : Set := mkDate { year : Z; month : Z; day : Z }.

Definition is_leap (y : Z) : bool :=
  ((y mod 4 =? 0) && (negb (y mod 100 =? 0) || (y mod 400 =? 0)))%Z.

Definition days_in_month (y m : Z) : Z :=
  if (m =? 2)%Z then (if is_leap y then 29 else 28)%Z
  else if ((m =? 4) || (m =? 6) || (m =? 9) || (m =? 11))%Z then 30%Z
  else 31%Z.

Definition days_before_year (y : Z) : Z :=
  let y1 := (y - 1)%Z in
  (y1 * 365 + y1 / 4 - y1 / 100 + y1 / 400)%Z.

Fixpoint days_before_month_aux (y : Z) (n : nat) : Z :=
  match n with
  | O => 0%Z
  | S k => (days_before_month_aux y k + days_in_month y (Z.of_nat (S k)))%Z
  end.

(** Days in the year before the first day of month [m]. *)
Definition days_before_month (y m : Z) : Z :=
  days_before_month_aux y (Z.to_nat (m - 1)).

Definition toordinal (d : date) : Z :=
  (days_before_year (year d) + days_before_month (year d) (month d) + day d)%Z.

(** [date.__le__] and [date.__lt__]: comparison of the (year, month, day)
    triples. *)
Definition date_leb (a b : date) : bool :=
  ((year a <? year b) ||
   ((year a =? year b) &&
    ((month a <? month b) || ((month a =? month b) && (day a <=? day b)))))%Z.

Definition date_ltb (a b : date) : bool := negb (date_leb b a).

Definition date_max (a b : date) : date := if date_leb a b then b else a.

(** [(a - b).days] *)
Definition days_between (a b : date) : Z := (toordinal a - toordinal b)%Z.

Definition valid_date (d : date) : Prop :=
  (1 <= year d <= 9999 /\ 1 <= month d <= 12 /\
   1 <= day d <= days_in_month (year d) (month d))%Z.

(** [pd.Timestamp(d).to_period("M")]: the (year, month) pair. *)
Definition same_period_M (a b : date) : bool :=
  ((year a =? year b) && (month a =? month b))%Z.

(** The last day of the month of [d]. *)
Definition month_end (d : date) : date :=
  mkDate (year d) (month d) (days_in_month (year d) (month d)).

(** The months whose end time a nanosecond [Timestamp] can hold: 1677-09 to
    2262-03. *)
Definition in_period_bounds (d : date) : bool :=
  (((1677 <? year d) || ((year d =? 1677) && (9 <=? month d))) &&
   ((year d <? 2262) || ((year d =? 2262) && (month d <=? 3))))%Z.

(** The dates a nanosecond [Timestamp] can hold: 1677-09-22 to 2262-04-11. *)
Definition in_ns_bounds (d : date) : bool :=
  date_leb (mkDate 1677 9 22) d && date_leb d (mkDate 2262 4 11).

(** [pd.Timestamp(d).to_period("M").end_time.date()]: the end time of the
    month is the start of the next month less one nanosecond, and an
    [OutOfBoundsDatetime] when that is out of range. *)
Definition Timestamp_period_end (d : date) : result date :=
  if in_period_bounds d then Ok (month_end d) else Raise OutOfBoundsDatetime.

(** pandas [roll_convention(other_day, n, compare_day)] *)
Definition roll_convention (other n compare : Z) : Z :=
  if ((0 <? n) && (other <? compare))%Z then (n - 1)%Z
  else if ((n <=? 0) && (compare <? other))%Z then (n + 1)%Z
  else n.

(** pandas [shift_month(stamp, months, day_opt="start")] *)
Definition shift_month_start (d : date) (months : Z) : date :=
  let dy := ((month d + months) / 12)%Z in
  let m := ((month d + months) mod 12)%Z in
  let '(dy, m) := if (m =? 0)%Z then ((dy - 1)%Z, 12%Z) else (dy, m) in
  mkDate (year d + dy) m 1.

(** [(pd.Timestamp(d) - pd.offsets.MonthBegin(1)).date()]: the offset is
    applied with n = -1 and compare day 1. *)
Definition minus_MonthBegin_1 (d : date) : date :=
  shift_month_start d (roll_convention (day d) (-1) 1).

End Dates.

Export Dates.

(** ** pandas frames as lists of rows *)

Module Pandas.

(** [Series.sum()] and [len] of a float column. *)
Definition Qsum (l : list Q) : Q := fold_right Qplus 0%Q l.

Definition len {A : Type} (l : list A) : Q := inject_Z (Z.of_nat (length l)).

(** [x < y] on floats. *)
Definition Qltb (x y : Q) : bool :=
  (Qnum x * QDen y <? Qnum y * QDen x)%Z.

(** [frame.empty] *)
Definition empty {A : Type} (l : list A) : bool :=
  match l with [] => true | _ => false end.

(** [frame.tail(n)]: [iloc[0:0]] when [n == 0], otherwise [iloc[-n:]], which
    keeps the last [n] rows for a positive [n] and drops the first [-n] rows
    for a negative one. *)
Definition tail {A : Type} (n : Z) (l : list A) : list A :=
  if (n =? 0)%Z then []
  else if (0 <? n)%Z then drop (length l - Z.to_nat n) l
  else drop (Z.to_nat (- n)) l.

(** [float(series.squeeze())]: the single value of a series of length one, the
    series itself otherwise, which [float] refuses with a [TypeError]. *)
Definition float_squeeze (l : list Q) : result Q :=
  match l with
  | [x] => Ok x
  | _ => Raise TypeError
  end.

(** [series.max()] on a column of dates, followed by
    [pd.to_datetime(...).date()]: [None] stands for [NaT], which is what the
    NaN maximum of an empty column converts to and what [NaT.date()]
    returns. *)
Definition max_date (l : list date) : option date :=
  match l with
  | [] => None
  | d :: r => Some (fold_left date_max r d)
  end.

(** [(a - b).days] when [b] may be [NaT]: a [date] minus [NaT] is a
    [TypeError]. *)
Definition sub_days (a : date) (b : option date) : result Z :=
  match b with
  | Some b => Ok (days_between a b)
  | None => Raise TypeError
  end.

(** [a <= b] when [b] may be [NaT]: ordering a [date] against [NaT] is a
    [TypeError]. *)
Definition le_NaT (a : date) (b : option date) : result bool :=
  match b with
  | Some b => Ok (date_leb a b)
  | None => Raise TypeError
  end.

(** A stable sort by a decidable order: rows that compare equal keep their
    frame order. *)
Section StableSort.
Context {A : Type} (R : relation A) `{forall x y, Decision (R x y)}.

Fixpoint insert_sorted (x : A) (l : list A) : list A :=
  match l with
  | [] => [x]
  | y :: l' => if decide (R x y) then x :: y :: l' else y :: insert_sorted x l'
  end.

Definition stable_sort (l : list A) : list A := foldr insert_sorted [] l.

End StableSort.

(** [x or "none"] on an optional string: [None] and the empty string are
    falsy. *)
Definition or_none (s : option string) : string :=
  match s with
  | None => "none"
  | Some s => if String.eqb s "" then "none" else s
  end.

(** [column.fillna("none")] *)
Definition fillna_none (s : option string) : string :=
  match s with
  | None => "none"
  | Some s => s
  end.

(** [column.fillna(0)] *)
Definition fillna_0 (x : option Q) : Q :=
  match x with
  | None => 0%Q
  | Some x => x
  end.

End Pandas.

(** ** Data model *)

(** A row of the weekly silver table. *)
Record WeeklyObservation : Set := mkWeekly {
  date_reported : date;
  region : string;
  stratum : option string;
  working_gas_bcf : Q;
  delta_week_bcf : Q
}.

(** A row of the operational ledger, [data/ops/ops_volumes.csv]. *)
Record OpsEntry : Set := mkOps {
  ops_date : date;
  ops_region : string;
  ops_stratum : option string;
  inj_bcf : option Q;
  wd_bcf : option Q
}.

(** The files [pd.read_csv] can see, by path; an absent path is a
    [FileNotFoundError]. A file with a header and no rows is the empty list:
    its [date] column is not parsed to datetimes, and [ops["date"].dt] is an
    [AttributeError]. *)
Abbreviation filesystem := (gmap string (list OpsEntry)).

Definition read_csv (fs : filesystem) (path : string) : option (list OpsEntry) :=
  fs !! path.

(** ** Gap estimators ([accrual/methods.py]) *)

Module Methods.
Import Pandas.

Definition obs_date_le (a b : WeeklyObservation) : Prop :=
  Is_true (date_leb (date_reported a) (date_reported b)).

(** [frame.sort_values("date_reported")]. pandas's default quicksort
    promises no order for rows with equal dates; they keep their frame order
    here, and no statement below depends on that order. *)
Definition sort_values (w : list WeeklyObservation) : list WeeklyObservation :=
  stable_sort obs_date_le w.

(** The row mask [(w["region"] == region) &
    (w["stratum"].fillna("none") == (stratum or "none"))]. *)
Definition in_group (region_ : string) (stratum_ : option string)
    (o : WeeklyObservation) : bool :=
  String.eqb (region o) region_ &&
  String.eqb (fillna_none (stratum o)) (or_none stratum_).

Definition _select_series (weekly : list WeeklyObservation)
    (region_ : string) (stratum_ : option string) : list WeeklyObservation :=
  sort_values (List.filter (in_group region_ stratum_) weekly).

Definition _gap_days (last_friday month_end_ : date) : Z :=
  Z.max (days_between month_end_ last_friday) 0.

(** The row mask [sr["date_reported"] <= asof]. *)
Definition upto (asof : date) (o : WeeklyObservation) : bool :=
  date_leb (date_reported o) asof.

(** [_gap_days] on a last reported date that may be [NaT]. *)
Definition gap_days_NaT (last_friday : option date) (month_end_ : date) : result Z :=
  perform d <- sub_days month_end_ last_friday; Ok (Z.max d 0).

Record MethodA : Set := mkMethodA { lookback_weeks : Z }.

Definition MethodA_default : MethodA := {| lookback_weeks := 4 |}.

Definition MethodA_estimate_gap (self : MethodA) (weekly : list WeeklyObservation)
    (asof : date) (region_ : string) (stratum_ : option string) : result Q :=
  let sr := _select_series weekly region_ stratum_ in
  let sr := List.filter (upto asof) sr in
  if empty sr then Ok 0%Q else
  let last_friday := max_date (map date_reported sr) in
  perform month_end_ <- Timestamp_period_end asof;
  perform g <- gap_days_NaT last_friday month_end_;
  let tail_ := tail (lookback_weeks self) sr in
  if empty tail_ then Ok 0%Q else
  let avg_daily := (Qsum (map delta_week_bcf tail_) / (7 * len tail_))%Q in
  Ok (avg_daily * inject_Z g)%Q.

Record MethodB : Set := mkMethodB { }.

(** [sr.groupby("month")["daily_rate"].mean()], read at one month: [None]
    when the month is not in the index. *)
Definition month_avg (sr : list WeeklyObservation) (m : Z) : option Q :=
  let rates :=
    map (fun o => (delta_week_bcf o / 7)%Q)
        (List.filter (fun o => (month (date_reported o) =? m)%Z) sr) in
  if empty rates then None else Some (Qsum rates / len rates)%Q.

Definition MethodB_estimate_gap (self : MethodB) (weekly : list WeeklyObservation)
    (asof : date) (region_ : string) (stratum_ : option string) : result Q :=
  let sr := _select_series weekly region_ stratum_ in
  let sr := List.filter (upto asof) sr in
  if empty sr then Ok 0%Q else
  let last_friday := max_date (map date_reported sr) in
  perform month_end_ <- Timestamp_period_end asof;
  perform g <- gap_days_NaT last_friday month_end_;
  match month_avg sr (month asof) with
  | Some r => Ok (r * inject_Z g)%Q
  | None => Ok 0%Q
  end.

Record MethodC : Set := mkMethodC { ops_path : string }.

Definition MethodC_default : MethodC := {| ops_path := "data/ops/ops_volumes.csv" |}.

(** The ledger rows strictly after the last reported date and up to the
    month end. *)
Definition in_window (last_friday month_end_ : date) (e : OpsEntry) : bool :=
  date_ltb last_friday (ops_date e) && date_leb (ops_date e) month_end_.

Definition ops_in_group (region_ : string) (stratum_ : option string)
    (e : OpsEntry) : bool :=
  String.eqb (ops_region e) region_ &&
  String.eqb (fillna_none (ops_stratum e)) (or_none stratum_).

Definition MethodC_estimate_gap (self : MethodC) (fs : filesystem)
    (weekly : list WeeklyObservation)
    (asof : date) (region_ : string) (stratum_ : option string) : result Q :=
  let sr := _select_series weekly region_ stratum_ in
  if empty sr then Ok 0%Q else
  let last_friday := max_date (map date_reported (List.filter (upto asof) sr)) in
  perform month_end_ <- Timestamp_period_end asof;
  perform covered <- le_NaT month_end_ last_friday;
  if covered then Ok 0%Q else
  match read_csv fs (ops_path self), last_friday with
  | None, _ => Ok 0%Q
  | Some [], _ => Raise AttributeError
  | Some ops, Some last_friday =>
      let ops := List.filter (in_window last_friday month_end_) ops in
      let ops := List.filter (ops_in_group region_ stratum_) ops in
      if empty ops then Ok 0%Q else
      let net := (Qsum (map (fun e => fillna_0 (inj_bcf e)) ops)
                  - Qsum (map (fun e => fillna_0 (wd_bcf e)) ops))%Q in
      Ok net
  | Some _, None => Raise TypeError  (* not reached: [le_NaT] raised *)
  end.

(** The [Estimator] protocol. The ledger file that [MethodC] reads is part of
    the state every estimator runs in. *)
Class Estimator (M : Type) : Type :=
  estimate_gap : M -> filesystem -> list WeeklyObservation -> date ->
                 string -> option string -> result Q.

#[export] Instance MethodA_Estimator : Estimator MethodA :=
  fun self _ => MethodA_estimate_gap self.

#[export] Instance MethodB_Estimator : Estimator MethodB :=
  fun self _ => MethodB_estimate_gap self.

#[export] Instance MethodC_Estimator : Estimator MethodC :=
  MethodC_estimate_gap.

Record BlendedEstimator : Type := mkBlended {
  weights : gmap string Q;
  mA : MethodA;
  mB : MethodB;
  mC : MethodC
}.

(** [dict.get(key, default)] *)
Definition get (d : gmap string Q) (k : string) (dflt : Q) : Q :=
  default dflt (d !! k).

Definition BlendedEstimator_estimate_gap (self : BlendedEstimator) (fs : filesystem)
    (weekly : list WeeklyObservation)
    (asof : date) (region_ : string) (stratum_ : option string) : result Q :=
  perform a <- estimate_gap (mA self) fs weekly asof region_ stratum_;
  perform b <- estimate_gap (mB self) fs weekly asof region_ stratum_;
  perform c <- estimate_gap (mC self) fs weekly asof region_ stratum_;
  let wA := get (weights self) "A" 0.3%Q in
  let wB := get (weights self) "B" 0.2%Q in
  let wC := get (weights self) "C" 0.5%Q in
  Ok (wA * a + wB * b + wC * c)%Q.

#[export] Instance BlendedEstimator_Estimator : Estimator BlendedEstimator :=
  BlendedEstimator_estimate_gap.

End Methods.

(** ** Monthly rollforward ([transform/build_gold.py]) *)

Module Roll.

(** The one row of the frame [build_monthly_rollforward] returns. *)
Record row : Set := mkRow {
  month_end : date;
  region : string;
  stratum : string;
  beg_working_gas_bcf : Q;
  est_injections_bcf : Q;
  est_withdrawals_bcf : Q;
  gap_delta_bcf : Q;
  gap_days : Z;
  end_working_gas_bcf : Q
}.

End Roll.

Module BuildGold.
Import Pandas Methods.

Definition _month_end (d : date) : result date := Timestamp_period_end d.

Definition _last_reported_friday (sr : list WeeklyObservation) (asof : date)
    : option date :=
  max_date (map date_reported (List.filter (upto asof) sr)).

Definition build_monthly_rollforward (fs : filesystem)
    (weekly_silver : list WeeklyObservation) (asof : date)
    (weights : Q * Q * Q) (region_ : string) (stratum_ : option string)
    : result (list Roll.row) :=
  let sr := List.filter (in_group region_ stratum_) weekly_silver in
  let sr := sort_values sr in
  perform me <- _month_end asof;
  perform prev_me <- _month_end (minus_MonthBegin_1 me);
  perform beg <-
    (if negb (empty sr)
     then float_squeeze
            (tail 1 (map working_gas_bcf
                         (List.filter (fun o => date_leb (date_reported o) prev_me) sr)))
     else Ok 0%Q);
  let in_month :=
    List.filter (fun o => same_period_M (date_reported o) me) sr in
  let inj :=
    Qsum (map delta_week_bcf
              (List.filter (fun o => Qltb 0 (delta_week_bcf o)) in_month)) in
  let wd :=
    (- Qsum (map delta_week_bcf
                 (List.filter (fun o => Qltb (delta_week_bcf o) 0) in_month)))%Q in
  let last_fri := _last_reported_friday sr asof in
  perform d <- sub_days me last_fri;
  let gap_days := Z.max d 0 in
  let '(w0, w1, w2) := weights in
  let est := {| Methods.weights := <["A" := w0]> (<["B" := w1]> (<["C" := w2]> ∅));
                mA := MethodA_default;
                mB := mkMethodB;
                mC := MethodC_default |} in
  perform gap_delta <- estimate_gap est fs weekly_silver asof region_ stratum_;
  let end_est := (beg + inj - wd + gap_delta)%Q in
  Ok [ {| Roll.month_end := me;
          Roll.region := region_;
          Roll.stratum := or_none stratum_;
          Roll.beg_working_gas_bcf := beg;
          Roll.est_injections_bcf := inj;
          Roll.est_withdrawals_bcf := wd;
          Roll.gap_delta_bcf := gap_delta;
          Roll.gap_days := gap_days;
          Roll.end_working_gas_bcf := end_est |} ].

End BuildGold.

(** ** Accruals ([accrual/calculator.py]) *)

Module Accrual.

(** A row of the frame [calc_accruals] returns, with the columns of [cols]. *)
Record row : Set := mkRow {
  month_end : date;
  region : string;
  stratum : string;
  end_working_gas_bcf : Q;
  inventory_accrual : Q;
  variable_fees : Q;
  fixed_demand : Q;
  penalties_est : Q;
  total_accrual_low : Q;
  total_accrual_base : Q;
  total_accrual_high : Q
}.

End Accrual.

Module Calculator.

Definition DEFAULT_BCF_TO_MMBTU : Q := 1037000%Q.

Record AccrualInputs : Set := mkAccrualInputs {
  wacog_per_mmbtu : Q;
  bcf_to_mmbtu_factor : Q;
  tariff_fixed_monthly : Q;
  tariff_injection_per_mmbtu : Q;
  tariff_withdrawal_per_mmbtu : Q;
  scenario_band : Q;
  penalty_probability : Q;
  penalty_amount : Q
}.

(** [AccrualInputs(wacog_per_mmbtu=w)], every other field at its default. *)
Definition AccrualInputs_default (w : Q) : AccrualInputs :=
  {| wacog_per_mmbtu := w;
     bcf_to_mmbtu_factor := DEFAULT_BCF_TO_MMBTU;
     tariff_fixed_monthly := 0%Q;
     tariff_injection_per_mmbtu := 0%Q;
     tariff_withdrawal_per_mmbtu := 0%Q;
     scenario_band := 0.10%Q;
     penalty_probability := 0%Q;
     penalty_amount := 0%Q |}.

Definition _inventory_value (bcf : Q) (ai : AccrualInputs) : Q :=
  (bcf * bcf_to_mmbtu_factor ai * wacog_per_mmbtu ai)%Q.

(** The body of [calc_accruals] on one row: every column assignment is
    row-wise. *)
Definition calc_accruals_row (ai : AccrualInputs) (r : Roll.row) : Accrual.row :=
  let inventory_accrual := _inventory_value (Roll.end_working_gas_bcf r) ai in
  let inj_mmbtu := (Roll.est_injections_bcf r * bcf_to_mmbtu_factor ai)%Q in
  let wd_mmbtu := (Roll.est_withdrawals_bcf r * bcf_to_mmbtu_factor ai)%Q in
  let variable_fees :=
    (inj_mmbtu * tariff_injection_per_mmbtu ai
     + wd_mmbtu * tariff_withdrawal_per_mmbtu ai)%Q in
  let fixed_demand := tariff_fixed_monthly ai in
  let penalties_est := (penalty_probability ai * penalty_amount ai)%Q in
  let total_accrual_base :=
    (inventory_accrual + variable_fees + fixed_demand + penalties_est)%Q in
  let band := scenario_band ai in
  {| Accrual.month_end := Roll.month_end r;
     Accrual.region := Roll.region r;
     Accrual.stratum := Roll.stratum r;
     Accrual.end_working_gas_bcf := Roll.end_working_gas_bcf r;
     Accrual.inventory_accrual := inventory_accrual;
     Accrual.variable_fees := variable_fees;
     Accrual.fixed_demand := fixed_demand;
     Accrual.penalties_est := penalties_est;
     Accrual.total_accrual_low := (total_accrual_base * (1 - band))%Q;
     Accrual.total_accrual_base := total_accrual_base;
     Accrual.total_accrual_high := (total_accrual_base * (1 + band))%Q |}.

Definition calc_accruals (monthly_roll : list Roll.row) (ai : AccrualInputs)
    : list Accrual.row :=
  map (calc_accruals_row ai) monthly_roll.

End Calculator.

(** ** Notions the statements below are phrased with *)

Module Spec.
Import Pandas Methods.

(** The rows of a (region, stratum) group, in table order. *)
Definition group_rows (weekly : list WeeklyObservation)
    (region_ : string) (stratum_ : option string) : list WeeklyObservation :=
  List.filter (in_group region_ stratum_) weekly.

(** The rows of a group reported at or before [asof], in table order. *)
Definition qualifying (weekly : list WeeklyObservation) (asof : date)
    (region_ : string) (stratum_ : option string) : list WeeklyObservation :=
  List.filter (upto asof) (group_rows weekly region_ stratum_).

(** [recent] holds the [k] most recent rows of [l] (all of them when [l] has
    fewer): [l] splits into [recent] and older rows, none of which was
    reported after a row of [recent]. *)
Definition most_recent (k : nat) (l recent : list WeeklyObservation) : Prop :=
  exists older,
    l ≡ₚ older ++ recent /\
    length recent = Nat.min k (length l) /\
    forall x y, x ∈ older -> y ∈ recent -> obs_date_le x y.

(** [d] is the last reported date of [l]. *)
Definition last_reported (l : list WeeklyObservation) (d : date) : Prop :=
  d ∈ map date_reported l /\
  forall o, o ∈ l -> Is_true (date_leb (date_reported o) d).

(** The end of the month before the month of [d], as the calendar has it. *)
Definition previous_month_end (d : date) : date :=
  if (month d =? 1)%Z then mkDate (year d - 1) 12 31
  else month_end (mkDate (year d) (month d - 1) 1).

(** The rows of a group reported in the month of [asof], by date. *)
Definition in_month_rows (weekly : list WeeklyObservation) (asof : date)
    (region_ : string) (stratum_ : option string) : list WeeklyObservation :=
  List.filter (fun o => same_period_M (date_reported o) (month_end asof))
    (sort_values (group_rows weekly region_ stratum_)).

(** The sum of the positive weekly deltas of [rows]. *)
Definition injections_of (rows : list WeeklyObservation) : Q :=
  Qsum (map delta_week_bcf (List.filter (fun o => Qltb 0 (delta_week_bcf o)) rows)).

(** The negated sum of the negative weekly deltas of [rows]. *)
Definition withdrawals_of (rows : list WeeklyObservation) : Q :=
  (- Qsum (map delta_week_bcf (List.filter (fun o => Qltb (delta_week_bcf o) 0) rows)))%Q.

(** The estimator [build_monthly_rollforward] blends with, for a weight
    triple. *)
Definition blend_of (ws : Q * Q * Q) : BlendedEstimator :=
  {| weights := <["A" := ws.1.1]> (<["B" := ws.1.2]> (<["C" := ws.2]> ∅));
     mA := MethodA_default;
     mB := mkMethodB;
     mC := MethodC_default |}.

End Spec.

(** ** KPIs ([accrual/kpis.py]) *)

Module Kpis.
Import Pandas.

(** A float cell of the KPI frame that need not be a number: [NaN] for a
    missing value and for 0/0, [Inf] for a non-zero volume over a zero
    capacity. *)
Inductive cell : Set :=
| Num (q : Q)
| NaN
| Inf.

(** A row of the silver capacity table; a blank key is [None]. *)
Record CapacityRow : Set := mkCap {
  cap_region : option string;
  cap_stratum : option string;
  cap_year : Z;
  working_capacity_bcf : option Q;
  design_capacity_bcf : option Q
}.

(** A row of the frame [compute_kpis] returns: the rollforward row, the merged
    [working_capacity_bcf] column when the frame has one, and the two KPI
    columns. *)
Record row : Set := mkRow {
  roll : Roll.row;
  capacity_bcf : option cell;
  pct_of_capacity : cell;
  zscore_vs_5yr : cell
}.

(** The group key of a capacity row; [groupby] leaves rows with a blank key
    out of every group. *)
Definition cap_key (c : CapacityRow) : option (string * string) :=
  match cap_region c, cap_stratum c with
  | Some r, Some s => Some (r, s)
  | _, _ => None
  end.

Definition has_key (k : string * string) (c : CapacityRow) : bool :=
  bool_decide (cap_key c = Some k).

Definition year_le (a b : CapacityRow) : Prop := (cap_year a <= cap_year b)%Z.

#[export] Instance year_le_dec : RelDecision year_le :=
  fun a b => decide (cap_year a <= cap_year b)%Z.

(** [capacity.sort_values("year")], rows of the same year in frame order. *)
Definition sort_by_year (caps : list CapacityRow) : list CapacityRow :=
  stable_sort year_le caps.

(** [frame.groupby(["region","stratum"]).tail(1)]: the last row of each
    group, in frame order. *)
Fixpoint groupby_tail_1 (l : list CapacityRow) : list CapacityRow :=
  match l with
  | [] => []
  | c :: r =>
      match cap_key c with
      | None => groupby_tail_1 r
      | Some k =>
          if existsb (has_key k) r then groupby_tail_1 r
          else c :: groupby_tail_1 r
      end
  end.

Definition to_cell (x : option Q) : cell :=
  match x with
  | Some q => Num q
  | None => NaN
  end.

(** [(end_working_gas_bcf / working_capacity_bcf) * 100.0] on one row. *)
Definition pct (end_bcf : Q) (cap : option Q) : cell :=
  match cap with
  | None => NaN
  | Some c =>
      if Qeq_bool c 0 then (if Qeq_bool end_bcf 0 then NaN else Inf)
      else Num (end_bcf / c * 100)%Q
  end.

(** [df.merge(latest_cap[...], on=["region","stratum"], how="left")] followed
    by the percentage: one output row per matching capacity row, and one with
    a blank capacity when nothing matches. *)
Definition merge_left (monthly_roll : list Roll.row) (latest_cap : list CapacityRow)
    : list row :=
  flat_map
    (fun r =>
       match List.filter (has_key (Roll.region r, Roll.stratum r)) latest_cap with
       | [] => [ {| roll := r; capacity_bcf := Some NaN;
                    pct_of_capacity := pct (Roll.end_working_gas_bcf r) None;
                    zscore_vs_5yr := NaN |} ]
       | ms =>
           map (fun c =>
                  {| roll := r;
                     capacity_bcf := Some (to_cell (working_capacity_bcf c));
                     pct_of_capacity :=
                       pct (Roll.end_working_gas_bcf r) (working_capacity_bcf c);
                     zscore_vs_5yr := NaN |}) ms
       end)
    monthly_roll.

Definition compute_kpis (monthly_roll : list Roll.row)
    (capacity : option (list CapacityRow)) : list row :=
  match capacity with
  | Some caps =>
      if negb (empty caps) then
        let latest_cap := groupby_tail_1 (sort_by_year caps) in
        merge_left monthly_roll latest_cap
      else
        map (fun r => {| roll := r; capacity_bcf := None;
                         pct_of_capacity := NaN; zscore_vs_5yr := NaN |})
          monthly_roll
  | None =>
      map (fun r => {| roll := r; capacity_bcf := None;
                       pct_of_capacity := NaN; zscore_vs_5yr := NaN |})
        monthly_roll
  end.

(** The capacity rows of the group of a rollforward row. *)
Definition capacity_of (caps : list CapacityRow) (r : Roll.row) : list CapacityRow :=
  List.filter (has_key (Roll.region r, Roll.stratum r)) caps.

End Kpis.

(** ** The weekly normalizer ([transform/normalize_weekly.py]) *)

Module NormalizeWeekly.

(** A row of the raw frame once its columns go by their canonical names
    ([date_reported], [region], [working_gas_bcf], all three present and
    filled); the stratum is blank where the frame has a stratum column with
    a blank in it. *)
Record RawWeekly : Set := mkRaw {
  raw_date_reported : date;
  raw_region : string;
  raw_stratum : option string;
  raw_working_gas_bcf : Q
}.

(** [if "stratum" not in df.columns: df["stratum"] = "none"] *)
Definition default_stratum (has_stratum : bool) (r : RawWeekly) : RawWeekly :=
  if has_stratum then r
  else {| raw_date_reported := raw_date_reported r;
          raw_region := raw_region r;
          raw_stratum := Some "none";
          raw_working_gas_bcf := raw_working_gas_bcf r |}.

Definition str_ltb (a b : string) : bool :=
  String.leb a b && negb (String.eqb a b).

(** Strata in ascending order, blanks last. *)
Definition stratum_ltb (a b : option string) : bool :=
  match a, b with
  | Some x, Some y => str_ltb x y
  | Some _, None => true
  | None, _ => false
  end.

Definition stratum_eqb (a b : option string) : bool :=
  match a, b with
  | Some x, Some y => String.eqb x y
  | None, None => true
  | _, _ => false
  end.

(** The order of [sort_values(["region","stratum","date_reported"])]. *)
Definition key_leb (a b : RawWeekly) : bool :=
  str_ltb (raw_region a) (raw_region b) ||
  (String.eqb (raw_region a) (raw_region b) &&
   (stratum_ltb (raw_stratum a) (raw_stratum b) ||
    (stratum_eqb (raw_stratum a) (raw_stratum b) &&
     date_leb (raw_date_reported a) (raw_date_reported b)))).

Definition key_le (a b : RawWeekly) : Prop := Is_true (key_leb a b).

(** Sorting by several columns is stable: rows with the same region,
    stratum and date keep their frame order. *)
Definition sort_by_key (rows : list RawWeekly) : list RawWeekly :=
  Pandas.stable_sort key_le rows.

(** The key [groupby(["region","stratum"])] groups a row under; a row with a
    blank stratum is in no group. *)
Definition group_key (r : RawWeekly) : option (string * string) :=
  match raw_stratum r with
  | Some s => Some (raw_region r, s)
  | None => None
  end.

(** [groupby(...)["working_gas_bcf"].diff().fillna(0.0)], row by row in frame
    order: [prev] holds the volume of the last row seen of each group. The
    first row of a group, and a row in no group, get the filled-in 0.0. *)
Fixpoint with_deltas (prev : gmap (string * string) Q) (rows : list RawWeekly)
    : list WeeklyObservation :=
  match rows with
  | [] => []
  | r :: rest =>
      let delta :=
        match group_key r with
        | Some k =>
            match prev !! k with
            | Some p => (raw_working_gas_bcf r - p)%Q
            | None => 0%Q
            end
        | None => 0%Q
        end in
      let prev' :=
        match group_key r with
        | Some k => <[k := raw_working_gas_bcf r]> prev
        | None => prev
        end in
      {| date_reported := raw_date_reported r;
         region := raw_region r;
         stratum := raw_stratum r;
         working_gas_bcf := raw_working_gas_bcf r;
         delta_week_bcf := delta |} :: with_deltas prev' rest
  end.

(** [normalize_weekly] from the frame read, [has_stratum] telling whether it
    came with a stratum column. *)
Definition normalize_weekly (has_stratum : bool) (raw : list RawWeekly)
    : list WeeklyObservation :=
  with_deltas ∅ (sort_by_key (map (default_stratum has_stratum) raw)).

(** The rows of one (region, stratum) group of a normalized table, in table
    order. *)
Definition group_of (k : string * string) (out : list WeeklyObservation)
    : list WeeklyObservation :=
  List.filter
    (fun o => bool_decide (region o = k.1 /\ stratum o = Some k.2)) out.

(** A normalized row without its delta. *)
Definition undelta (o : WeeklyObservation) : RawWeekly :=
  {| raw_date_reported := date_reported o;
     raw_region := region o;
     raw_stratum := stratum o;
     raw_working_gas_bcf := working_gas_bcf o |}.

(** Each delta of [g] is the step from the volume before it, starting from
    [p] (nothing before the first row when [p] is [None]). *)
Fixpoint chained (p : option Q) (g : list WeeklyObservation) : Prop :=
  match g with
  | [] => True
  | o :: g' =>
      delta_week_bcf o
      = match p with
        | Some pv => (working_gas_bcf o - pv)%Q
        | None => 0%Q
        end /\
      chained (Some (working_gas_bcf o)) g'
  end.

End NormalizeWeekly.

(** ** The capacity normalizer ([transform/normalize_capacity.py]) *)

Module NormalizeCapacity.
Import Pandas.

Section Frame.
(** The type of a column's data; a frame is its labelled columns, left to
    right, labels possibly repeated. *)
Context {A : Type}.

Definition columns (df : list (string * A)) : list string := map fst df.

(** [c in df.columns] *)
Definition has_column (c : string) (df : list (string * A)) : bool :=
  existsb (String.eqb c) (columns df).

(** The label mapping of [df.rename(columns={...})]. *)
Definition rename_label (c : string) : string :=
  if String.eqb c "area" then "region"
  else if String.eqb c "working_capacity" then "working_capacity_bcf"
  else if String.eqb c "design_capacity" then "design_capacity_bcf"
  else c.

Definition rename (df : list (string * A)) : list (string * A) :=
  map (fun cx => (rename_label cx.1, cx.2)) df.

Definition wanted : list string :=
  ["region"; "stratum"; "year"; "working_capacity_bcf"; "design_capacity_bcf"].

(** [[c for c in wanted if c not in df.columns]] *)
Definition missing_columns (df : list (string * A)) : list string :=
  List.filter (fun c => negb (has_column c df)) wanted.

(** [df[labels]]: for each label in turn, the columns that carry it. *)
Definition select (df : list (string * A)) (labels : list string)
    : list (string * A) :=
  flat_map (fun c => List.filter (fun cx => String.eqb cx.1 c) df) labels.

(** [normalize_capacity] from the frame read; [none_column] is the column
    filled with "none" that [df["stratum"] = "none"] appends. *)
Definition normalize_capacity (none_column : A) (raw : list (string * A))
    : result (list (string * A)) :=
  let df := rename raw in
  let df := if negb (has_column "stratum" df)
            then df ++ [("stratum", none_column)] else df in
  let missing := missing_columns df in
  if negb (empty missing) then Raise ValueError
  else Ok (select df wanted).

(** The raw frame has every column the normalizer needs, under one of its
    accepted names. *)
Definition complete_columns (raw : list (string * A)) : Prop :=
  (In "area" (columns raw) \/ In "region" (columns raw)) /\
  In "year" (columns raw) /\
  (In "working_capacity" (columns raw) \/ In "working_capacity_bcf" (columns raw)) /\
  (In "design_capacity" (columns raw) \/ In "design_capacity_bcf" (columns raw)).

End Frame.

End NormalizeCapacity.

(** ** Further notions *)

Module Notions.
Import Pandas Methods.

(** The qualifying rows reported in the calendar month of [asof], whatever
    the year. *)
Definition same_month_rows (weekly : list WeeklyObservation) (asof : date)
    (region_ : string) (stratum_ : option string) : list WeeklyObservation :=
  List.filter (fun o => (month (date_reported o) =? month asof)%Z)
    (Spec.qualifying weekly asof region_ stratum_).

(** The ledger rows of a group strictly after [last] and up to [month_end_]. *)
Definition ledger_window (ops : list OpsEntry) (last month_end_ : date)
    (region_ : string) (stratum_ : option string) : list OpsEntry :=
  List.filter (ops_in_group region_ stratum_)
    (List.filter (in_window last month_end_) ops).

(** Injections less withdrawals over ledger rows, a blank counting as 0. *)
Definition ledger_net (ops : list OpsEntry) : Q :=
  (Qsum (map (fun e => fillna_0 (inj_bcf e)) ops)
   - Qsum (map (fun e => fillna_0 (wd_bcf e)) ops))%Q.

(** The reports dated in a calendar month before the month ending [me]. *)
Definition before_month (me : date) (o : WeeklyObservation) : bool :=
  ((year (date_reported o) <? year me) ||
   ((year (date_reported o) =? year me) && (month (date_reported o) <? month me)))%Z.

(** The reports dated in the month ending [me]. *)
Definition in_month (me : date) (o : WeeklyObservation) : bool :=
  same_period_M (date_reported o) me.

(** The volume the in-month change is measured from: that of the last report
    before the month, or of the month's first report when the group has none
    before. *)
Definition opening_volume (before within : list WeeklyObservation) : option Q :=
  match last before with
  | Some b => Some (working_gas_bcf b)
  | None => working_gas_bcf <$> head within
  end.

(** Every row of [rows] is dated within the range of a nanosecond
    [Timestamp], so that [pd.to_datetime] takes its date in any version of
    pandas. *)
Definition dates_in_bounds (rows : list WeeklyObservation) : bool :=
  forallb (fun o => in_ns_bounds (date_reported o)) rows.

(** The ledger file at [path] is absent, or has rows, each dated within the
    range of a nanosecond [Timestamp]: [pd.read_csv] parses its [date] column
    to datetimes. *)
Definition ledger_readable (fs : filesystem) (path : string) : bool :=
  match read_csv fs path with
  | None => true
  | Some ops => negb (empty ops) && forallb (fun e => in_ns_bounds (ops_date e)) ops
  end.

End Notions.

(** ** Sample tables *)

Module Samples.

(** Two weekly reports of the US aggregate, newest first, one of them with
    the stratum left blank, and a report of another region. *)
Definition aug_weekly : list WeeklyObservation :=
  [ mkWeekly (mkDate 2025 8 1) "US" (Some "none") 3150 50;
    mkWeekly (mkDate 2025 7 25) "US" None 3100 0;
    mkWeekly (mkDate 2025 8 1) "East" None 800 (-12) ].

(** A group whose only report is dated after the as-of date used with it. *)
Definition late_weekly : list WeeklyObservation :=
  [ mkWeekly (mkDate 2025 9 5) "US" None 3200 50 ].

(** A group whose first report falls in the month being closed. *)
Definition aug_only : list WeeklyObservation :=
  [ mkWeekly (mkDate 2025 8 1) "US" None 3150 50 ].

Definition asof_aug : date := mkDate 2025 8 31.

(** The last date a nanosecond [Timestamp] holds; the end of its month is
    past the range. *)
Definition asof_2262 : date := mkDate 2262 4 11.

Definition default_weights : Q * Q * Q := (0.3, 0.2, 0.5)%Q.

Definition ledger : list OpsEntry :=
  [ mkOps (mkDate 2025 8 10) "US" None (Some 12%Q) (Some 2%Q);
    mkOps (mkDate 2025 8 20) "US" (Some "none") None (Some 3%Q);
    mkOps (mkDate 2025 8 12) "US" (Some "salt") (Some 40%Q) None;
    mkOps (mkDate 2025 7 30) "US" None (Some 100%Q) None ].

Definition no_files : filesystem := ∅.

Definition with_ledger : filesystem :=
  {[ "data/ops/ops_volumes.csv" := ledger ]}.

(** The same ledger, and an unrelated file next to it. *)
Definition with_ledger_and_more : filesystem :=
  <[ "data/ops/notes.csv" := [] ]> with_ledger.

(** Capacity of two groups over two years, out of year order, with a row
    whose stratum is blank. *)
Definition capacity : list Kpis.CapacityRow :=
  [ Kpis.mkCap (Some "US") (Some "none") 2025 (Some 3800%Q) (Some 4600%Q);
    Kpis.mkCap (Some "US") (Some "none") 2024 (Some 3750%Q) (Some 4600%Q);
    Kpis.mkCap (Some "US") None 2026 (Some 9999%Q) None;
    Kpis.mkCap (Some "East") (Some "none") 2025 (Some 0%Q) None ].

(** A raw weekly frame out of order, with a blank stratum in it. *)
Definition raw_weekly : list NormalizeWeekly.RawWeekly :=
  [ NormalizeWeekly.mkRaw (mkDate 2025 8 8) "US" (Some "none") 3130;
    NormalizeWeekly.mkRaw (mkDate 2025 8 1) "East" (Some "none") 800;
    NormalizeWeekly.mkRaw (mkDate 2025 7 25) "US" (Some "none") 3100;
    NormalizeWeekly.mkRaw (mkDate 2025 8 1) "US" None 12;
    NormalizeWeekly.mkRaw (mkDate 2025 8 1) "US" (Some "none") 3150 ].

(** A raw weekly frame with every stratum filled and one report per date
    and group. *)
Definition raw_clean : list NormalizeWeekly.RawWeekly :=
  [ NormalizeWeekly.mkRaw (mkDate 2025 8 8) "US" (Some "none") 3130;
    NormalizeWeekly.mkRaw (mkDate 2025 8 1) "East" (Some "none") 800;
    NormalizeWeekly.mkRaw (mkDate 2025 7 25) "US" (Some "none") 3100;
    NormalizeWeekly.mkRaw (mkDate 2025 8 15) "US" (Some "none") 3145;
    NormalizeWeekly.mkRaw (mkDate 2025 8 1) "US" (Some "none") 3150 ].

Definition roll_row (rg : string) (end_bcf : Q) : Roll.row :=
  {| Roll.month_end := mkDate 2025 8 31;
     Roll.region := rg;
     Roll.stratum := "none";
     Roll.beg_working_gas_bcf := end_bcf;
     Roll.est_injections_bcf := 0;
     Roll.est_withdrawals_bcf := 0;
     Roll.gap_delta_bcf := 0;
     Roll.gap_days := 0;
     Roll.end_working_gas_bcf := end_bcf |}.

End Samples.

(** * Properties *)

Import Pandas Methods BuildGold Calculator Spec.

(** ** The error monad *)

Lemma bind_Ok {A B : Type} (r : result A) (k : A -> result B) (b : B) :
  bind r k = Ok b -> exists a, r = Ok a /\ k a = Ok b.
Proof. destruct r as [a|e]; simpl; intros H; [eauto | discriminate]. Qed.

Lemma bind_ret {A B : Type} (a : A) (k : A -> result B) : bind (Ok a) k = k a.
Proof. reflexivity. Qed.

Lemma bind_raise {A B : Type} (e : exn) (k : A -> result B) :
  bind (Raise e) k = Raise e.
Proof. reflexivity. Qed.

(** ** Dates *)

Ltac bool_to_Z :=
  rewrite ?Is_true_true in *;
  rewrite ?orb_true_iff, ?andb_true_iff, ?negb_true_iff, ?orb_false_iff,
    ?andb_false_iff, ?Z.ltb_lt, ?Z.eqb_eq, ?Z.leb_le, ?Z.ltb_ge, ?Z.eqb_neq,
    ?Z.leb_gt in *.

Lemma date_leb_refl (a : date) : date_leb a a = true.
Proof. unfold date_leb. bool_to_Z. lia. Qed.

Lemma date_leb_trans (a b c : date) :
  date_leb a b = true -> date_leb b c = true -> date_leb a c = true.
Proof. unfold date_leb. bool_to_Z. lia. Qed.

Lemma date_leb_total (a b : date) : date_leb a b = true \/ date_leb b a = true.
Proof.
  unfold date_leb. bool_to_Z.
  destruct (Z.lt_trichotomy (year a) (year b)) as [?|[?|?]];
  destruct (Z.lt_trichotomy (month a) (month b)) as [?|[?|?]];
  destruct (Z.le_gt_cases (day a) (day b)); lia.
Qed.

Lemma date_leb_false (a b : date) : date_leb a b = false -> date_leb b a = true.
Proof. destruct (date_leb_total a b) as [H|H]; congruence. Qed.

Lemma days_in_month_bounds (y m : Z) : (28 <= days_in_month y m <= 31)%Z.
Proof.
  unfold days_in_month.
  destruct (m =? 2)%Z; [destruct (is_leap y); lia|].
  destruct (_ || _); lia.
Qed.

(** A date is at or before the end of its month. *)
Lemma date_leb_month_end (d : date) :
  (day d <= days_in_month (year d) (month d))%Z -> date_leb d (month_end d) = true.
Proof. unfold date_leb, month_end. simpl. bool_to_Z. lia. Qed.

(** [me - MonthBegin(1)] on a month end is the first day of the same month:
    the offset rolls back to the anchor and counts that as its one step. *)
Lemma minus_MonthBegin_1_month_end (d : date) :
  (1 <= month d <= 12)%Z ->
  minus_MonthBegin_1 (month_end d) = mkDate (year d) (month d) 1.
Proof.
  intros Hm. unfold minus_MonthBegin_1, roll_convention, month_end. simpl.
  pose proof (days_in_month_bounds (year d) (month d)) as Hb.
  replace (days_in_month (year d) (month d) <? 1)%Z with false
    by (symmetry; apply Z.ltb_ge; lia).
  replace (1 <? days_in_month (year d) (month d))%Z with true
    by (symmetry; apply Z.ltb_lt; lia).
  simpl. unfold shift_month_start. simpl.
  rewrite Z.add_0_r.
  destruct (Z.eq_dec (month d) 12%Z) as [->|Hne]; [simpl; change (12 / 12)%Z with 1%Z; f_equal; lia|].
  rewrite Z.mod_small, Z.div_small by lia.
  replace (month d =? 0)%Z with false by (symmetry; apply Z.eqb_neq; lia).
  f_equal. lia.
Qed.

(** The date the builder calls [prev_me] is the end of the month of [asof]
    itself. *)
Lemma prev_me_is_me (asof : date) :
  (1 <= month asof <= 12)%Z ->
  month_end (minus_MonthBegin_1 (month_end asof)) = month_end asof.
Proof.
  intros Hm. rewrite minus_MonthBegin_1_month_end by assumption. reflexivity.
Qed.

(** The end of a month a nanosecond [Timestamp] can hold is computed, and
    of no other. *)
Lemma period_end_Ok (d : date) :
  in_period_bounds d = true -> Timestamp_period_end d = Ok (month_end d).
Proof. unfold Timestamp_period_end. intros ->. reflexivity. Qed.

Lemma period_end_Raise (d : date) :
  in_period_bounds d = false -> Timestamp_period_end d = Raise OutOfBoundsDatetime.
Proof. unfold Timestamp_period_end. intros ->. reflexivity. Qed.

Lemma period_end_inv (d me : date) :
  Timestamp_period_end d = Ok me -> in_period_bounds d = true /\ me = month_end d.
Proof.
  unfold Timestamp_period_end. destruct (in_period_bounds d); [|discriminate].
  intros [= <-]. split; reflexivity.
Qed.

Lemma in_period_bounds_same_month (d d' : date) :
  year d' = year d -> month d' = month d ->
  in_period_bounds d' = in_period_bounds d.
Proof. unfold in_period_bounds. intros -> ->. reflexivity. Qed.

(** [prev_me] is computed whenever [me] is. *)
Lemma prev_me_Ok (asof : date) :
  (1 <= month asof <= 12)%Z ->
  in_period_bounds asof = true ->
  _month_end (minus_MonthBegin_1 (month_end asof)) = Ok (month_end asof).
Proof.
  intros Hm Hb. unfold _month_end.
  rewrite period_end_Ok.
  - rewrite prev_me_is_me by assumption. reflexivity.
  - rewrite minus_MonthBegin_1_month_end by assumption.
    rewrite <- Hb. apply in_period_bounds_same_month; reflexivity.
Qed.

(** ** Frames: filtering, sorting, tails *)

Section Frames.
Context {A : Type}.
Implicit Types (f : A -> bool) (l : list A).

Lemma empty_true l : empty l = true <-> l = [].
Proof. destruct l; simpl; split; congruence. Qed.

Lemma empty_false l : empty l = false <-> l <> [].
Proof. destruct l; simpl; split; congruence. Qed.

Lemma elem_of_filter f l x : x ∈ List.filter f l <-> x ∈ l /\ f x = true.
Proof. rewrite !list_elem_of_In. apply filter_In. Qed.

Lemma filter_perm f l l' : l ≡ₚ l' -> List.filter f l ≡ₚ List.filter f l'.
Proof.
  induction 1 as [|x l l' _ IH|x y l|l l' l'' _ IH1 _ IH2]; simpl.
  - constructor.
  - destruct (f x); [constructor|]; exact IH.
  - destruct (f x), (f y); try reflexivity. constructor.
  - etransitivity; eassumption.
Qed.

Lemma filter_nil_iff f l : List.filter f l = [] <-> forall x, x ∈ l -> f x = false.
Proof.
  induction l as [|a l IH]; simpl.
  - split; [intros _ x Hx; inversion Hx | reflexivity].
  - destruct (f a) eqn:Ha; split.
    + discriminate.
    + intros H. specialize (H a (list_elem_of_here _ _)). congruence.
    + intros H x Hx. apply elem_of_cons in Hx as [->|Hx]; [assumption|].
      apply IH; assumption.
    + intros H. apply IH. intros x Hx. apply H. right. assumption.
Qed.

Lemma filter_StronglySorted (R : relation A) f l :
  StronglySorted R l -> StronglySorted R (List.filter f l).
Proof.
  induction 1 as [|a l Hs IH Hall]; simpl; [constructor|].
  destruct (f a); [|exact IH].
  constructor; [exact IH|].
  apply Forall_forall. intros x Hx. apply elem_of_filter in Hx as [Hx _].
  rewrite Forall_forall in Hall. apply Hall, Hx.
Qed.

(** A positive [tail(n)] keeps the last [n] rows, or all rows of a shorter
    frame. *)
Lemma tail_pos (n : Z) l :
  (0 < n)%Z -> tail n l = drop (length l - Z.to_nat n) l.
Proof.
  intros Hn. unfold tail.
  replace (n =? 0)%Z with false by (symmetry; apply Z.eqb_neq; lia).
  replace (0 <? n)%Z with true by (symmetry; apply Z.ltb_lt; lia).
  reflexivity.
Qed.

Lemma tail_pos_length (n : Z) l :
  (0 < n)%Z -> length (tail n l) = Nat.min (Z.to_nat n) (length l).
Proof. intros Hn. rewrite tail_pos, length_drop by assumption. lia. Qed.

Lemma tail_pos_split (n : Z) l :
  (0 < n)%Z -> l = take (length l - Z.to_nat n) l ++ tail n l.
Proof. intros Hn. rewrite tail_pos by assumption. symmetry. apply take_drop. Qed.

Lemma tail_pos_nonempty (n : Z) l : (0 < n)%Z -> l <> [] -> tail n l <> [].
Proof.
  intros Hn Hl Ht. apply (f_equal length) in Ht.
  rewrite tail_pos_length in Ht by assumption.
  destruct l; [congruence|]. simpl in Ht. lia.
Qed.

End Frames.

Section StableSortProps.
Context {A : Type} (R : relation A) `{forall x y, Decision (R x y)}.

Lemma insert_sorted_perm (x : A) (l : list A) : insert_sorted R x l ≡ₚ x :: l.
Proof.
  induction l as [|y l IH]; simpl; [reflexivity|].
  destruct (decide (R x y)); [reflexivity|].
  rewrite IH. apply Permutation_swap.
Qed.

Lemma stable_sort_Permutation (l : list A) : stable_sort R l ≡ₚ l.
Proof.
  induction l as [|x l IH]; simpl; [reflexivity|].
  rewrite insert_sorted_perm, IH. reflexivity.
Qed.

Lemma insert_sorted_StronglySorted `{!Transitive R, !Total R} (x : A) (l : list A) :
  StronglySorted R l -> StronglySorted R (insert_sorted R x l).
Proof.
  induction 1 as [|y l Hs IH Hall]; simpl.
  - constructor; constructor.
  - destruct (decide (R x y)) as [Hxy|Hxy].
    + constructor; [constructor; assumption|].
      constructor; [exact Hxy|].
      eapply Forall_impl; [exact Hall|]. intros z Hz. etransitivity; eassumption.
    + assert (Hyx : R y x) by (destruct (total R x y); [contradiction|assumption]).
      constructor; [exact IH|].
      apply Forall_forall. intros z Hz. rewrite insert_sorted_perm in Hz.
      apply elem_of_cons in Hz as [->|Hz]; [exact Hyx|].
      rewrite Forall_forall in Hall. apply Hall, Hz.
Qed.

Lemma StronglySorted_stable_sort `{!Transitive R, !Total R} (l : list A) :
  StronglySorted R (stable_sort R l).
Proof.
  induction l as [|x l IH]; simpl; [constructor|].
  apply insert_sorted_StronglySorted, IH.
Qed.

End StableSortProps.

#[local] Instance obs_date_le_trans : Transitive obs_date_le.
Proof.
  intros a b c. unfold obs_date_le. rewrite !Is_true_true. apply date_leb_trans.
Qed.

#[local] Instance obs_date_le_total : Total obs_date_le.
Proof.
  intros a b. unfold obs_date_le. rewrite !Is_true_true. apply date_leb_total.
Qed.

Lemma sort_values_perm (w : list WeeklyObservation) : sort_values w ≡ₚ w.
Proof. apply stable_sort_Permutation. Qed.

Lemma sort_values_sorted (w : list WeeklyObservation) :
  StronglySorted obs_date_le (sort_values w).
Proof. apply StronglySorted_stable_sort; apply _. Qed.

Lemma perm_nil_iff {A : Type} (l l' : list A) : l ≡ₚ l' -> l = [] <-> l' = [].
Proof.
  intros H. split; intros ->.
  - apply Permutation_nil. assumption.
  - apply Permutation_nil. symmetry. assumption.
Qed.

(** [_select_series] holds the rows of the group, by date. *)
Lemma select_series_perm weekly rg st :
  _select_series weekly rg st ≡ₚ group_rows weekly rg st.
Proof. apply sort_values_perm. Qed.

Lemma select_series_upto_perm weekly asof rg st :
  List.filter (upto asof) (_select_series weekly rg st) ≡ₚ qualifying weekly asof rg st.
Proof. apply filter_perm, select_series_perm. Qed.

Lemma select_series_upto_sorted weekly asof rg st :
  StronglySorted obs_date_le (List.filter (upto asof) (_select_series weekly rg st)).
Proof. apply filter_StronglySorted, sort_values_sorted. Qed.

(** ** The last reported date *)

Lemma fold_date_max_spec (r : list date) (d0 : date) :
  let m := fold_left date_max r d0 in
  m ∈ d0 :: r /\ forall d, d ∈ d0 :: r -> date_leb d m = true.
Proof.
  revert d0. induction r as [|a r IH]; intros d0; simpl.
  - split; [left|]. intros d Hd. apply list_elem_of_singleton in Hd as ->.
    apply date_leb_refl.
  - destruct (IH (date_max d0 a)) as [Hin Hmax]. split.
    + apply elem_of_cons in Hin as [Heq|Hin].
      * rewrite Heq. unfold date_max. destruct (date_leb d0 a); [right|]; left.
      * right. right. assumption.
    + intros d Hd.
      assert (Hstep : date_leb d0 (date_max d0 a) = true /\
                      date_leb a (date_max d0 a) = true).
      { unfold date_max. destruct (date_leb d0 a) eqn:E.
        - split; [assumption|apply date_leb_refl].
        - split; [apply date_leb_refl|apply date_leb_false; assumption]. }
      destruct Hstep as [H0 Ha].
      apply elem_of_cons in Hd as [->|Hd].
      * eapply date_leb_trans; [exact H0|]. apply Hmax. left.
      * apply elem_of_cons in Hd as [->|Hd].
        -- eapply date_leb_trans; [exact Ha|]. apply Hmax. left.
        -- apply Hmax. right. assumption.
Qed.

Lemma max_date_None (l : list date) : max_date l = None <-> l = [].
Proof. destruct l; simpl; split; congruence. Qed.

(** [max] of the date column is the last reported date of the frame. *)
Lemma max_date_last_reported (l : list WeeklyObservation) (d : date) :
  max_date (map date_reported l) = Some d -> last_reported l d.
Proof.
  destruct l as [|o l]; simpl; [discriminate|]. intros [= <-].
  destruct (fold_date_max_spec (map date_reported l) (date_reported o)) as [Hin Hmax].
  split; [exact Hin|].
  intros x Hx. apply Is_true_true, Hmax.
  change (date_reported x ∈ map date_reported (o :: l)).
  apply list_elem_of_In, in_map, list_elem_of_In. assumption.
Qed.

Lemma last_reported_perm (l l' : list WeeklyObservation) (d : date) :
  l ≡ₚ l' -> last_reported l d -> last_reported l' d.
Proof.
  intros Hp [Hin Hmax]. split.
  - rewrite <- Hp. assumption.
  - intros o Ho. apply Hmax. rewrite Hp. assumption.
Qed.

(** ** Estimators A and B *)

(** [MethodA.estimate_gap] by cases on the rows at or before [asof]: the
    subtraction in [_gap_days] never meets [NaT], and the month end is taken
    only when there is such a row. *)
Lemma MethodA_estimate_gap_eq self weekly asof rg st :
  MethodA_estimate_gap self weekly asof rg st =
  let sr := List.filter (upto asof) (_select_series weekly rg st) in
  match max_date (map date_reported sr) with
  | None => Ok 0%Q
  | Some last =>
      perform me <- Timestamp_period_end asof;
      let t := tail (lookback_weeks self) sr in
      if empty t then Ok 0%Q
      else Ok (Qsum (map delta_week_bcf t) / (7 * len t)
               * inject_Z (_gap_days last me))%Q
  end.
Proof.
  unfold MethodA_estimate_gap. cbv zeta.
  destruct (List.filter (upto asof) (_select_series weekly rg st)) as [|o sr];
    [reflexivity|].
  destruct (Timestamp_period_end asof); reflexivity.
Qed.

Lemma MethodB_estimate_gap_eq self weekly asof rg st :
  MethodB_estimate_gap self weekly asof rg st =
  let sr := List.filter (upto asof) (_select_series weekly rg st) in
  match max_date (map date_reported sr) with
  | None => Ok 0%Q
  | Some last =>
      perform me <- Timestamp_period_end asof;
      match month_avg sr (month asof) with
      | Some r => Ok (r * inject_Z (_gap_days last me))%Q
      | None => Ok 0%Q
      end
  end.
Proof.
  unfold MethodB_estimate_gap. cbv zeta.
  destruct (List.filter (upto asof) (_select_series weekly rg st)) as [|o sr];
    [reflexivity|].
  destruct (Timestamp_period_end asof); reflexivity.
Qed.

(** The same, as of a date whose month end a [Timestamp] can hold. *)
Lemma MethodA_estimate_gap_at self weekly asof rg st :
  in_period_bounds asof = true ->
  MethodA_estimate_gap self weekly asof rg st =
  let sr := List.filter (upto asof) (_select_series weekly rg st) in
  match max_date (map date_reported sr) with
  | None => Ok 0%Q
  | Some last =>
      let t := tail (lookback_weeks self) sr in
      if empty t then Ok 0%Q
      else Ok (Qsum (map delta_week_bcf t) / (7 * len t)
               * inject_Z (_gap_days last (month_end asof)))%Q
  end.
Proof.
  intros Hb. rewrite MethodA_estimate_gap_eq, (period_end_Ok _ Hb). reflexivity.
Qed.

Lemma MethodB_estimate_gap_at self weekly asof rg st :
  in_period_bounds asof = true ->
  MethodB_estimate_gap self weekly asof rg st =
  let sr := List.filter (upto asof) (_select_series weekly rg st) in
  match max_date (map date_reported sr) with
  | None => Ok 0%Q
  | Some last =>
      match month_avg sr (month asof) with
      | Some r => Ok (r * inject_Z (_gap_days last (month_end asof)))%Q
      | None => Ok 0%Q
      end
  end.
Proof.
  intros Hb. rewrite MethodB_estimate_gap_eq, (period_end_Ok _ Hb). reflexivity.
Qed.

(** Estimators A and B return as of every date whose month end a [Timestamp]
    can hold. *)
Lemma MethodA_total self weekly asof rg st :
  in_period_bounds asof = true ->
  exists a, MethodA_estimate_gap self weekly asof rg st = Ok a.
Proof.
  intros Hb. rewrite MethodA_estimate_gap_at by assumption. cbv zeta.
  destruct (max_date _); [|eauto]. destruct (empty _); eauto.
Qed.

Lemma MethodB_total self weekly asof rg st :
  in_period_bounds asof = true ->
  exists b, MethodB_estimate_gap self weekly asof rg st = Ok b.
Proof.
  intros Hb. rewrite MethodB_estimate_gap_at by assumption. cbv zeta.
  destruct (max_date _); [|eauto]. destruct (month_avg _ _); eauto.
Qed.

(** As of any other date they raise as soon as the group has a report at or
    before it. *)
Lemma MethodA_out_of_bounds self weekly asof rg st :
  in_period_bounds asof = false ->
  qualifying weekly asof rg st <> [] ->
  MethodA_estimate_gap self weekly asof rg st = Raise OutOfBoundsDatetime.
Proof.
  intros Hb Hq. rewrite MethodA_estimate_gap_eq, (period_end_Raise _ Hb). cbv zeta.
  destruct (List.filter (upto asof) (_select_series weekly rg st)) as [|o sr] eqn:E.
  - exfalso. apply Hq.
    apply (perm_nil_iff _ _ (select_series_upto_perm weekly asof rg st)). exact E.
  - reflexivity.
Qed.

Lemma MethodB_out_of_bounds self weekly asof rg st :
  in_period_bounds asof = false ->
  qualifying weekly asof rg st <> [] ->
  MethodB_estimate_gap self weekly asof rg st = Raise OutOfBoundsDatetime.
Proof.
  intros Hb Hq. rewrite MethodB_estimate_gap_eq, (period_end_Raise _ Hb). cbv zeta.
  destruct (List.filter (upto asof) (_select_series weekly rg st)) as [|o sr] eqn:E.
  - exfalso. apply Hq.
    apply (perm_nil_iff _ _ (select_series_upto_perm weekly asof rg st)). exact E.
  - reflexivity.
Qed.

Lemma select_series_nil weekly rg st :
  group_rows weekly rg st = [] -> _select_series weekly rg st = [].
Proof.
  intros H. apply (perm_nil_iff _ _ (select_series_perm weekly rg st)). exact H.
Qed.

Lemma select_series_upto_nil weekly asof rg st :
  qualifying weekly asof rg st = [] ->
  List.filter (upto asof) (_select_series weekly rg st) = [].
Proof.
  intros H.
  apply (perm_nil_iff _ _ (select_series_upto_perm weekly asof rg st)). exact H.
Qed.

(** With no row at or before [asof], A and B return 0.0. *)
Lemma MethodA_no_prior self weekly asof rg st :
  qualifying weekly asof rg st = [] ->
  MethodA_estimate_gap self weekly asof rg st = Ok 0%Q.
Proof.
  intros H. rewrite MethodA_estimate_gap_eq. cbv zeta.
  rewrite select_series_upto_nil by assumption. reflexivity.
Qed.

Lemma MethodB_no_prior self weekly asof rg st :
  qualifying weekly asof rg st = [] ->
  MethodB_estimate_gap self weekly asof rg st = Ok 0%Q.
Proof.
  intros H. rewrite MethodB_estimate_gap_eq. cbv zeta.
  rewrite select_series_upto_nil by assumption. reflexivity.
Qed.

Lemma qualifying_of_empty_group weekly asof rg st :
  group_rows weekly rg st = [] -> qualifying weekly asof rg st = [].
Proof. unfold qualifying. intros ->. reflexivity. Qed.

(** ** Estimator C *)

Lemma MethodC_estimate_gap_eq self fs weekly asof rg st :
  MethodC_estimate_gap self fs weekly asof rg st =
  let sr := _select_series weekly rg st in
  if empty sr then Ok 0%Q else
  perform me <- Timestamp_period_end asof;
  match max_date (map date_reported (List.filter (upto asof) sr)) with
  | None => Raise TypeError
  | Some last =>
      if date_leb me last then Ok 0%Q else
      match read_csv fs (ops_path self) with
      | None => Ok 0%Q
      | Some file =>
          if empty file then Raise AttributeError else
          let ops := List.filter (ops_in_group rg st)
                       (List.filter (in_window last me) file) in
          if empty ops then Ok 0%Q
          else Ok (Qsum (map (fun e => fillna_0 (inj_bcf e)) ops)
                   - Qsum (map (fun e => fillna_0 (wd_bcf e)) ops))%Q
      end
  end.
Proof.
  unfold MethodC_estimate_gap. cbv zeta.
  destruct (empty _); [reflexivity|].
  destruct (Timestamp_period_end asof) as [me|e]; [|reflexivity].
  rewrite !bind_ret.
  destruct (max_date _) as [last|]; simpl; [|reflexivity].
  destruct (date_leb _ _); [reflexivity|].
  destruct (read_csv _ _) as [[|e file]|]; reflexivity.
Qed.

(** The same, as of a date whose month end a [Timestamp] can hold. *)
Lemma MethodC_estimate_gap_at self fs weekly asof rg st :
  in_period_bounds asof = true ->
  MethodC_estimate_gap self fs weekly asof rg st =
  let sr := _select_series weekly rg st in
  if empty sr then Ok 0%Q else
  match max_date (map date_reported (List.filter (upto asof) sr)) with
  | None => Raise TypeError
  | Some last =>
      if date_leb (month_end asof) last then Ok 0%Q else
      match read_csv fs (ops_path self) with
      | None => Ok 0%Q
      | Some file =>
          if empty file then Raise AttributeError else
          let ops := List.filter (ops_in_group rg st)
                       (List.filter (in_window last (month_end asof)) file) in
          if empty ops then Ok 0%Q
          else Ok (Qsum (map (fun e => fillna_0 (inj_bcf e)) ops)
                   - Qsum (map (fun e => fillna_0 (wd_bcf e)) ops))%Q
      end
  end.
Proof.
  intros Hb. rewrite MethodC_estimate_gap_eq, (period_end_Ok _ Hb). reflexivity.
Qed.

Lemma MethodC_empty_group self fs weekly asof rg st :
  group_rows weekly rg st = [] ->
  MethodC_estimate_gap self fs weekly asof rg st = Ok 0%Q.
Proof.
  intros H. unfold MethodC_estimate_gap.
  rewrite select_series_nil by assumption. reflexivity.
Qed.

Lemma select_series_not_empty weekly rg st :
  group_rows weekly rg st <> [] -> empty (_select_series weekly rg st) = false.
Proof.
  intros Hne. apply empty_false. intros Hs. apply Hne.
  apply (perm_nil_iff _ _ (select_series_perm weekly rg st)). exact Hs.
Qed.

(** A group with rows, none of them at or before [asof]: the comparison of the
    month end with [NaT] raises. *)
Lemma MethodC_no_prior self fs weekly asof rg st :
  in_period_bounds asof = true ->
  group_rows weekly rg st <> [] ->
  qualifying weekly asof rg st = [] ->
  MethodC_estimate_gap self fs weekly asof rg st = Raise TypeError.
Proof.
  intros Hb Hne Hq. rewrite MethodC_estimate_gap_at by assumption. cbv zeta.
  rewrite select_series_not_empty by assumption.
  rewrite select_series_upto_nil by assumption. reflexivity.
Qed.

(** A group with rows, as of a date whose month end no [Timestamp] holds. *)
Lemma MethodC_out_of_bounds self fs weekly asof rg st :
  in_period_bounds asof = false ->
  group_rows weekly rg st <> [] ->
  MethodC_estimate_gap self fs weekly asof rg st = Raise OutOfBoundsDatetime.
Proof.
  intros Hb Hne. rewrite MethodC_estimate_gap_eq. cbv zeta.
  rewrite select_series_not_empty by assumption.
  rewrite (period_end_Raise _ Hb). reflexivity.
Qed.

(** With a row at or before [asof], C returns, unless it gets to read a
    ledger without rows. *)
Lemma MethodC_returns self fs weekly asof rg st :
  in_period_bounds asof = true ->
  read_csv fs (ops_path self) <> Some [] ->
  qualifying weekly asof rg st <> [] ->
  exists c, MethodC_estimate_gap self fs weekly asof rg st = Ok c.
Proof.
  intros Hb Hfs Hq. rewrite MethodC_estimate_gap_at by assumption. cbv zeta.
  destruct (empty _); [eauto|].
  destruct (List.filter (upto asof) (_select_series weekly rg st)) as [|o sr] eqn:E.
  - exfalso. apply Hq.
    apply (perm_nil_iff _ _ (select_series_upto_perm weekly asof rg st)). exact E.
  - simpl. destruct (date_leb _ _); [eauto|].
    destruct (read_csv _ _) as [[|e file]|]; [congruence| |eauto].
    simpl empty at 1. cbv iota. destruct (empty _); eauto.
Qed.

(** ** The blended estimator *)

Lemma blended_estimate_gap_eq self fs weekly asof rg st a b c :
  MethodA_estimate_gap (mA self) weekly asof rg st = Ok a ->
  MethodB_estimate_gap (mB self) weekly asof rg st = Ok b ->
  MethodC_estimate_gap (mC self) fs weekly asof rg st = Ok c ->
  BlendedEstimator_estimate_gap self fs weekly asof rg st =
  Ok (get (weights self) "A" 0.3 * a + get (weights self) "B" 0.2 * b
      + get (weights self) "C" 0.5 * c)%Q.
Proof.
  intros Ha Hb Hc. unfold BlendedEstimator_estimate_gap, estimate_gap,
    MethodA_Estimator, MethodB_Estimator, MethodC_Estimator.
  rewrite Ha, Hb, Hc. reflexivity.
Qed.

Lemma blended_raises_with_C self fs weekly asof rg st e :
  in_period_bounds asof = true ->
  MethodC_estimate_gap (mC self) fs weekly asof rg st = Raise e ->
  BlendedEstimator_estimate_gap self fs weekly asof rg st = Raise e.
Proof.
  intros Hb Hc. unfold BlendedEstimator_estimate_gap, estimate_gap,
    MethodA_Estimator, MethodB_Estimator, MethodC_Estimator.
  destruct (MethodA_total (mA self) weekly asof rg st Hb) as [a ->].
  destruct (MethodB_total (mB self) weekly asof rg st Hb) as [b ->].
  rewrite Hc. reflexivity.
Qed.

(** The blend returns only if its three estimators do. *)
Lemma blended_Ok self fs weekly asof rg st v :
  BlendedEstimator_estimate_gap self fs weekly asof rg st = Ok v ->
  exists a b c,
    MethodA_estimate_gap (mA self) weekly asof rg st = Ok a /\
    MethodB_estimate_gap (mB self) weekly asof rg st = Ok b /\
    MethodC_estimate_gap (mC self) fs weekly asof rg st = Ok c.
Proof.
  unfold BlendedEstimator_estimate_gap, estimate_gap,
    MethodA_Estimator, MethodB_Estimator, MethodC_Estimator.
  intros H.
  apply bind_Ok in H as (a & Ha & H).
  apply bind_Ok in H as (b & Hb & H).
  apply bind_Ok in H as (c & Hc & H).
  eauto 6.
Qed.

(** C4. Every estimator — A, B, C and the blend of them — returns 0.0, and
    raises nothing, when the table has no row of the (region, stratum) group.
    The blend returns the weighted sum of three zeros, which is zero as a
    number. *)
Theorem estimators_zero_on_empty_group
    (a : MethodA) (b : MethodB) (c : MethodC) (bl : BlendedEstimator)
    (fs : filesystem) (weekly : list WeeklyObservation) (asof : date)
    (rg : string) (st : option string) :
  group_rows weekly rg st = [] ->
  estimate_gap a fs weekly asof rg st = Ok 0%Q /\
  estimate_gap b fs weekly asof rg st = Ok 0%Q /\
  estimate_gap c fs weekly asof rg st = Ok 0%Q /\
  exists v, estimate_gap bl fs weekly asof rg st = Ok v /\ (v == 0)%Q.
Proof.
  intros Hg.
  pose proof (qualifying_of_empty_group weekly asof rg st Hg) as Hq.
  assert (HA : forall m, MethodA_estimate_gap m weekly asof rg st = Ok 0%Q)
    by (intros m; apply MethodA_no_prior; exact Hq).
  assert (HB : forall m, MethodB_estimate_gap m weekly asof rg st = Ok 0%Q)
    by (intros m; apply MethodB_no_prior; exact Hq).
  assert (HC : forall m, MethodC_estimate_gap m fs weekly asof rg st = Ok 0%Q)
    by (intros m; apply MethodC_empty_group; exact Hg).
  split; [apply HA|]. split; [apply HB|]. split; [apply HC|].
  eexists. split.
  - apply blended_estimate_gap_eq; [apply HA | apply HB | apply HC].
  - ring.
Qed.

Lemma estimators_zero_on_empty_group_witness :
  group_rows Samples.aug_weekly "Pacific" None = [] /\
  estimate_gap MethodA_default Samples.with_ledger Samples.aug_weekly
    Samples.asof_aug "Pacific" None = Ok 0%Q /\
  exists v,
    estimate_gap (mkBlended ∅ MethodA_default mkMethodB MethodC_default)
      Samples.with_ledger Samples.aug_weekly Samples.asof_aug "Pacific" None = Ok v /\
    (v == 0)%Q.
Proof.
  assert (Hg : group_rows Samples.aug_weekly "Pacific" None = []) by reflexivity.
  destruct (estimators_zero_on_empty_group MethodA_default mkMethodB MethodC_default
              (mkBlended ∅ MethodA_default mkMethodB MethodC_default)
              Samples.with_ledger Samples.aug_weekly Samples.asof_aug
              "Pacific" None Hg) as (HA & _ & _ & HBl).
  split; [exact Hg|]. split; [exact HA|exact HBl].
Defined.

(** C5. The blended estimate is [wA*A + wB*B + wC*C] on the three component
    estimates of the same inputs, for any weights: each weight is read from
    the dictionary as it is, 0.3, 0.2 and 0.5 standing in for an absent "A",
    "B" and "C", and nothing rescales them to sum to one. *)
Theorem blended_is_weighted_sum
    (self : BlendedEstimator) (fs : filesystem)
    (weekly : list WeeklyObservation) (asof : date)
    (rg : string) (st : option string) (a b c : Q) :
  estimate_gap (mA self) fs weekly asof rg st = Ok a ->
  estimate_gap (mB self) fs weekly asof rg st = Ok b ->
  estimate_gap (mC self) fs weekly asof rg st = Ok c ->
  let wA := match weights self !! "A" with Some w => w | None => 0.3%Q end in
  let wB := match weights self !! "B" with Some w => w | None => 0.2%Q end in
  let wC := match weights self !! "C" with Some w => w | None => 0.5%Q end in
  estimate_gap self fs weekly asof rg st = Ok (wA * a + wB * b + wC * c)%Q.
Proof.
  intros Ha Hb Hc. cbv zeta.
  exact (blended_estimate_gap_eq self fs weekly asof rg st a b c Ha Hb Hc).
Qed.

Lemma blended_is_weighted_sum_witness :
  let self := mkBlended (<["A" := 2%Q]> (<["B" := 3%Q]> ∅))
                MethodA_default mkMethodB MethodC_default in
  let run {M} `{Estimator M} (m : M) :=
    estimate_gap m Samples.with_ledger Samples.aug_weekly Samples.asof_aug "US" None in
  run (mA self) = Ok (1500 # 14)%Q /\
  run (mB self) = Ok (1500 # 7)%Q /\
  run (mC self) = Ok 7%Q /\
  run self = Ok (2 * (1500 # 14) + 3 * (1500 # 7) + 0.5 * 7)%Q.
Proof.
  cbv zeta.
  assert (Ha : estimate_gap MethodA_default Samples.with_ledger Samples.aug_weekly
                 Samples.asof_aug "US" None = Ok (1500 # 14)%Q)
    by (vm_compute; reflexivity).
  assert (Hb : estimate_gap mkMethodB Samples.with_ledger Samples.aug_weekly
                 Samples.asof_aug "US" None = Ok (1500 # 7)%Q)
    by (vm_compute; reflexivity).
  assert (Hc : estimate_gap MethodC_default Samples.with_ledger Samples.aug_weekly
                 Samples.asof_aug "US" None = Ok 7%Q)
    by (vm_compute; reflexivity).
  split; [exact Ha|]. split; [exact Hb|]. split; [exact Hc|].
  exact (blended_is_weighted_sum
           (mkBlended (<["A" := 2%Q]> (<["B" := 3%Q]> ∅))
              MethodA_default mkMethodB MethodC_default)
           Samples.with_ledger Samples.aug_weekly Samples.asof_aug "US" None
           _ _ _ Ha Hb Hc).
Defined.

(** ** Estimator A on a group with reports *)

(** The tail of the date-sorted qualifying rows is made of their most recent
    rows. *)
Lemma tail_most_recent (n : Z) weekly asof rg st :
  (0 < n)%Z ->
  most_recent (Z.to_nat n) (qualifying weekly asof rg st)
    (tail n (List.filter (upto asof) (_select_series weekly rg st))).
Proof.
  intros Hn.
  set (sr := List.filter (upto asof) (_select_series weekly rg st)).
  pose proof (select_series_upto_perm weekly asof rg st) as Hp. fold sr in Hp.
  pose proof (select_series_upto_sorted weekly asof rg st) as Hs. fold sr in Hs.
  exists (take (length sr - Z.to_nat n) sr). split; [|split].
  - rewrite <- Hp. rewrite <- (tail_pos_split n sr Hn). reflexivity.
  - rewrite tail_pos_length by assumption. rewrite <- Hp. reflexivity.
  - intros x y Hx Hy. rewrite (tail_pos_split n sr Hn) in Hs.
    eapply StronglySorted_app_1_elem_of; eassumption.
Qed.

(** C6, as the code has it. As of a date in a month from 1677-09 to 2262-03,
    the months whose end a pandas [Timestamp] holds, and on a group with at
    least one report at or before [asof], all such reports dated within the
    range of a [Timestamp], estimator A with a positive lookback returns the
    sum of the weekly deltas of the [lookback_weeks] most recent such
    reports, divided by seven times their number, times the gap-day count
    [max (month_end - last, 0)], where [last] is the last reported date at or
    before [asof] and [month_end] the end of the month of [asof]. The default
    lookback is 4. *)
Theorem MethodA_historical_average
    (self : MethodA) (fs : filesystem)
    (weekly : list WeeklyObservation) (asof : date)
    (rg : string) (st : option string) :
  (0 < lookback_weeks self)%Z ->
  in_period_bounds asof = true ->
  Notions.dates_in_bounds (qualifying weekly asof rg st) = true ->
  qualifying weekly asof rg st <> [] ->
  lookback_weeks MethodA_default = 4%Z /\
  exists recent last,
    most_recent (Z.to_nat (lookback_weeks self)) (qualifying weekly asof rg st) recent /\
    last_reported (qualifying weekly asof rg st) last /\
    estimate_gap self fs weekly asof rg st =
    Ok (Qsum (map delta_week_bcf recent) / (7 * len recent)
        * inject_Z (Z.max (days_between (month_end asof) last) 0))%Q.
Proof.
  intros Hn Hb _ Hq. split; [reflexivity|].
  set (sr := List.filter (upto asof) (_select_series weekly rg st)).
  pose proof (select_series_upto_perm weekly asof rg st) as Hp. fold sr in Hp.
  assert (Hsr : sr <> []).
  { intros E. apply Hq. apply (perm_nil_iff _ _ Hp). exact E. }
  destruct (max_date (map date_reported sr)) as [last|] eqn:Hmax.
  2:{ apply max_date_None in Hmax. destruct sr; [congruence|discriminate]. }
  exists (tail (lookback_weeks self) sr), last. split; [|split].
  - apply tail_most_recent. exact Hn.
  - eapply last_reported_perm; [exact Hp|]. apply max_date_last_reported. exact Hmax.
  - unfold estimate_gap, MethodA_Estimator.
    rewrite MethodA_estimate_gap_at by assumption. cbv zeta. fold sr. rewrite Hmax.
    replace (empty (tail (lookback_weeks self) sr)) with false; [reflexivity|].
    symmetry. apply empty_false. apply tail_pos_nonempty; assumption.
Qed.

Lemma MethodA_historical_average_witness :
  (0 < lookback_weeks (mkMethodA 1))%Z /\
  in_period_bounds Samples.asof_aug = true /\
  Notions.dates_in_bounds (qualifying Samples.aug_weekly Samples.asof_aug "US" None)
    = true /\
  qualifying Samples.aug_weekly Samples.asof_aug "US" None <> [] /\
  exists recent last,
    most_recent 1 (qualifying Samples.aug_weekly Samples.asof_aug "US" None) recent /\
    last_reported (qualifying Samples.aug_weekly Samples.asof_aug "US" None) last /\
    estimate_gap (mkMethodA 1) Samples.no_files Samples.aug_weekly
      Samples.asof_aug "US" None =
    Ok (Qsum (map delta_week_bcf recent) / (7 * len recent)
        * inject_Z (Z.max (days_between (month_end Samples.asof_aug) last) 0))%Q.
Proof.
  assert (Hn : (0 < lookback_weeks (mkMethodA 1))%Z) by reflexivity.
  assert (Hb : in_period_bounds Samples.asof_aug = true) by reflexivity.
  assert (Hr : Notions.dates_in_bounds
                 (qualifying Samples.aug_weekly Samples.asof_aug "US" None) = true)
    by (vm_compute; reflexivity).
  assert (Hq : qualifying Samples.aug_weekly Samples.asof_aug "US" None <> [])
    by (vm_compute; discriminate).
  split; [exact Hn|]. split; [exact Hb|]. split; [exact Hr|]. split; [exact Hq|].
  exact (proj2 (MethodA_historical_average (mkMethodA 1) Samples.no_files
                  Samples.aug_weekly Samples.asof_aug "US" None Hn Hb Hr Hq)).
Defined.

(** C6, as stated, fails: as of 2262-04-11 the group has reports at or before
    the date and the lookback is the default 4, yet estimator A returns
    nothing; taking the end of the month raises [OutOfBoundsDatetime]. *)
Lemma MethodA_raises_past_timestamp_range :
  (0 < lookback_weeks MethodA_default)%Z /\
  qualifying Samples.aug_weekly Samples.asof_2262 "US" None <> [] /\
  estimate_gap MethodA_default Samples.no_files Samples.aug_weekly
    Samples.asof_2262 "US" None = Raise OutOfBoundsDatetime /\
  ~ (exists recent last,
       most_recent (Z.to_nat (lookback_weeks MethodA_default))
         (qualifying Samples.aug_weekly Samples.asof_2262 "US" None) recent /\
       last_reported (qualifying Samples.aug_weekly Samples.asof_2262 "US" None) last /\
       estimate_gap MethodA_default Samples.no_files Samples.aug_weekly
         Samples.asof_2262 "US" None =
       Ok (Qsum (map delta_week_bcf recent) / (7 * len recent)
           * inject_Z (Z.max (days_between (month_end Samples.asof_2262) last) 0))%Q).
Proof.
  assert (Hq : qualifying Samples.aug_weekly Samples.asof_2262 "US" None <> [])
    by (vm_compute; discriminate).
  assert (Hr : estimate_gap MethodA_default Samples.no_files Samples.aug_weekly
                 Samples.asof_2262 "US" None = Raise OutOfBoundsDatetime)
    by (apply MethodA_out_of_bounds; [reflexivity|exact Hq]).
  split; [reflexivity|]. split; [exact Hq|]. split; [exact Hr|].
  intros (recent & last & _ & _ & H). rewrite Hr in H. discriminate H.
Qed.

(** ** The rollforward builder *)

Lemma Qltb_lt (x y : Q) : Qltb x y = true <-> (x < y)%Q.
Proof. unfold Qltb, Qlt. apply Z.ltb_lt. Qed.

Lemma Qsum_nonneg (l : list Q) : Forall (fun x => (0 <= x)%Q) l -> (0 <= Qsum l)%Q.
Proof.
  induction 1 as [|x l Hx _ IH]; simpl; [apply Qle_refl|].
  change (0 + 0 <= x + Qsum l)%Q. apply Qplus_le_compat; assumption.
Qed.

Lemma Qsum_nonpos (l : list Q) : Forall (fun x => (x <= 0)%Q) l -> (Qsum l <= 0)%Q.
Proof.
  induction 1 as [|x l Hx _ IH]; simpl; [apply Qle_refl|].
  change (x + Qsum l <= 0 + 0)%Q. apply Qplus_le_compat; assumption.
Qed.

Lemma injections_of_nonneg rows : (0 <= injections_of rows)%Q.
Proof.
  unfold injections_of. apply Qsum_nonneg.
  apply Forall_forall. intros x Hx.
  apply list_elem_of_In, in_map_iff in Hx as (o & <- & Ho).
  apply filter_In in Ho as [_ Ho]. apply Qltb_lt in Ho. apply Qlt_le_weak, Ho.
Qed.

Lemma withdrawals_of_nonneg rows : (0 <= withdrawals_of rows)%Q.
Proof.
  unfold withdrawals_of.
  apply (Qopp_le_compat _ 0%Q). apply Qsum_nonpos.
  apply Forall_forall. intros x Hx.
  apply list_elem_of_In, in_map_iff in Hx as (o & <- & Ho).
  apply filter_In in Ho as [_ Ho]. apply Qltb_lt in Ho. apply Qlt_le_weak, Ho.
Qed.

(** What a returned frame looks like: one row, whose columns are the values
    the body computed on the way. *)
Lemma build_monthly_rollforward_Ok fs weekly asof ws rg st rows :
  build_monthly_rollforward fs weekly asof ws rg st = Ok rows ->
  exists beg d gap_delta,
    (let sr := sort_values (group_rows weekly rg st) in
     let prev_me := month_end (minus_MonthBegin_1 (month_end asof)) in
     if negb (empty sr)
     then float_squeeze
            (tail 1 (map working_gas_bcf
                         (List.filter (fun o => date_leb (date_reported o) prev_me) sr)))
     else Ok 0%Q) = Ok beg /\
    sub_days (month_end asof)
      (_last_reported_friday (sort_values (group_rows weekly rg st)) asof) = Ok d /\
    estimate_gap (blend_of ws) fs weekly asof rg st = Ok gap_delta /\
    let inj := injections_of (in_month_rows weekly asof rg st) in
    let wd := withdrawals_of (in_month_rows weekly asof rg st) in
    rows = [ {| Roll.month_end := month_end asof;
                Roll.region := rg;
                Roll.stratum := or_none st;
                Roll.beg_working_gas_bcf := beg;
                Roll.est_injections_bcf := inj;
                Roll.est_withdrawals_bcf := wd;
                Roll.gap_delta_bcf := gap_delta;
                Roll.gap_days := Z.max d 0;
                Roll.end_working_gas_bcf := (beg + inj - wd + gap_delta)%Q |} ].
Proof.
  unfold build_monthly_rollforward, _month_end. destruct ws as [[w0 w1] w2]. cbv zeta.
  intros H.
  apply bind_Ok in H as (me & Hme & H). apply period_end_inv in Hme as [_ ->].
  apply bind_Ok in H as (prev_me & Hprev & H). apply period_end_inv in Hprev as [_ ->].
  apply bind_Ok in H as (beg & Hbeg & H).
  apply bind_Ok in H as (d & Hd & H).
  apply bind_Ok in H as (gap_delta & Hgap & H).
  injection H as <-.
  exists beg, d, gap_delta.
  split; [exact Hbeg|]. split; [exact Hd|]. split; [exact Hgap|]. reflexivity.
Qed.

(** The builder returns only as of a date whose month end a [Timestamp] can
    hold. *)
Lemma build_monthly_rollforward_in_bounds fs weekly asof ws rg st rows :
  build_monthly_rollforward fs weekly asof ws rg st = Ok rows ->
  in_period_bounds asof = true.
Proof.
  unfold build_monthly_rollforward, _month_end. intros H.
  apply bind_Ok in H as (me & Hme & _). apply period_end_inv in Hme as [Hb _].
  exact Hb.
Qed.

(** As of any other date it raises before it looks at the table. *)
Lemma build_monthly_rollforward_out_of_bounds fs weekly asof ws rg st :
  in_period_bounds asof = false ->
  build_monthly_rollforward fs weekly asof ws rg st = Raise OutOfBoundsDatetime.
Proof.
  intros Hb. unfold build_monthly_rollforward, _month_end.
  rewrite (period_end_Raise _ Hb). reflexivity.
Qed.

(** The body of the builder once [me] and [prev_me] are computed. *)
Lemma build_monthly_rollforward_at fs weekly asof ws rg st :
  (1 <= month asof <= 12)%Z ->
  in_period_bounds asof = true ->
  build_monthly_rollforward fs weekly asof ws rg st =
  let sr := sort_values (group_rows weekly rg st) in
  let me := month_end asof in
  perform beg <-
    (if negb (empty sr)
     then float_squeeze
            (tail 1 (map working_gas_bcf
                         (List.filter (fun o => date_leb (date_reported o) me) sr)))
     else Ok 0%Q);
  perform d <- sub_days me (_last_reported_friday sr asof);
  perform gap_delta <- estimate_gap (blend_of ws) fs weekly asof rg st;
  let inj := injections_of (in_month_rows weekly asof rg st) in
  let wd := withdrawals_of (in_month_rows weekly asof rg st) in
  Ok [ {| Roll.month_end := me;
          Roll.region := rg;
          Roll.stratum := or_none st;
          Roll.beg_working_gas_bcf := beg;
          Roll.est_injections_bcf := inj;
          Roll.est_withdrawals_bcf := wd;
          Roll.gap_delta_bcf := gap_delta;
          Roll.gap_days := Z.max d 0;
          Roll.end_working_gas_bcf := (beg + inj - wd + gap_delta)%Q |} ].
Proof.
  intros Hm Hb. unfold build_monthly_rollforward. destruct ws as [[w0 w1] w2].
  unfold _month_end at 1. rewrite (period_end_Ok _ Hb), bind_ret.
  rewrite (prev_me_Ok _ Hm Hb), bind_ret. reflexivity.
Qed.

Lemma tail_1_singleton {A : Type} (l : list A) :
  l <> [] -> exists x, tail 1 l = [x].
Proof.
  intros Hl.
  assert (Hlen : length (tail 1 l) = 1).
  { rewrite tail_pos_length by lia. destruct l; [congruence|]. simpl. lia. }
  destruct (tail 1 l) as [|x [|y t]]; simpl in Hlen; try lia. eauto.
Qed.

Lemma qualifying_has_row weekly asof rg st :
  qualifying weekly asof rg st <> [] ->
  exists o, o ∈ sort_values (group_rows weekly rg st) /\ upto asof o = true.
Proof.
  intros Hq. destruct (qualifying weekly asof rg st) as [|o l] eqn:E; [congruence|].
  assert (Ho : o ∈ qualifying weekly asof rg st) by (rewrite E; left).
  apply elem_of_filter in Ho as [Ho Hup].
  exists o. split; [|exact Hup]. rewrite sort_values_perm. exact Ho.
Qed.

(** The builder returns a frame of one row as soon as the group has a report
    at or before [asof], the end of the month of [asof] is a date a
    [Timestamp] can hold, and the ledger file is absent or has rows. *)
Lemma build_monthly_rollforward_returns fs weekly asof ws rg st :
  valid_date asof ->
  in_period_bounds asof = true ->
  read_csv fs (ops_path MethodC_default) <> Some [] ->
  qualifying weekly asof rg st <> [] ->
  exists r, build_monthly_rollforward fs weekly asof ws rg st = Ok [r].
Proof.
  intros (_ & Hm & _ & Hd) Hb Hfs Hq.
  destruct (qualifying_has_row weekly asof rg st Hq) as (o & Ho & Hup).
  rewrite build_monthly_rollforward_at by assumption. cbv zeta.
  set (sr := sort_values (group_rows weekly rg st)) in *.
  assert (Hsr : empty sr = false).
  { apply empty_false. intros E. rewrite E in Ho. inversion Ho. }
  rewrite Hsr. simpl negb. cbv iota.
  set (prior := List.filter (fun o => date_leb (date_reported o) (month_end asof)) sr).
  assert (Hprior : map working_gas_bcf prior <> []).
  { assert (Hin : o ∈ prior).
    { apply elem_of_filter. split; [exact Ho|].
      eapply date_leb_trans; [exact Hup|]. apply date_leb_month_end, Hd. }
    destruct prior; [inversion Hin|discriminate]. }
  destruct (tail_1_singleton _ Hprior) as [beg ->]. simpl bind at 1.
  unfold _last_reported_friday.
  assert (Hupto : List.filter (upto asof) sr <> []).
  { intros E. apply Hq.
    apply (perm_nil_iff _ _ (select_series_upto_perm weekly asof rg st)). exact E. }
  destruct (List.filter (upto asof) sr) as [|o' l'] eqn:E; [congruence|].
  simpl max_date. simpl sub_days. simpl bind at 1.
  destruct (MethodA_total MethodA_default weekly asof rg st Hb) as [a Ha].
  destruct (MethodB_total mkMethodB weekly asof rg st Hb) as [b Hb'].
  destruct (MethodC_returns MethodC_default fs weekly asof rg st Hb Hfs Hq) as [c Hc].
  unfold estimate_gap at 1, BlendedEstimator_Estimator.
  erewrite blended_estimate_gap_eq by eassumption.
  simpl. eauto.
Qed.

(** C1. Every row of the frame [build_monthly_rollforward] returns has
    [end_working_gas_bcf = beg_working_gas_bcf + est_injections_bcf
     - est_withdrawals_bcf + gap_delta_bcf], exactly, hence within 1e-9. *)
Theorem rollforward_invariant
    (fs : filesystem) (weekly : list WeeklyObservation) (asof : date)
    (ws : Q * Q * Q) (rg : string) (st : option string)
    (rows : list Roll.row) (r : Roll.row) :
  build_monthly_rollforward fs weekly asof ws rg st = Ok rows ->
  r ∈ rows ->
  Roll.end_working_gas_bcf r =
    (Roll.beg_working_gas_bcf r + Roll.est_injections_bcf r
     - Roll.est_withdrawals_bcf r + Roll.gap_delta_bcf r)%Q /\
  (Qabs (Roll.end_working_gas_bcf r
         - (Roll.beg_working_gas_bcf r + Roll.est_injections_bcf r
            - Roll.est_withdrawals_bcf r + Roll.gap_delta_bcf r))
   <= 1 # 1000000000)%Q.
Proof.
  intros H Hr.
  apply build_monthly_rollforward_Ok in H as (beg & d & gap & _ & _ & _ & ->).
  apply list_elem_of_singleton in Hr as ->.
  cbn [Roll.end_working_gas_bcf Roll.beg_working_gas_bcf Roll.est_injections_bcf
       Roll.est_withdrawals_bcf Roll.gap_delta_bcf].
  split; [reflexivity|].
  match goal with |- (Qabs ?e <= _)%Q => assert (He : (e == 0)%Q) by ring end.
  rewrite He. discriminate.
Qed.

Lemma rollforward_invariant_witness :
  let r := {| Roll.month_end := mkDate 2025 8 31;
              Roll.region := "US";
              Roll.stratum := "none";
              Roll.beg_working_gas_bcf := 3150;
              Roll.est_injections_bcf := 50;
              Roll.est_withdrawals_bcf := 0;
              Roll.gap_delta_bcf := 7693000 # 98000;
              Roll.gap_days := 30;
              Roll.end_working_gas_bcf := 321293000 # 98000 |} in
  build_monthly_rollforward Samples.with_ledger Samples.aug_weekly Samples.asof_aug
    Samples.default_weights "US" None = Ok [r] /\
  r ∈ [r] /\
  Roll.end_working_gas_bcf r =
    (Roll.beg_working_gas_bcf r + Roll.est_injections_bcf r
     - Roll.est_withdrawals_bcf r + Roll.gap_delta_bcf r)%Q /\
  (Qabs (Roll.end_working_gas_bcf r
         - (Roll.beg_working_gas_bcf r + Roll.est_injections_bcf r
            - Roll.est_withdrawals_bcf r + Roll.gap_delta_bcf r))
   <= 1 # 1000000000)%Q.
Proof.
  intros r.
  assert (H : build_monthly_rollforward Samples.with_ledger Samples.aug_weekly
                Samples.asof_aug Samples.default_weights "US" None = Ok [r])
    by (vm_compute; reflexivity).
  assert (Hr : r ∈ [r]) by left.
  split; [exact H|]. split; [exact Hr|].
  exact (rollforward_invariant _ _ _ _ _ _ _ _ H Hr).
Defined.

(** C10. In every row the builder returns, the injections are the sum of the
    positive weekly deltas reported in the month and the withdrawals the
    negated sum of the negative ones, so neither is negative. *)
Theorem rollforward_flows_nonnegative
    (fs : filesystem) (weekly : list WeeklyObservation) (asof : date)
    (ws : Q * Q * Q) (rg : string) (st : option string)
    (rows : list Roll.row) (r : Roll.row) :
  build_monthly_rollforward fs weekly asof ws rg st = Ok rows ->
  r ∈ rows ->
  Roll.est_injections_bcf r = injections_of (in_month_rows weekly asof rg st) /\
  Roll.est_withdrawals_bcf r = withdrawals_of (in_month_rows weekly asof rg st) /\
  (0 <= Roll.est_injections_bcf r)%Q /\
  (0 <= Roll.est_withdrawals_bcf r)%Q.
Proof.
  intros H Hr.
  apply build_monthly_rollforward_Ok in H as (beg & d & gap & _ & _ & _ & ->).
  apply list_elem_of_singleton in Hr as ->.
  cbn [Roll.est_injections_bcf Roll.est_withdrawals_bcf].
  split; [reflexivity|]. split; [reflexivity|].
  split; [apply injections_of_nonneg | apply withdrawals_of_nonneg].
Qed.

Lemma rollforward_flows_nonnegative_witness :
  let r := {| Roll.month_end := mkDate 2025 8 31;
              Roll.region := "East";
              Roll.stratum := "none";
              Roll.beg_working_gas_bcf := 800;
              Roll.est_injections_bcf := 0;
              Roll.est_withdrawals_bcf := 12;
              Roll.gap_delta_bcf := -1260000 # 49000;
              Roll.gap_days := 30;
              Roll.end_working_gas_bcf := 37352000 # 49000 |} in
  build_monthly_rollforward Samples.no_files Samples.aug_weekly Samples.asof_aug
    Samples.default_weights "East" None = Ok [r] /\
  r ∈ [r] /\
  (0 <= Roll.est_injections_bcf r)%Q /\
  (0 <= Roll.est_withdrawals_bcf r)%Q.
Proof.
  intros r.
  assert (H : build_monthly_rollforward Samples.no_files Samples.aug_weekly
                Samples.asof_aug Samples.default_weights "East" None = Ok [r])
    by (vm_compute; reflexivity).
  assert (Hr : r ∈ [r]) by left.
  split; [exact H|]. split; [exact Hr|].
  exact (proj2 (proj2 (rollforward_flows_nonnegative _ _ _ _ _ _ _ _ H Hr))).
Defined.

(** ** What the builder reads besides its arguments *)

Lemma MethodC_reads_one_file self fs1 fs2 weekly asof rg st :
  read_csv fs1 (ops_path self) = read_csv fs2 (ops_path self) ->
  MethodC_estimate_gap self fs1 weekly asof rg st =
  MethodC_estimate_gap self fs2 weekly asof rg st.
Proof.
  intros H. rewrite !MethodC_estimate_gap_eq. cbv zeta. rewrite H. reflexivity.
Qed.

Lemma blended_reads_one_file self fs1 fs2 weekly asof rg st :
  read_csv fs1 (ops_path (mC self)) = read_csv fs2 (ops_path (mC self)) ->
  BlendedEstimator_estimate_gap self fs1 weekly asof rg st =
  BlendedEstimator_estimate_gap self fs2 weekly asof rg st.
Proof.
  intros H. unfold BlendedEstimator_estimate_gap, estimate_gap,
    MethodA_Estimator, MethodB_Estimator, MethodC_Estimator.
  rewrite (MethodC_reads_one_file _ fs1 fs2 _ _ _ _ H). reflexivity.
Qed.

(** C9, as the code has it. Two runs of the builder on the same table, as-of
    date, weights, region and stratum return the same frame whenever the
    ledger file [data/ops/ops_volumes.csv] reads the same in both: that file
    is the one thing the result depends on besides the arguments. *)
Theorem rollforward_deterministic_given_ledger
    (fs1 fs2 : filesystem) (weekly : list WeeklyObservation) (asof : date)
    (ws : Q * Q * Q) (rg : string) (st : option string) :
  read_csv fs1 "data/ops/ops_volumes.csv" = read_csv fs2 "data/ops/ops_volumes.csv" ->
  build_monthly_rollforward fs1 weekly asof ws rg st =
  build_monthly_rollforward fs2 weekly asof ws rg st.
Proof.
  intros H. unfold build_monthly_rollforward. destruct ws as [[w0 w1] w2]. cbv zeta.
  unfold estimate_gap at 1 2, BlendedEstimator_Estimator.
  pose proof (blended_reads_one_file
                (blend_of (w0, w1, w2)) fs1 fs2 weekly asof rg st H) as E.
  unfold blend_of in E. cbn [fst snd] in E. rewrite E. reflexivity.
Qed.

Lemma rollforward_deterministic_given_ledger_witness :
  Samples.with_ledger <> Samples.with_ledger_and_more /\
  read_csv Samples.with_ledger "data/ops/ops_volumes.csv" =
  read_csv Samples.with_ledger_and_more "data/ops/ops_volumes.csv" /\
  build_monthly_rollforward Samples.with_ledger Samples.aug_weekly
    Samples.asof_aug Samples.default_weights "US" None =
  build_monthly_rollforward Samples.with_ledger_and_more Samples.aug_weekly
    Samples.asof_aug Samples.default_weights "US" None.
Proof.
  assert (H : read_csv Samples.with_ledger "data/ops/ops_volumes.csv" =
              read_csv Samples.with_ledger_and_more "data/ops/ops_volumes.csv")
    by (vm_compute; reflexivity).
  split; [|split; [exact H|]].
  - intros E. apply (f_equal (fun m => read_csv m "data/ops/notes.csv")) in E.
    vm_compute in E. discriminate E.
  - exact (rollforward_deterministic_given_ledger _ _ Samples.aug_weekly
             Samples.asof_aug Samples.default_weights "US" None H).
Defined.

(** C9, as stated, fails: the same arguments give two different frames when
    the ledger file is absent in one run and present in the other. *)
Lemma rollforward_depends_on_ledger_file :
  ~ (forall (fs1 fs2 : filesystem) (weekly : list WeeklyObservation) (asof : date)
            (ws : Q * Q * Q) (rg : string) (st : option string),
       build_monthly_rollforward fs1 weekly asof ws rg st =
       build_monthly_rollforward fs2 weekly asof ws rg st).
Proof.
  intros H.
  specialize (H Samples.no_files Samples.with_ledger Samples.aug_weekly
                Samples.asof_aug Samples.default_weights "US" None).
  vm_compute in H. discriminate H.
Qed.

(** ** A group with no report at or before the as-of date *)

Lemma float_squeeze_raises (l : list Q) (e : exn) :
  float_squeeze l = Raise e -> e = TypeError.
Proof. destruct l as [|x [|y l]]; simpl; congruence. Qed.

(** The subtraction of [NaT] from the month end stops the builder, whatever
    came before it. *)
Lemma build_monthly_rollforward_no_prior fs weekly asof ws rg st :
  (1 <= month asof <= 12)%Z ->
  in_period_bounds asof = true ->
  qualifying weekly asof rg st = [] ->
  build_monthly_rollforward fs weekly asof ws rg st = Raise TypeError.
Proof.
  intros Hm Hb Hq. rewrite build_monthly_rollforward_at by assumption. cbv zeta.
  match goal with |- bind ?b _ = _ => destruct b as [beg|e] eqn:Hbeg end.
  - rewrite bind_ret. unfold _last_reported_friday.
    change (sort_values (group_rows weekly rg st)) with (_select_series weekly rg st).
    rewrite select_series_upto_nil by assumption. reflexivity.
  - simpl. f_equal. destruct (negb _); [|discriminate].
    eapply float_squeeze_raises. exact Hbeg.
Qed.

(** C7 at a group whose only report is dated 2025-09-05, as of 2025-08-31:
    A and B return 0.0, while the gap-day count, C, the blend and the builder
    raise [TypeError]. *)
Theorem no_prior_report_raises :
  group_rows Samples.late_weekly "US" None <> [] /\
  qualifying Samples.late_weekly Samples.asof_aug "US" None = [] /\
  estimate_gap MethodA_default Samples.no_files Samples.late_weekly
    Samples.asof_aug "US" None = Ok 0%Q /\
  estimate_gap mkMethodB Samples.no_files Samples.late_weekly
    Samples.asof_aug "US" None = Ok 0%Q /\
  gap_days_NaT (_last_reported_friday
                  (sort_values (group_rows Samples.late_weekly "US" None))
                  Samples.asof_aug)
    (month_end Samples.asof_aug) = Raise TypeError /\
  estimate_gap MethodC_default Samples.no_files Samples.late_weekly
    Samples.asof_aug "US" None = Raise TypeError /\
  estimate_gap (blend_of Samples.default_weights) Samples.no_files Samples.late_weekly
    Samples.asof_aug "US" None = Raise TypeError /\
  build_monthly_rollforward Samples.no_files Samples.late_weekly Samples.asof_aug
    Samples.default_weights "US" None = Raise TypeError.
Proof.
  assert (Hg : group_rows Samples.late_weekly "US" None <> [])
    by (vm_compute; discriminate).
  assert (Hq : qualifying Samples.late_weekly Samples.asof_aug "US" None = [])
    by reflexivity.
  split; [exact Hg|]. split; [exact Hq|].
  split; [apply MethodA_no_prior, Hq|].
  split; [apply MethodB_no_prior, Hq|].
  split; [reflexivity|].
  split; [apply MethodC_no_prior; [reflexivity|assumption..]|].
  split; [apply blended_raises_with_C, MethodC_no_prior;
          [reflexivity|reflexivity|assumption..]|].
  apply build_monthly_rollforward_no_prior; [simpl; lia|reflexivity|exact Hq].
Qed.

(** ** The beginning volume *)

(** The beginning volume of a returned row is the volume of the group's last
    report at or before the end of the month of [asof] itself. *)
Lemma build_monthly_rollforward_beg fs weekly asof ws rg st rows r :
  (1 <= month asof <= 12)%Z ->
  build_monthly_rollforward fs weekly asof ws rg st = Ok rows ->
  r ∈ rows ->
  float_squeeze
    (tail 1 (map working_gas_bcf
               (List.filter (fun o => date_leb (date_reported o) (month_end asof))
                  (sort_values (group_rows weekly rg st)))))
  = Ok (Roll.beg_working_gas_bcf r).
Proof.
  intros Hm H Hr.
  apply build_monthly_rollforward_Ok in H as (beg & d & gap & Hbeg & Hd & _ & ->).
  apply list_elem_of_singleton in Hr as ->. cbn [Roll.beg_working_gas_bcf].
  cbv zeta in Hbeg. rewrite (prev_me_is_me asof Hm) in Hbeg.
  destruct (sort_values (group_rows weekly rg st)) as [|o sr] eqn:E.
  - discriminate Hd.
  - exact Hbeg.
Qed.

(** C8 against the code. As of 2025-08-31 the previous month's end is
    2025-07-31 and the group's volume at or before it is 3100, yet the row
    begins at 3150, the volume of the report of 2025-08-01; a group whose
    first report is in the month being closed begins at that report's volume
    instead of 0.0; and a group with no report up to the month end, or with no
    report at all, makes the builder raise [TypeError]. *)
Theorem beginning_volume_diverges :
  previous_month_end Samples.asof_aug = mkDate 2025 7 31 /\
  map working_gas_bcf
    (List.filter
       (fun o => date_leb (date_reported o) (previous_month_end Samples.asof_aug))
       (sort_values (group_rows Samples.aug_weekly "US" None))) = [3100%Q] /\
  (exists r,
     build_monthly_rollforward Samples.no_files Samples.aug_weekly Samples.asof_aug
       Samples.default_weights "US" None = Ok [r] /\
     Roll.beg_working_gas_bcf r = 3150%Q) /\
  (List.filter
     (fun o => date_leb (date_reported o) (previous_month_end Samples.asof_aug))
     (sort_values (group_rows Samples.aug_only "US" None)) = [] /\
   exists r,
     build_monthly_rollforward Samples.no_files Samples.aug_only Samples.asof_aug
       Samples.default_weights "US" None = Ok [r] /\
     Roll.beg_working_gas_bcf r = 3150%Q) /\
  build_monthly_rollforward Samples.no_files Samples.late_weekly Samples.asof_aug
    Samples.default_weights "US" None = Raise TypeError /\
  build_monthly_rollforward Samples.no_files [] Samples.asof_aug
    Samples.default_weights "US" None = Raise TypeError.
Proof.
  split; [reflexivity|]. split; [vm_compute; reflexivity|].
  split; [eexists; split; [vm_compute; reflexivity|reflexivity]|].
  split; [split; [vm_compute; reflexivity|]|].
  - eexists; split; [vm_compute; reflexivity|reflexivity].
  - split; apply build_monthly_rollforward_no_prior;
      solve [reflexivity | simpl; lia].
Qed.

(** ** Accruals *)


(** C3. Row by row, [calc_accruals] sets
    [inventory_accrual = end volume * factor * wacog],
    [variable_fees = injections * factor * injection tariff
                     + withdrawals * factor * withdrawal tariff],
    [fixed_demand = tariff_fixed_monthly],
    [penalties_est = penalty_probability * penalty_amount], and
    [total_accrual_base] to the sum of the four. *)
Theorem accrual_lines (monthly_roll : list Roll.row) (ai : AccrualInputs) :
  Forall2
    (fun r a =>
       Accrual.inventory_accrual a
         = (Roll.end_working_gas_bcf r * bcf_to_mmbtu_factor ai
            * wacog_per_mmbtu ai)%Q /\
       Accrual.variable_fees a
         = (Roll.est_injections_bcf r * bcf_to_mmbtu_factor ai
              * tariff_injection_per_mmbtu ai
            + Roll.est_withdrawals_bcf r * bcf_to_mmbtu_factor ai
              * tariff_withdrawal_per_mmbtu ai)%Q /\
       Accrual.fixed_demand a = tariff_fixed_monthly ai /\
       Accrual.penalties_est a = (penalty_probability ai * penalty_amount ai)%Q /\
       Accrual.total_accrual_base a
         = (Accrual.inventory_accrual a + Accrual.variable_fees a
            + Accrual.fixed_demand a + Accrual.penalties_est a)%Q)
    monthly_roll (calc_accruals monthly_roll ai).
Proof.
  unfold calc_accruals.
  induction monthly_roll as [|r l IH]; simpl; constructor; [|exact IH].
  repeat split.
Qed.

(** ** The scenarios of the specification *)

(** Reports of 2025-07-25 and 2025-08-01, as of 2025-08-31: 30 gap days, and
    nothing from estimator C without a ledger. *)
Example scenario_gap_days :
  exists r,
    build_monthly_rollforward Samples.no_files Samples.aug_weekly Samples.asof_aug
      Samples.default_weights "US" None = Ok [r] /\
    Roll.gap_days r = 30%Z /\
    estimate_gap MethodC_default Samples.no_files Samples.aug_weekly
      Samples.asof_aug "US" None = Ok 0%Q.
Proof.
  eexists. split; [vm_compute; reflexivity|]. split; vm_compute; reflexivity.
Qed.

(** An ending volume of 3298 at the default factor and a price of 3.25. *)
Example scenario_inventory_accrual :
  let ai := {| wacog_per_mmbtu := 3.25;
               bcf_to_mmbtu_factor := DEFAULT_BCF_TO_MMBTU;
               tariff_fixed_monthly := 120000;
               tariff_injection_per_mmbtu := 0.02;
               tariff_withdrawal_per_mmbtu := 0.03;
               scenario_band := 0.10;
               penalty_probability := 0;
               penalty_amount := 0 |} in
  let r := {| Roll.month_end := mkDate 2025 8 31;
              Roll.region := "US";
              Roll.stratum := "none";
              Roll.beg_working_gas_bcf := 3297.8;
              Roll.est_injections_bcf := 0.25;
              Roll.est_withdrawals_bcf := 0.05;
              Roll.gap_delta_bcf := 0;
              Roll.gap_days := 30;
              Roll.end_working_gas_bcf := 3298 |} in
  Forall (fun a => (Accrual.inventory_accrual a == 11115084500)%Q /\
                   (Accrual.variable_fees a == 6740.5)%Q /\
                   (Accrual.total_accrual_base a == 11115211240.5)%Q)
    (calc_accruals [r] ai).
Proof.
  cbv zeta. constructor; [|constructor].
  split; [|split]; vm_compute; reflexivity.
Qed.

(** * Further properties *)

Import Notions.

(** ** The calendar *)

Lemma days_before_year_mono (y y' : Z) :
  (y <= y')%Z -> (days_before_year y <= days_before_year y')%Z.
Proof.
  intros H. unfold days_before_year. cbv zeta.
  Z.div_mod_to_equations. lia.
Qed.

Lemma days_before_year_succ (y : Z) :
  (days_before_year (y + 1)
   = days_before_year y + (if is_leap y then 366 else 365))%Z.
Proof.
  unfold days_before_year, is_leap. cbv zeta.
  replace (y + 1 - 1)%Z with y by lia.
  destruct (y mod 4 =? 0)%Z eqn:E4; destruct (y mod 100 =? 0)%Z eqn:E100;
  destruct (y mod 400 =? 0)%Z eqn:E400; simpl;
  rewrite ?Z.eqb_eq, ?Z.eqb_neq in *;
  Z.div_mod_to_equations; lia.
Qed.

Lemma month_cases (m : Z) : (1 <= m <= 12)%Z ->
  m = 1%Z \/ m = 2%Z \/ m = 3%Z \/ m = 4%Z \/ m = 5%Z \/ m = 6%Z \/
  m = 7%Z \/ m = 8%Z \/ m = 9%Z \/ m = 10%Z \/ m = 11%Z \/ m = 12%Z.
Proof. lia. Qed.

Ltac calendar_compute :=
  unfold days_before_month;
  repeat match goal with
         | |- context [Z.to_nat ?e] =>
             let v := eval vm_compute in (Z.to_nat e) in change (Z.to_nat e) with v
         end;
  cbn [days_before_month_aux];
  repeat match goal with
         | |- context [Z.of_nat ?e] =>
             let v := eval vm_compute in (Z.of_nat e) in change (Z.of_nat e) with v
         end;
  unfold days_in_month; cbn -[is_leap].

Ltac each_month m H :=
  destruct (month_cases m H)
    as [->|[->|[->|[->|[->|[->|[->|[->|[->|[->|[->| ->]]]]]]]]]]].

Lemma days_before_month_bounds (y m : Z) :
  (1 <= m <= 12)%Z ->
  (0 <= days_before_month y m)%Z /\
  (days_before_month y m + days_in_month y m
   <= (if is_leap y then 366 else 365))%Z.
Proof.
  intros Hm. each_month m Hm; calendar_compute; destruct (is_leap y); lia.
Qed.

Lemma days_before_month_step (y m m' : Z) :
  (1 <= m)%Z -> (m < m')%Z -> (m' <= 12)%Z ->
  (days_before_month y m + days_in_month y m <= days_before_month y m')%Z.
Proof.
  intros H1 H2 H3.
  assert (Hm : (1 <= m <= 12)%Z) by lia.
  assert (Hm' : (1 <= m' <= 12)%Z) by lia.
  each_month m Hm; each_month m' Hm'; try lia;
    calendar_compute; destruct (is_leap y); lia.
Qed.

(** A date strictly before another has a strictly smaller ordinal. *)
Lemma toordinal_strict (a b : date) :
  valid_date a -> valid_date b ->
  date_leb b a = false -> (toordinal a < toordinal b)%Z.
Proof.
  intros (Hya & Hma & Hda) (Hyb & Hmb & Hdb) Hlt.
  unfold date_leb in Hlt. unfold toordinal.
  pose proof (days_before_month_bounds (year a) (month a) Hma) as [Ha0 Ha1].
  pose proof (days_before_month_bounds (year b) (month b) Hmb) as [Hb0 Hb1].
  destruct (Z.lt_trichotomy (year a) (year b)) as [Hy|[Hy|Hy]].
  - pose proof (days_before_year_succ (year a)) as Hs.
    pose proof (days_before_year_mono (year a + 1) (year b) ltac:(lia)) as Hmono.
    destruct (is_leap (year a)); lia.
  - rewrite Hy in *.
    destruct (Z.lt_trichotomy (month a) (month b)) as [Hm|[Hm|Hm]].
    + pose proof (days_before_month_step (year b) (month a) (month b)
                    ltac:(lia) Hm ltac:(lia)). lia.
    + rewrite Hm in *. bool_to_Z. lia.
    + bool_to_Z. lia.
  - bool_to_Z. lia.
Qed.

Lemma date_leb_antisym (a b : date) :
  date_leb a b = true -> date_leb b a = true -> a = b.
Proof.
  destruct a as [ya ma da], b as [yb mb db]. unfold date_leb. simpl.
  bool_to_Z. intros H1 H2. f_equal; lia.
Qed.

Lemma toordinal_mono (a b : date) :
  valid_date a -> valid_date b ->
  date_leb a b = true -> (toordinal a <= toordinal b)%Z.
Proof.
  intros Ha Hb Hle. destruct (date_leb b a) eqn:E.
  - rewrite (date_leb_antisym a b Hle E). lia.
  - pose proof (toordinal_strict a b Ha Hb E). lia.
Qed.

Lemma valid_date_month_end (d : date) : valid_date d -> valid_date (month_end d).
Proof.
  intros (Hy & Hm & Hd). unfold valid_date, month_end. simpl.
  pose proof (days_in_month_bounds (year d) (month d)). lia.
Qed.

(** ** When the builder returns, and its gap days *)

Lemma elem_of_map_date (l : list WeeklyObservation) (d : date) :
  d ∈ map date_reported l -> exists o, o ∈ l /\ date_reported o = d.
Proof.
  intros H. apply list_elem_of_In, in_map_iff in H as (o & Ho & Hin).
  exists o. split; [apply list_elem_of_In, Hin | exact Ho].
Qed.

(** The last reported date of the qualifying rows is one of their dates: at or
    before [asof], and valid when the table's dates are. *)
Lemma last_reported_upto weekly asof rg st last :
  last_reported (qualifying weekly asof rg st) last ->
  date_leb last asof = true /\
  (Forall (fun o => valid_date (date_reported o)) weekly -> valid_date last).
Proof.
  intros [Hin _]. apply elem_of_map_date in Hin as (o & Ho & <-).
  apply elem_of_filter in Ho as [Ho Hup]. split; [exact Hup|].
  intros Hv. apply elem_of_filter in Ho as [Ho _].
  rewrite Forall_forall in Hv. apply Hv, Ho.
Qed.

Lemma last_reported_friday_Some weekly asof rg st last :
  _last_reported_friday (sort_values (group_rows weekly rg st)) asof = Some last ->
  last_reported (qualifying weekly asof rg st) last.
Proof.
  unfold _last_reported_friday. intros H.
  eapply last_reported_perm; [|apply max_date_last_reported, H].
  apply (select_series_upto_perm weekly asof rg st).
Qed.

Lemma ledger_readable_has_rows fs path :
  ledger_readable fs path = true -> read_csv fs path <> Some [].
Proof.
  unfold ledger_readable. destruct (read_csv fs path) as [[|e ops]|];
    [discriminate | discriminate | discriminate].
Qed.

(** X1. For a valid [asof], a group whose reports are dated within the range
    of a [Timestamp] and a ledger file that is absent or has rows dated
    within that range: as of a month from 1677-09 to 2262-03 the builder
    returns a frame of exactly one row when the group has a report at or
    before [asof], and raises [TypeError] when it has none (an empty group
    included); as of any other month it raises [OutOfBoundsDatetime]. *)
Theorem rollforward_returns_iff_prior_report
    (fs : filesystem) (weekly : list WeeklyObservation) (asof : date)
    (ws : Q * Q * Q) (rg : string) (st : option string) :
  valid_date asof ->
  dates_in_bounds (group_rows weekly rg st) = true ->
  ledger_readable fs "data/ops/ops_volumes.csv" = true ->
  if in_period_bounds asof then
    match qualifying weekly asof rg st with
    | [] => build_monthly_rollforward fs weekly asof ws rg st = Raise TypeError
    | _ :: _ => exists r, build_monthly_rollforward fs weekly asof ws rg st = Ok [r]
    end
  else build_monthly_rollforward fs weekly asof ws rg st = Raise OutOfBoundsDatetime.
Proof.
  intros Hv _ Hl. destruct (in_period_bounds asof) eqn:Hb.
  - destruct (qualifying weekly asof rg st) as [|o l] eqn:E.
    + apply build_monthly_rollforward_no_prior; [apply Hv|exact Hb|exact E].
    + apply build_monthly_rollforward_returns; [exact Hv|exact Hb| |].
      * apply ledger_readable_has_rows, Hl.
      * rewrite E. discriminate.
  - apply build_monthly_rollforward_out_of_bounds, Hb.
Qed.

Lemma rollforward_returns_iff_prior_report_witness :
  valid_date Samples.asof_aug /\
  dates_in_bounds (group_rows Samples.aug_weekly "US" None) = true /\
  dates_in_bounds (group_rows Samples.late_weekly "US" None) = true /\
  ledger_readable Samples.with_ledger "data/ops/ops_volumes.csv" = true /\
  (exists r, build_monthly_rollforward Samples.with_ledger Samples.aug_weekly
               Samples.asof_aug Samples.default_weights "US" None = Ok [r]) /\
  build_monthly_rollforward Samples.with_ledger Samples.late_weekly
    Samples.asof_aug Samples.default_weights "US" None = Raise TypeError.
Proof.
  assert (Hv : valid_date Samples.asof_aug) by (vm_compute; intuition discriminate).
  assert (Hr : dates_in_bounds (group_rows Samples.aug_weekly "US" None) = true)
    by (vm_compute; reflexivity).
  assert (Hr' : dates_in_bounds (group_rows Samples.late_weekly "US" None) = true)
    by (vm_compute; reflexivity).
  assert (Hl : ledger_readable Samples.with_ledger "data/ops/ops_volumes.csv" = true)
    by (vm_compute; reflexivity).
  split; [exact Hv|]. split; [exact Hr|]. split; [exact Hr'|]. split; [exact Hl|].
  split.
  - exact (rollforward_returns_iff_prior_report Samples.with_ledger
             Samples.aug_weekly Samples.asof_aug Samples.default_weights "US" None
             Hv Hr Hl).
  - exact (rollforward_returns_iff_prior_report Samples.with_ledger
             Samples.late_weekly Samples.asof_aug Samples.default_weights "US" None
             Hv Hr' Hl).
Defined.

(** X2. With valid dates, the [gap_days] of a returned row is the number of
    days from the group's last report at or before [asof] to the end of the
    month of [asof]: the floor at 0 never applies, and the count is 0 exactly
    when that report is dated on the month end. *)
Theorem rollforward_gap_days_exact
    (fs : filesystem) (weekly : list WeeklyObservation) (asof : date)
    (ws : Q * Q * Q) (rg : string) (st : option string)
    (rows : list Roll.row) (r : Roll.row) :
  valid_date asof ->
  Forall (fun o => valid_date (date_reported o)) weekly ->
  build_monthly_rollforward fs weekly asof ws rg st = Ok rows ->
  r ∈ rows ->
  exists last,
    last_reported (qualifying weekly asof rg st) last /\
    Roll.gap_days r = days_between (month_end asof) last /\
    (0 <= Roll.gap_days r)%Z /\
    (Roll.gap_days r = 0%Z <-> last = month_end asof).
Proof.
  intros Hv Hdates H Hr.
  apply build_monthly_rollforward_Ok in H as (beg & d & gap & _ & Hd & _ & ->).
  apply list_elem_of_singleton in Hr as ->. cbn [Roll.gap_days].
  destruct (_last_reported_friday _ asof) as [last|] eqn:El; [|discriminate Hd].
  simpl in Hd. injection Hd as <-.
  pose proof (last_reported_friday_Some _ _ _ _ _ El) as Hlast.
  destruct (last_reported_upto _ _ _ _ _ Hlast) as [Hle Hvl].
  specialize (Hvl Hdates).
  assert (Hme : date_leb last (month_end asof) = true).
  { eapply date_leb_trans; [exact Hle|]. apply date_leb_month_end.
    destruct Hv as (_ & _ & _ & Hd). exact Hd. }
  pose proof (valid_date_month_end asof Hv) as Hvme.
  pose proof (toordinal_mono _ _ Hvl Hvme Hme) as Hmono.
  exists last. split; [exact Hlast|]. unfold days_between.
  split; [lia|]. split; [lia|]. split.
  - intros H0. destruct (date_leb (month_end asof) last) eqn:E.
    + apply date_leb_antisym; assumption.
    + pose proof (toordinal_strict _ _ Hvl Hvme E). lia.
  - intros ->. lia.
Qed.

Lemma rollforward_gap_days_exact_witness :
  let r := {| Roll.month_end := mkDate 2025 8 31;
              Roll.region := "US";
              Roll.stratum := "none";
              Roll.beg_working_gas_bcf := 3150;
              Roll.est_injections_bcf := 50;
              Roll.est_withdrawals_bcf := 0;
              Roll.gap_delta_bcf := 7693000 # 98000;
              Roll.gap_days := 30;
              Roll.end_working_gas_bcf := 321293000 # 98000 |} in
  valid_date Samples.asof_aug /\
  Forall (fun o => valid_date (date_reported o)) Samples.aug_weekly /\
  build_monthly_rollforward Samples.with_ledger Samples.aug_weekly Samples.asof_aug
    Samples.default_weights "US" None = Ok [r] /\
  r ∈ [r] /\
  exists last,
    last_reported (qualifying Samples.aug_weekly Samples.asof_aug "US" None) last /\
    Roll.gap_days r = days_between (month_end Samples.asof_aug) last /\
    (0 <= Roll.gap_days r)%Z /\
    (Roll.gap_days r = 0%Z <-> last = month_end Samples.asof_aug).
Proof.
  intros r.
  assert (Hv : valid_date Samples.asof_aug) by (vm_compute; intuition discriminate).
  assert (Hd : Forall (fun o => valid_date (date_reported o)) Samples.aug_weekly)
    by (repeat constructor; vm_compute; intuition discriminate).
  assert (H : build_monthly_rollforward Samples.with_ledger Samples.aug_weekly
                Samples.asof_aug Samples.default_weights "US" None = Ok [r])
    by (vm_compute; reflexivity).
  assert (Hr : r ∈ [r]) by left.
  split; [exact Hv|]. split; [exact Hd|]. split; [exact H|]. split; [exact Hr|].
  exact (rollforward_gap_days_exact _ _ _ _ _ _ _ _ Hv Hd H Hr).
Defined.

(** ** What the estimators and the builder look at *)

Lemma MethodA_congr self weekly weekly' asof rg st rg' st' :
  _select_series weekly rg st = _select_series weekly' rg' st' ->
  MethodA_estimate_gap self weekly asof rg st
  = MethodA_estimate_gap self weekly' asof rg' st'.
Proof. unfold MethodA_estimate_gap. intros ->. reflexivity. Qed.

Lemma MethodB_congr self weekly weekly' asof rg st rg' st' :
  _select_series weekly rg st = _select_series weekly' rg' st' ->
  MethodB_estimate_gap self weekly asof rg st
  = MethodB_estimate_gap self weekly' asof rg' st'.
Proof. unfold MethodB_estimate_gap. intros ->. reflexivity. Qed.

Lemma MethodC_congr self fs weekly weekly' asof rg st rg' st' :
  _select_series weekly rg st = _select_series weekly' rg' st' ->
  (forall e, ops_in_group rg st e = ops_in_group rg' st' e) ->
  MethodC_estimate_gap self fs weekly asof rg st
  = MethodC_estimate_gap self fs weekly' asof rg' st'.
Proof.
  intros Hs Hg. rewrite !MethodC_estimate_gap_eq. cbv zeta. rewrite Hs.
  destruct (empty _); [reflexivity|].
  destruct (Timestamp_period_end asof) as [me|e]; [|reflexivity].
  rewrite !bind_ret.
  destruct (max_date _) as [last|]; [|reflexivity].
  destruct (date_leb _ _); [reflexivity|].
  destruct (read_csv _ _) as [ops|]; [|reflexivity].
  rewrite (filter_ext _ _ Hg). reflexivity.
Qed.

Lemma blended_congr self fs weekly weekly' asof rg st rg' st' :
  _select_series weekly rg st = _select_series weekly' rg' st' ->
  (forall e, ops_in_group rg st e = ops_in_group rg' st' e) ->
  BlendedEstimator_estimate_gap self fs weekly asof rg st
  = BlendedEstimator_estimate_gap self fs weekly' asof rg' st'.
Proof.
  intros Hs Hg. unfold BlendedEstimator_estimate_gap, estimate_gap,
    MethodA_Estimator, MethodB_Estimator, MethodC_Estimator.
  rewrite (MethodA_congr _ _ _ _ _ _ _ _ Hs), (MethodB_congr _ _ _ _ _ _ _ _ Hs),
    (MethodC_congr _ _ _ _ _ _ _ _ _ Hs Hg).
  reflexivity.
Qed.

Lemma build_congr fs weekly weekly' asof ws rg st st' :
  group_rows weekly rg st = group_rows weekly' rg st' ->
  (forall e, ops_in_group rg st e = ops_in_group rg st' e) ->
  or_none st = or_none st' ->
  build_monthly_rollforward fs weekly asof ws rg st
  = build_monthly_rollforward fs weekly' asof ws rg st'.
Proof.
  intros Hg Hops Hst.
  assert (Hs : _select_series weekly rg st = _select_series weekly' rg st').
  { unfold _select_series. fold (group_rows weekly rg st).
    fold (group_rows weekly' rg st'). rewrite Hg. reflexivity. }
  unfold build_monthly_rollforward. destruct ws as [[w0 w1] w2]. cbv zeta.
  fold (group_rows weekly rg st). fold (group_rows weekly' rg st').
  rewrite Hg, Hst. unfold estimate_gap at 1 2, BlendedEstimator_Estimator.
  pose proof (blended_congr (blend_of (w0, w1, w2)) fs weekly weekly' asof
                rg st rg st' Hs Hops) as E.
  unfold blend_of in E. cbn [fst snd] in E. rewrite E. reflexivity.
Qed.

(** X3. Rows of other (region, stratum) groups never matter: two tables with
    the same rows of the group, in the same order, give the same blended
    estimate and the same rollforward, exception included. *)
Theorem other_groups_are_ignored
    (bl : BlendedEstimator) (fs : filesystem)
    (weekly weekly' : list WeeklyObservation) (asof : date)
    (ws : Q * Q * Q) (rg : string) (st : option string) :
  group_rows weekly rg st = group_rows weekly' rg st ->
  estimate_gap bl fs weekly asof rg st = estimate_gap bl fs weekly' asof rg st /\
  build_monthly_rollforward fs weekly asof ws rg st
  = build_monthly_rollforward fs weekly' asof ws rg st.
Proof.
  intros Hg. split.
  - apply blended_congr; [|reflexivity].
    unfold _select_series. fold (group_rows weekly rg st).
    fold (group_rows weekly' rg st). rewrite Hg. reflexivity.
  - apply build_congr; [exact Hg| reflexivity | reflexivity].
Qed.

Lemma other_groups_are_ignored_witness :
  let others :=
    [ mkWeekly (mkDate 2025 8 8) "Pacific" None 290 4;
      mkWeekly (mkDate 2025 8 1) "US" (Some "salt") 310 (-9) ] in
  let bl := blend_of Samples.default_weights in
  group_rows Samples.aug_weekly "US" None
  = group_rows (others ++ Samples.aug_weekly) "US" None /\
  estimate_gap bl Samples.with_ledger Samples.aug_weekly Samples.asof_aug "US" None
  = estimate_gap bl Samples.with_ledger (others ++ Samples.aug_weekly)
      Samples.asof_aug "US" None /\
  build_monthly_rollforward Samples.with_ledger Samples.aug_weekly
    Samples.asof_aug Samples.default_weights "US" None
  = build_monthly_rollforward Samples.with_ledger (others ++ Samples.aug_weekly)
      Samples.asof_aug Samples.default_weights "US" None.
Proof.
  intros others bl.
  assert (Hg : group_rows Samples.aug_weekly "US" None
               = group_rows (others ++ Samples.aug_weekly) "US" None)
    by reflexivity.
  split; [exact Hg|].
  exact (other_groups_are_ignored bl Samples.with_ledger Samples.aug_weekly
           (others ++ Samples.aug_weekly) Samples.asof_aug
           Samples.default_weights "US" None Hg).
Defined.

Lemma in_group_or_none rg st st' :
  or_none st = or_none st' -> forall o, in_group rg st o = in_group rg st' o.
Proof. intros H o. unfold in_group. rewrite H. reflexivity. Qed.

Lemma ops_in_group_or_none rg st st' :
  or_none st = or_none st' -> forall e, ops_in_group rg st e = ops_in_group rg st' e.
Proof. intros H e. unfold ops_in_group. rewrite H. reflexivity. Qed.

(** X4. The stratum argument is read only through [stratum or "none"]:
    [None], the empty string and ["none"] all select the aggregate group, and
    the builder returns the same frame for the three of them. *)
Theorem stratum_none_aliases
    (fs : filesystem) (weekly : list WeeklyObservation) (asof : date)
    (ws : Q * Q * Q) (rg : string) :
  build_monthly_rollforward fs weekly asof ws rg (Some "none")
  = build_monthly_rollforward fs weekly asof ws rg None /\
  build_monthly_rollforward fs weekly asof ws rg (Some "")
  = build_monthly_rollforward fs weekly asof ws rg None.
Proof.
  split; (apply build_congr;
          [ apply filter_ext, in_group_or_none; reflexivity
          | apply ops_in_group_or_none; reflexivity
          | reflexivity ]).
Qed.

(** ** When the estimators raise *)

Lemma group_rows_of_qualifying weekly asof rg st :
  qualifying weekly asof rg st <> [] -> group_rows weekly rg st <> [].
Proof.
  intros Hq Hg. apply Hq. apply qualifying_of_empty_group, Hg.
Qed.

(** X5. As of a month from 1677-09 to 2262-03, with the group's reports at or
    before [asof] dated within the range of a [Timestamp] and the ledger
    files absent or with rows dated within that range: estimator C, and with
    it the blended estimator, raises exactly when the group has rows but none
    at or before [asof], and then a [TypeError]; estimators A and B do not
    raise. *)
Theorem estimators_raise_iff_no_prior_report
    (a : MethodA) (b : MethodB) (c : MethodC) (bl : BlendedEstimator)
    (fs : filesystem) (weekly : list WeeklyObservation) (asof : date)
    (rg : string) (st : option string) :
  in_period_bounds asof = true ->
  dates_in_bounds (qualifying weekly asof rg st) = true ->
  ledger_readable fs (ops_path c) = true ->
  ledger_readable fs (ops_path (mC bl)) = true ->
  (exists va, estimate_gap a fs weekly asof rg st = Ok va) /\
  (exists vb, estimate_gap b fs weekly asof rg st = Ok vb) /\
  ((exists e, estimate_gap c fs weekly asof rg st = Raise e) <->
   (group_rows weekly rg st <> [] /\ qualifying weekly asof rg st = [])) /\
  ((exists e, estimate_gap bl fs weekly asof rg st = Raise e) <->
   (group_rows weekly rg st <> [] /\ qualifying weekly asof rg st = [])) /\
  (forall e, estimate_gap c fs weekly asof rg st = Raise e -> e = TypeError) /\
  (forall e, estimate_gap bl fs weekly asof rg st = Raise e -> e = TypeError).
Proof.
  intros Hin _ Hlc Hlbl.
  split; [apply MethodA_total, Hin|]. split; [apply MethodB_total, Hin|].
  assert (HC : forall m : MethodC,
             ledger_readable fs (ops_path m) = true ->
             forall e, MethodC_estimate_gap m fs weekly asof rg st = Raise e ->
             e = TypeError /\
             group_rows weekly rg st <> [] /\ qualifying weekly asof rg st = []).
  { intros m Hl e He.
    destruct (group_rows weekly rg st) as [|o g] eqn:Eg.
    - rewrite MethodC_empty_group in He by exact Eg. discriminate.
    - destruct (qualifying weekly asof rg st) as [|q l] eqn:Eq.
      + rewrite MethodC_no_prior in He;
          [|exact Hin|rewrite Eg; discriminate|exact Eq].
        injection He as <-. split; [reflexivity|]. split; [discriminate|reflexivity].
      + destruct (MethodC_returns m fs weekly asof rg st) as [v Hv];
          [exact Hin|apply ledger_readable_has_rows, Hl|rewrite Eq; discriminate|].
        congruence. }
  assert (HBl : forall e, estimate_gap bl fs weekly asof rg st = Raise e ->
                MethodC_estimate_gap (mC bl) fs weekly asof rg st = Raise e).
  { intros e He.
    destruct (MethodA_total (mA bl) weekly asof rg st Hin) as [va Ha].
    destruct (MethodB_total (mB bl) weekly asof rg st Hin) as [vb Hb].
    unfold estimate_gap, BlendedEstimator_Estimator, BlendedEstimator_estimate_gap,
      estimate_gap, MethodA_Estimator, MethodB_Estimator, MethodC_Estimator in He.
    rewrite Ha, Hb, !bind_ret in He.
    destruct (MethodC_estimate_gap (mC bl) fs weekly asof rg st) as [v|e'];
      [discriminate|]. exact He. }
  split; [|split; [|split]].
  - split.
    + intros [e He]. apply (HC c Hlc e He).
    + intros [Hg Hq]. exists TypeError. apply MethodC_no_prior; assumption.
  - split.
    + intros [e He]. apply (HC (mC bl) Hlbl e), HBl, He.
    + intros [Hg Hq]. exists TypeError.
      apply blended_raises_with_C; [exact Hin|]. apply MethodC_no_prior; assumption.
  - intros e He. apply (HC c Hlc e He).
  - intros e He. apply (HC (mC bl) Hlbl e), HBl, He.
Qed.

Lemma estimators_raise_iff_no_prior_report_witness :
  let bl := blend_of Samples.default_weights in
  in_period_bounds Samples.asof_aug = true /\
  dates_in_bounds (qualifying Samples.late_weekly Samples.asof_aug "US" None) = true /\
  ledger_readable Samples.with_ledger (ops_path MethodC_default) = true /\
  (exists va, estimate_gap MethodA_default Samples.with_ledger Samples.late_weekly
                Samples.asof_aug "US" None = Ok va) /\
  ((exists e, estimate_gap bl Samples.with_ledger Samples.late_weekly
                Samples.asof_aug "US" None = Raise e) <->
   (group_rows Samples.late_weekly "US" None <> [] /\
    qualifying Samples.late_weekly Samples.asof_aug "US" None = [])).
Proof.
  intros bl.
  assert (Hin : in_period_bounds Samples.asof_aug = true) by reflexivity.
  assert (Hr : dates_in_bounds
                 (qualifying Samples.late_weekly Samples.asof_aug "US" None) = true)
    by reflexivity.
  assert (Hl : ledger_readable Samples.with_ledger (ops_path MethodC_default) = true)
    by (vm_compute; reflexivity).
  destruct (estimators_raise_iff_no_prior_report MethodA_default mkMethodB
              MethodC_default bl Samples.with_ledger Samples.late_weekly
              Samples.asof_aug "US" None Hin Hr Hl Hl) as (HA & _ & _ & HBl & _).
  split; [exact Hin|]. split; [exact Hr|]. split; [exact Hl|].
  split; [exact HA|exact HBl].
Defined.

(** ** In-month flows *)

Lemma Qltb_none_zero (x : Q) :
  Qltb 0 x = false -> Qltb x 0 = false -> (x == 0)%Q.
Proof.
  intros H1 H2. apply Qle_antisym; apply Qnot_lt_le; intros H;
    apply Qltb_lt in H; congruence.
Qed.

Lemma Qltb_pos_not_neg (x : Q) : Qltb 0 x = true -> Qltb x 0 = false.
Proof.
  intros H. apply Qltb_lt in H. destruct (Qltb x 0) eqn:E; [|reflexivity].
  apply Qltb_lt in E. exfalso. apply (Qlt_irrefl 0). eapply Qlt_trans; eassumption.
Qed.

(** Injections less withdrawals is the plain sum of the deltas. *)
Lemma injections_minus_withdrawals (rows : list WeeklyObservation) :
  (injections_of rows - withdrawals_of rows == Qsum (map delta_week_bcf rows))%Q.
Proof.
  unfold injections_of, withdrawals_of.
  induction rows as [|o l IH]; simpl; [reflexivity|].
  destruct (Qltb 0 (delta_week_bcf o)) eqn:Ep.
  - rewrite (Qltb_pos_not_neg _ Ep). simpl. rewrite <- IH. ring.
  - destruct (Qltb (delta_week_bcf o) 0) eqn:En; simpl.
    + rewrite <- IH. ring.
    + rewrite <- IH, (Qltb_none_zero _ Ep En). ring.
Qed.

(** X6. In a returned row, injections less withdrawals is the sum of all the
    weekly deltas reported in the month, so the ending volume is the
    beginning volume plus that sum plus the gap estimate. *)
Theorem rollforward_net_flow
    (fs : filesystem) (weekly : list WeeklyObservation) (asof : date)
    (ws : Q * Q * Q) (rg : string) (st : option string)
    (rows : list Roll.row) (r : Roll.row) :
  build_monthly_rollforward fs weekly asof ws rg st = Ok rows ->
  r ∈ rows ->
  (Roll.est_injections_bcf r - Roll.est_withdrawals_bcf r
   == Qsum (map delta_week_bcf (in_month_rows weekly asof rg st)))%Q /\
  (Roll.end_working_gas_bcf r
   == Roll.beg_working_gas_bcf r
      + Qsum (map delta_week_bcf (in_month_rows weekly asof rg st))
      + Roll.gap_delta_bcf r)%Q.
Proof.
  intros H Hr.
  apply build_monthly_rollforward_Ok in H as (beg & d & gap & _ & _ & _ & ->).
  apply list_elem_of_singleton in Hr as ->.
  cbn [Roll.est_injections_bcf Roll.est_withdrawals_bcf Roll.end_working_gas_bcf
       Roll.beg_working_gas_bcf Roll.gap_delta_bcf].
  pose proof (injections_minus_withdrawals (in_month_rows weekly asof rg st)) as E.
  split; [exact E|]. rewrite <- E. ring.
Qed.

Lemma rollforward_net_flow_witness :
  let w := mkWeekly (mkDate 2025 8 8) "US" None 3130 (-20)
           :: mkWeekly (mkDate 2025 8 15) "US" None 3130 0
           :: Samples.aug_weekly in
  let r := {| Roll.month_end := mkDate 2025 8 31;
              Roll.region := "US";
              Roll.stratum := "none";
              Roll.beg_working_gas_bcf := 3130;
              Roll.est_injections_bcf := 50;
              Roll.est_withdrawals_bcf := 20;
              Roll.gap_delta_bcf := 279888000 # 28812000;
              Roll.gap_days := 16;
              Roll.end_working_gas_bcf := 91325808000 # 28812000 |} in
  build_monthly_rollforward Samples.no_files w Samples.asof_aug
    Samples.default_weights "US" None = Ok [r] /\
  r ∈ [r] /\
  (Roll.est_injections_bcf r - Roll.est_withdrawals_bcf r
   == Qsum (map delta_week_bcf (in_month_rows w Samples.asof_aug "US" None)))%Q.
Proof.
  intros w r.
  assert (H : build_monthly_rollforward Samples.no_files w Samples.asof_aug
                Samples.default_weights "US" None = Ok [r])
    by (vm_compute; reflexivity).
  assert (Hr : r ∈ [r]) by left.
  split; [exact H|]. split; [exact Hr|].
  exact (proj1 (rollforward_net_flow _ _ _ _ _ _ _ _ H Hr)).
Defined.

(** ** A month reported up to its last day *)

Lemma last_reported_is_month_end weekly asof rg st last o :
  (day asof <= days_in_month (year asof) (month asof))%Z ->
  o ∈ qualifying weekly asof rg st ->
  date_reported o = month_end asof ->
  last_reported (qualifying weekly asof rg st) last ->
  last = month_end asof.
Proof.
  intros Hd Ho Hdate Hlast.
  destruct (last_reported_upto _ _ _ _ _ Hlast) as [Hle _].
  destruct Hlast as [_ Hmax]. specialize (Hmax o Ho).
  apply Is_true_true in Hmax. rewrite Hdate in Hmax.
  apply date_leb_antisym; [|exact Hmax].
  eapply date_leb_trans; [exact Hle|]. apply date_leb_month_end, Hd.
Qed.

Lemma max_date_upto_Some weekly asof rg st :
  qualifying weekly asof rg st <> [] ->
  exists last,
    max_date (map date_reported
                (List.filter (upto asof) (_select_series weekly rg st))) = Some last /\
    last_reported (qualifying weekly asof rg st) last.
Proof.
  intros Hq.
  destruct (max_date _) as [last|] eqn:E.
  - exists last. split; [reflexivity|].
    eapply last_reported_perm; [|apply max_date_last_reported, E].
    apply select_series_upto_perm.
  - exfalso. apply max_date_None in E. apply Hq.
    apply (perm_nil_iff _ _ (select_series_upto_perm weekly asof rg st)).
    destruct (List.filter _ _); [reflexivity|discriminate].
Qed.

(** X7. As of a month from 1677-09 to 2262-03 and with the group's reports
    at or before [asof] dated within the range of a [Timestamp]: when the
    group has a report dated on the last day of the month of [asof] (at or
    before [asof]), nothing is left to estimate: A, B, C and any blend of
    them return zero, whatever the ledger file holds, which is not read. *)
Theorem no_gap_no_estimate
    (a : MethodA) (b : MethodB) (c : MethodC) (bl : BlendedEstimator)
    (fs : filesystem) (weekly : list WeeklyObservation) (asof : date)
    (rg : string) (st : option string) (o : WeeklyObservation) :
  in_period_bounds asof = true ->
  dates_in_bounds (qualifying weekly asof rg st) = true ->
  (day asof <= days_in_month (year asof) (month asof))%Z ->
  o ∈ qualifying weekly asof rg st ->
  date_reported o = month_end asof ->
  (exists va, estimate_gap a fs weekly asof rg st = Ok va /\ (va == 0)%Q) /\
  (exists vb, estimate_gap b fs weekly asof rg st = Ok vb /\ (vb == 0)%Q) /\
  estimate_gap c fs weekly asof rg st = Ok 0%Q /\
  (exists v, estimate_gap bl fs weekly asof rg st = Ok v /\ (v == 0)%Q).
Proof.
  intros Hin _ Hd Ho Hdate.
  assert (Hq : qualifying weekly asof rg st <> []).
  { intros E. rewrite E in Ho. inversion Ho. }
  destruct (max_date_upto_Some weekly asof rg st Hq) as (last & Hmax & Hlast).
  pose proof (last_reported_is_month_end _ _ _ _ _ _ Hd Ho Hdate Hlast) as ->.
  assert (Hg : _gap_days (month_end asof) (month_end asof) = 0%Z).
  { unfold _gap_days, days_between. lia. }
  assert (HA : forall m, exists va,
             MethodA_estimate_gap m weekly asof rg st = Ok va /\ (va == 0)%Q).
  { intros m. rewrite MethodA_estimate_gap_at by exact Hin. cbv zeta.
    rewrite Hmax, Hg.
    destruct (empty _); eexists; (split; [reflexivity|]);
      [reflexivity | apply Qmult_0_r]. }
  assert (HB : forall m, exists vb,
             MethodB_estimate_gap m weekly asof rg st = Ok vb /\ (vb == 0)%Q).
  { intros m. rewrite MethodB_estimate_gap_at by exact Hin. cbv zeta.
    rewrite Hmax, Hg.
    destruct (month_avg _ _); eexists; (split; [reflexivity|]);
      [apply Qmult_0_r | reflexivity]. }
  assert (HC : forall m, MethodC_estimate_gap m fs weekly asof rg st = Ok 0%Q).
  { intros m. rewrite MethodC_estimate_gap_at by exact Hin. cbv zeta. rewrite Hmax.
    rewrite date_leb_refl. destruct (empty _); reflexivity. }
  split; [apply HA|]. split; [apply HB|]. split; [apply HC|].
  destruct (HA (mA bl)) as (va & Ha & Hva). destruct (HB (mB bl)) as (vb & Hb & Hvb).
  eexists. split.
  - apply blended_estimate_gap_eq; [exact Ha | exact Hb | apply HC].
  - rewrite Hva, Hvb. ring.
Qed.

Lemma no_gap_no_estimate_witness :
  let o := mkWeekly (mkDate 2025 8 31) "US" None 3190 40 in
  let w := o :: Samples.aug_weekly in
  in_period_bounds Samples.asof_aug = true /\
  dates_in_bounds (qualifying w Samples.asof_aug "US" None) = true /\
  (day Samples.asof_aug
   <= days_in_month (year Samples.asof_aug) (month Samples.asof_aug))%Z /\
  o ∈ qualifying w Samples.asof_aug "US" None /\
  date_reported o = month_end Samples.asof_aug /\
  estimate_gap MethodC_default Samples.with_ledger w Samples.asof_aug "US" None
  = Ok 0%Q /\
  exists v,
    estimate_gap (blend_of Samples.default_weights) Samples.with_ledger w
      Samples.asof_aug "US" None = Ok v /\ (v == 0)%Q.
Proof.
  intros o w.
  assert (Hin : in_period_bounds Samples.asof_aug = true) by reflexivity.
  assert (Hr : dates_in_bounds (qualifying w Samples.asof_aug "US" None) = true)
    by (vm_compute; reflexivity).
  assert (Hd : (day Samples.asof_aug
                <= days_in_month (year Samples.asof_aug) (month Samples.asof_aug))%Z)
    by (vm_compute; discriminate).
  assert (Ho : o ∈ qualifying w Samples.asof_aug "US" None) by left.
  assert (Hdate : date_reported o = month_end Samples.asof_aug) by reflexivity.
  split; [exact Hin|]. split; [exact Hr|].
  split; [exact Hd|]. split; [exact Ho|]. split; [exact Hdate|].
  exact (proj2 (proj2 (no_gap_no_estimate MethodA_default mkMethodB MethodC_default
                         (blend_of Samples.default_weights) Samples.with_ledger
                         w Samples.asof_aug "US" None o Hin Hr Hd Ho Hdate))).
Defined.

(** ** Estimator B *)

Lemma Qsum_perm (l l' : list Q) : l ≡ₚ l' -> (Qsum l == Qsum l')%Q.
Proof.
  induction 1 as [|x l l' _ IH|x y l|l l' l'' _ IH1 _ IH2]; simpl.
  - reflexivity.
  - rewrite IH. reflexivity.
  - ring.
  - rewrite IH1. exact IH2.
Qed.

Lemma Qsum_map_perm {A : Type} (f : A -> Q) (l l' : list A) :
  l ≡ₚ l' -> (Qsum (map f l) == Qsum (map f l'))%Q.
Proof. intros H. apply Qsum_perm, Permutation_map, H. Qed.

Lemma len_perm {A : Type} (l l' : list A) : l ≡ₚ l' -> len l = len l'.
Proof. intros H. unfold len. rewrite (Permutation_length H). reflexivity. Qed.

Lemma same_month_perm weekly asof rg st :
  List.filter (fun o => (month (date_reported o) =? month asof)%Z)
    (List.filter (upto asof) (_select_series weekly rg st))
  ≡ₚ same_month_rows weekly asof rg st.
Proof. apply filter_perm, select_series_upto_perm. Qed.

(** X8. Estimator B pools by calendar month, whatever the year: as of a month
    from 1677-09 to 2262-03 and with the group's reports at or before [asof]
    dated within the range of a [Timestamp], when some report of the group
    at or before [asof] falls in the calendar month of [asof], B returns the
    mean of [delta / 7] over all such reports times the gap-day count from
    the last report at or before [asof]. *)
Theorem MethodB_seasonal_average
    (b : MethodB) (fs : filesystem)
    (weekly : list WeeklyObservation) (asof : date)
    (rg : string) (st : option string) :
  in_period_bounds asof = true ->
  dates_in_bounds (qualifying weekly asof rg st) = true ->
  same_month_rows weekly asof rg st <> [] ->
  exists last v,
    last_reported (qualifying weekly asof rg st) last /\
    estimate_gap b fs weekly asof rg st = Ok v /\
    (v == Qsum (map (fun o => delta_week_bcf o / 7) (same_month_rows weekly asof rg st))
          / len (same_month_rows weekly asof rg st)
          * inject_Z (Z.max (days_between (month_end asof) last) 0))%Q.
Proof.
  intros Hin _ Hsm.
  assert (Hq : qualifying weekly asof rg st <> []).
  { intros E. apply Hsm. unfold same_month_rows. rewrite E. reflexivity. }
  destruct (max_date_upto_Some weekly asof rg st Hq) as (last & Hmax & Hlast).
  pose proof (same_month_perm weekly asof rg st) as Hp.
  exists last. unfold estimate_gap, MethodB_Estimator.
  rewrite MethodB_estimate_gap_at by exact Hin. cbv zeta. rewrite Hmax.
  unfold month_avg.
  set (rs := List.filter _ (List.filter (upto asof) _)) in *.
  assert (Hne : empty (map (fun o => (delta_week_bcf o / 7)%Q) rs) = false).
  { apply empty_false. intros E. apply map_eq_nil in E. apply Hsm.
    apply (perm_nil_iff _ _ Hp). exact E. }
  rewrite Hne. eexists. split; [exact Hlast|]. split; [reflexivity|].
  rewrite (Qsum_map_perm _ _ _ Hp).
  unfold len at 1. rewrite length_map. fold (len rs). rewrite (len_perm _ _ Hp).
  reflexivity.
Qed.

Lemma MethodB_seasonal_average_witness :
  let w := mkWeekly (mkDate 2024 8 9) "US" None 3000 36
           :: mkWeekly (mkDate 2024 9 13) "US" None 3300 80
           :: Samples.aug_weekly in
  in_period_bounds Samples.asof_aug = true /\
  dates_in_bounds (qualifying w Samples.asof_aug "US" None) = true /\
  same_month_rows w Samples.asof_aug "US" None <> [] /\
  exists last v,
    last_reported (qualifying w Samples.asof_aug "US" None) last /\
    estimate_gap mkMethodB Samples.no_files w Samples.asof_aug "US" None = Ok v /\
    (v == Qsum (map (fun o => delta_week_bcf o / 7)
                  (same_month_rows w Samples.asof_aug "US" None))
          / len (same_month_rows w Samples.asof_aug "US" None)
          * inject_Z (Z.max (days_between (month_end Samples.asof_aug) last) 0))%Q.
Proof.
  intros w.
  assert (Hin : in_period_bounds Samples.asof_aug = true) by reflexivity.
  assert (Hr : dates_in_bounds (qualifying w Samples.asof_aug "US" None) = true)
    by (vm_compute; reflexivity).
  assert (H : same_month_rows w Samples.asof_aug "US" None <> [])
    by (vm_compute; discriminate).
  split; [exact Hin|]. split; [exact Hr|]. split; [exact H|].
  exact (MethodB_seasonal_average mkMethodB Samples.no_files w Samples.asof_aug
           "US" None Hin Hr H).
Defined.

(** X9. As of a month from 1677-09 to 2262-03 and with the group's reports
    at or before [asof] dated within the range of a [Timestamp], estimator B
    returns 0.0 when no report of the group at or before [asof] falls in the
    calendar month of [asof], however much other history the group has. *)
Theorem MethodB_zero_without_same_month
    (b : MethodB) (fs : filesystem)
    (weekly : list WeeklyObservation) (asof : date)
    (rg : string) (st : option string) :
  in_period_bounds asof = true ->
  dates_in_bounds (qualifying weekly asof rg st) = true ->
  same_month_rows weekly asof rg st = [] ->
  estimate_gap b fs weekly asof rg st = Ok 0%Q.
Proof.
  intros Hin _ Hsm. unfold estimate_gap, MethodB_Estimator.
  rewrite MethodB_estimate_gap_at by exact Hin. cbv zeta.
  destruct (max_date _); [|reflexivity].
  unfold month_avg.
  rewrite (proj2 (perm_nil_iff _ _ (same_month_perm weekly asof rg st)) Hsm).
  reflexivity.
Qed.

Lemma MethodB_zero_without_same_month_witness :
  qualifying Samples.aug_weekly (mkDate 2025 9 10) "US" None <> [] /\
  in_period_bounds (mkDate 2025 9 10) = true /\
  dates_in_bounds (qualifying Samples.aug_weekly (mkDate 2025 9 10) "US" None)
    = true /\
  same_month_rows Samples.aug_weekly (mkDate 2025 9 10) "US" None = [] /\
  estimate_gap mkMethodB Samples.no_files Samples.aug_weekly
    (mkDate 2025 9 10) "US" None = Ok 0%Q.
Proof.
  assert (Hin : in_period_bounds (mkDate 2025 9 10) = true) by reflexivity.
  assert (Hr : dates_in_bounds
                 (qualifying Samples.aug_weekly (mkDate 2025 9 10) "US" None) = true)
    by (vm_compute; reflexivity).
  assert (H : same_month_rows Samples.aug_weekly (mkDate 2025 9 10) "US" None = [])
    by reflexivity.
  split; [vm_compute; discriminate|].
  split; [exact Hin|]. split; [exact Hr|]. split; [exact H|].
  exact (MethodB_zero_without_same_month mkMethodB Samples.no_files
           Samples.aug_weekly (mkDate 2025 9 10) "US" None Hin Hr H).
Defined.

(** ** Estimator C and the ledger *)

Lemma ledger_net_nil_or (ops : list OpsEntry) :
  ((if empty ops then 0 else ledger_net ops) == ledger_net ops)%Q.
Proof. destruct ops; simpl; reflexivity. Qed.

Lemma Qsum_app (l l' : list Q) : (Qsum (l ++ l') == Qsum l + Qsum l')%Q.
Proof.
  induction l as [|x l IH]; simpl; [ring|]. rewrite IH. ring.
Qed.

Lemma ledger_net_app (ops ops' : list OpsEntry) :
  (ledger_net (ops ++ ops') == ledger_net ops + ledger_net ops')%Q.
Proof. unfold ledger_net. rewrite !map_app, !Qsum_app. ring. Qed.

Lemma ledger_window_app ops ops' last me rg st :
  ledger_window (ops ++ ops') last me rg st
  = ledger_window ops last me rg st ++ ledger_window ops' last me rg st.
Proof. unfold ledger_window. rewrite !List.filter_app. reflexivity. Qed.

(** Estimator C on a group whose last report at or before [asof] is [last]:
    the ledger is read only when the month is not reported to its end, and a
    ledger without rows then raises. *)
Lemma MethodC_value_at c fs weekly asof rg st last :
  in_period_bounds asof = true ->
  max_date (map date_reported
              (List.filter (upto asof) (_select_series weekly rg st))) = Some last ->
  estimate_gap c fs weekly asof rg st =
  if date_leb (month_end asof) last then Ok 0%Q
  else match read_csv fs (ops_path c) with
       | None => Ok 0%Q
       | Some ops =>
           if empty ops then Raise AttributeError else
           let w := ledger_window ops last (month_end asof) rg st in
           Ok (if empty w then 0%Q else ledger_net w)
       end.
Proof.
  intros Hin Hmax. unfold estimate_gap, MethodC_Estimator.
  rewrite MethodC_estimate_gap_at by exact Hin. cbv zeta. rewrite Hmax.
  destruct (_select_series weekly rg st) as [|o sr] eqn:Es; [discriminate Hmax|].
  cbn [empty].
  destruct (date_leb _ _); [reflexivity|].
  destruct (read_csv _ _) as [ops|]; [|reflexivity].
  destruct ops as [|e ops]; [reflexivity|]. cbv iota.
  fold (ledger_window (e :: ops) last (month_end asof) rg st).
  destruct (empty (ledger_window (e :: ops) last (month_end asof) rg st)); reflexivity.
Qed.

(** A ledger file with a header and no rows stops estimator C as soon as it
    is read. *)
Lemma MethodC_ledger_without_rows c fs weekly asof rg st last :
  in_period_bounds asof = true ->
  max_date (map date_reported
              (List.filter (upto asof) (_select_series weekly rg st))) = Some last ->
  date_leb (month_end asof) last = false ->
  read_csv fs (ops_path c) = Some [] ->
  estimate_gap c fs weekly asof rg st = Raise AttributeError.
Proof.
  intros Hin Hmax Hlt Hfs.
  rewrite (MethodC_value_at _ _ _ _ _ _ _ Hin Hmax), Hlt, Hfs. reflexivity.
Qed.




(** X11. Estimator C is additive in the ledger: with the rows of two ledgers
    put in one file, it returns the sum of what it returns on each. *)
Theorem MethodC_additive_in_ledger
    (c : MethodC) (fs1 fs2 fs12 : filesystem) (ops1 ops2 : list OpsEntry)
    (weekly : list WeeklyObservation) (asof : date)
    (rg : string) (st : option string) (v1 v2 : Q) :
  read_csv fs1 (ops_path c) = Some ops1 ->
  read_csv fs2 (ops_path c) = Some ops2 ->
  read_csv fs12 (ops_path c) = Some (ops1 ++ ops2) ->
  estimate_gap c fs1 weekly asof rg st = Ok v1 ->
  estimate_gap c fs2 weekly asof rg st = Ok v2 ->
  exists v, estimate_gap c fs12 weekly asof rg st = Ok v /\ (v == v1 + v2)%Q.
Proof.
  intros H1 H2 H12 Hv1 Hv2.
  destruct (group_rows weekly rg st) as [|g gs] eqn:Eg.
  { unfold estimate_gap, MethodC_Estimator in *.
    rewrite MethodC_empty_group in * by exact Eg.
    injection Hv1 as <-. injection Hv2 as <-. eexists. split; [reflexivity|ring]. }
  assert (Hg : group_rows weekly rg st <> []) by (rewrite Eg; discriminate).
  destruct (in_period_bounds asof) eqn:Hin.
  2:{ unfold estimate_gap, MethodC_Estimator in Hv1.
      rewrite MethodC_out_of_bounds in Hv1 by assumption. discriminate. }
  destruct (qualifying weekly asof rg st) as [|q l] eqn:Eq.
  - unfold estimate_gap, MethodC_Estimator in Hv1.
    rewrite MethodC_no_prior in Hv1 by assumption. discriminate.
  - assert (Hq : qualifying weekly asof rg st <> []) by (rewrite Eq; discriminate).
    destruct (max_date_upto_Some weekly asof rg st Hq) as (last & Hmax & _).
    pose proof (fun fs => MethodC_value_at c fs weekly asof rg st last Hin Hmax)
      as Hval.
    rewrite (Hval fs1), H1 in Hv1. rewrite (Hval fs2), H2 in Hv2.
    rewrite (Hval fs12), H12.
    destruct (date_leb _ _).
    + injection Hv1 as <-. injection Hv2 as <-. eexists. split; [reflexivity|ring].
    + destruct ops1 as [|e1 ops1]; [discriminate Hv1|].
      destruct ops2 as [|e2 ops2]; [discriminate Hv2|].
      cbn [app empty] in *. cbv zeta in *.
      injection Hv1 as <-. injection Hv2 as <-. eexists. split; [reflexivity|].
      change (e1 :: ops1 ++ e2 :: ops2) with ((e1 :: ops1) ++ (e2 :: ops2)).
      rewrite !ledger_net_nil_or, ledger_window_app. apply ledger_net_app.
Qed.

Lemma MethodC_additive_in_ledger_witness :
  let more := [ mkOps (mkDate 2025 8 25) "US" None (Some 5%Q) None ] in
  let fs2 : filesystem := {[ "data/ops/ops_volumes.csv" := more ]} in
  let fs12 : filesystem := {[ "data/ops/ops_volumes.csv" := Samples.ledger ++ more ]} in
  let run fs := estimate_gap MethodC_default fs Samples.aug_weekly
                  Samples.asof_aug "US" None in
  run Samples.with_ledger = Ok 7%Q /\
  run fs2 = Ok 5%Q /\
  exists v, run fs12 = Ok v /\ (v == 7 + 5)%Q.
Proof.
  intros more fs2 fs12 run.
  assert (H1 : run Samples.with_ledger = Ok 7%Q) by (vm_compute; reflexivity).
  assert (H2 : run fs2 = Ok 5%Q) by (vm_compute; reflexivity).
  split; [exact H1|]. split; [exact H2|].
  exact (MethodC_additive_in_ledger MethodC_default Samples.with_ledger fs2 fs12
           Samples.ledger more Samples.aug_weekly Samples.asof_aug "US" None
           7%Q 5%Q eq_refl eq_refl eq_refl H1 H2).
Defined.

(** ** Estimator A and its lookback *)

Lemma tail_all {A : Type} (n : Z) (l : list A) :
  (0 < n)%Z -> (Z.of_nat (length l) <= n)%Z -> tail n l = l.
Proof.
  intros Hn Hlen. rewrite tail_pos by assumption.
  replace (length l - Z.to_nat n) with 0 by lia. reflexivity.
Qed.

(** X12. As of a month from 1677-09 to 2262-03 and with the group's reports
    at or before [asof] dated within the range of a [Timestamp], a lookback
    at least as long as the group's history at or before [asof] makes
    estimator A average over all of it: the sum of the weekly deltas of every
    qualifying report, over seven times their number, times the gap-day
    count. *)
Theorem MethodA_lookback_saturates
    (a : MethodA) (fs : filesystem)
    (weekly : list WeeklyObservation) (asof : date)
    (rg : string) (st : option string) :
  in_period_bounds asof = true ->
  dates_in_bounds (qualifying weekly asof rg st) = true ->
  qualifying weekly asof rg st <> [] ->
  (Z.of_nat (length (qualifying weekly asof rg st)) <= lookback_weeks a)%Z ->
  exists last v,
    last_reported (qualifying weekly asof rg st) last /\
    estimate_gap a fs weekly asof rg st = Ok v /\
    (v == Qsum (map delta_week_bcf (qualifying weekly asof rg st))
          / (7 * len (qualifying weekly asof rg st))
          * inject_Z (Z.max (days_between (month_end asof) last) 0))%Q.
Proof.
  intros Hin _ Hq Hn.
  destruct (max_date_upto_Some weekly asof rg st Hq) as (last & Hmax & Hlast).
  pose proof (select_series_upto_perm weekly asof rg st) as Hp.
  set (sr := List.filter (upto asof) (_select_series weekly rg st)) in *.
  assert (Hpos : (0 < lookback_weeks a)%Z).
  { destruct (qualifying weekly asof rg st); [congruence|]. simpl in Hn. lia. }
  assert (Htail : tail (lookback_weeks a) sr = sr).
  { apply tail_all; [exact Hpos|]. rewrite (Permutation_length Hp). exact Hn. }
  assert (Hsr : empty sr = false).
  { apply empty_false. intros E. apply Hq. apply (perm_nil_iff _ _ Hp). exact E. }
  exists last. eexists. split; [exact Hlast|]. split.
  - unfold estimate_gap, MethodA_Estimator.
    rewrite MethodA_estimate_gap_at by exact Hin. cbv zeta. fold sr.
    rewrite Hmax, Htail, Hsr. reflexivity.
  - rewrite (Qsum_map_perm _ _ _ Hp), (len_perm _ _ Hp). reflexivity.
Qed.

Lemma MethodA_lookback_saturates_witness :
  in_period_bounds Samples.asof_aug = true /\
  dates_in_bounds (qualifying Samples.aug_weekly Samples.asof_aug "US" None) = true /\
  qualifying Samples.aug_weekly Samples.asof_aug "US" None <> [] /\
  (Z.of_nat (length (qualifying Samples.aug_weekly Samples.asof_aug "US" None))
   <= lookback_weeks MethodA_default)%Z /\
  exists last v,
    last_reported (qualifying Samples.aug_weekly Samples.asof_aug "US" None) last /\
    estimate_gap MethodA_default Samples.no_files Samples.aug_weekly
      Samples.asof_aug "US" None = Ok v /\
    (v == Qsum (map delta_week_bcf
                  (qualifying Samples.aug_weekly Samples.asof_aug "US" None))
          / (7 * len (qualifying Samples.aug_weekly Samples.asof_aug "US" None))
          * inject_Z (Z.max (days_between (month_end Samples.asof_aug) last) 0))%Q.
Proof.
  assert (Hq : qualifying Samples.aug_weekly Samples.asof_aug "US" None <> [])
    by (vm_compute; discriminate).
  assert (Hn : (Z.of_nat (length (qualifying Samples.aug_weekly Samples.asof_aug
                                    "US" None))
                <= lookback_weeks MethodA_default)%Z)
    by (vm_compute; discriminate).
  assert (Hin : in_period_bounds Samples.asof_aug = true) by reflexivity.
  assert (Hr : dates_in_bounds
                 (qualifying Samples.aug_weekly Samples.asof_aug "US" None) = true)
    by (vm_compute; reflexivity).
  split; [exact Hin|]. split; [exact Hr|]. split; [exact Hq|]. split; [exact Hn|].
  exact (MethodA_lookback_saturates MethodA_default Samples.no_files
           Samples.aug_weekly Samples.asof_aug "US" None Hin Hr Hq Hn).
Defined.

(** X13. As of a month from 1677-09 to 2262-03 and with the group's reports
    at or before [asof] dated within the range of a [Timestamp], a lookback
    of 0, or a negative one that drops at least as many rows as the group has
    at or before [asof], leaves estimator A nothing to average: it returns
    0.0. *)
Theorem MethodA_degenerate_lookback
    (a : MethodA) (fs : filesystem)
    (weekly : list WeeklyObservation) (asof : date)
    (rg : string) (st : option string) :
  in_period_bounds asof = true ->
  dates_in_bounds (qualifying weekly asof rg st) = true ->
  (lookback_weeks a = 0
   \/ lookback_weeks a <= - Z.of_nat (length (qualifying weekly asof rg st)))%Z ->
  estimate_gap a fs weekly asof rg st = Ok 0%Q.
Proof.
  intros Hin _ Hn. unfold estimate_gap, MethodA_Estimator.
  rewrite MethodA_estimate_gap_at by exact Hin. cbv zeta.
  destruct (max_date _); [|reflexivity].
  pose proof (Permutation_length (select_series_upto_perm weekly asof rg st)) as Hl.
  set (sr := List.filter (upto asof) (_select_series weekly rg st)) in *.
  replace (tail (lookback_weeks a) sr) with (@nil WeeklyObservation); [reflexivity|].
  unfold tail. destruct (lookback_weeks a =? 0)%Z eqn:E0; [reflexivity|].
  apply Z.eqb_neq in E0.
  destruct Hn as [Hn|Hn]; [congruence|].
  replace (0 <? lookback_weeks a)%Z with false by (symmetry; apply Z.ltb_ge; lia).
  symmetry. apply drop_ge. lia.
Qed.

Lemma MethodA_degenerate_lookback_witness :
  in_period_bounds Samples.asof_aug = true /\
  dates_in_bounds (qualifying Samples.aug_weekly Samples.asof_aug "US" None) = true /\
  (lookback_weeks (mkMethodA (-2)) = 0
   \/ lookback_weeks (mkMethodA (-2))
      <= - Z.of_nat (length (qualifying Samples.aug_weekly Samples.asof_aug
                               "US" None)))%Z /\
  estimate_gap (mkMethodA (-2)) Samples.no_files Samples.aug_weekly
    Samples.asof_aug "US" None = Ok 0%Q.
Proof.
  assert (Hn : (lookback_weeks (mkMethodA (-2)) = 0
                \/ lookback_weeks (mkMethodA (-2))
                   <= - Z.of_nat (length (qualifying Samples.aug_weekly
                                            Samples.asof_aug "US" None)))%Z)
    by (right; vm_compute; discriminate).
  assert (Hin : in_period_bounds Samples.asof_aug = true) by reflexivity.
  assert (Hr : dates_in_bounds
                 (qualifying Samples.aug_weekly Samples.asof_aug "US" None) = true)
    by (vm_compute; reflexivity).
  split; [exact Hin|]. split; [exact Hr|]. split; [exact Hn|].
  exact (MethodA_degenerate_lookback (mkMethodA (-2)) Samples.no_files
           Samples.aug_weekly Samples.asof_aug "US" None Hin Hr Hn).
Defined.

(** ** The scenario band and the fees *)

(** X14. With a band that is not negative, the low and high totals bracket a
    base total that is not negative ([low <= base <= high]); for a negative
    base the bracket turns over ([high <= base <= low]); either way the base
    is their midpoint. *)
Theorem accrual_band_ordering (monthly_roll : list Roll.row) (ai : AccrualInputs) :
  (0 <= scenario_band ai)%Q ->
  Forall
    (fun a =>
       ((0 <= Accrual.total_accrual_base a)%Q ->
        (Accrual.total_accrual_low a <= Accrual.total_accrual_base a)%Q /\
        (Accrual.total_accrual_base a <= Accrual.total_accrual_high a)%Q) /\
       ((Accrual.total_accrual_base a <= 0)%Q ->
        (Accrual.total_accrual_high a <= Accrual.total_accrual_base a)%Q /\
        (Accrual.total_accrual_base a <= Accrual.total_accrual_low a)%Q) /\
       (Accrual.total_accrual_low a + Accrual.total_accrual_high a
        == 2 * Accrual.total_accrual_base a)%Q)
    (calc_accruals monthly_roll ai).
Proof.
  intros Hb. unfold calc_accruals.
  apply Forall_forall. intros a Ha.
  apply list_elem_of_In, in_map_iff in Ha as (r & <- & _).
  cbn [calc_accruals_row Accrual.total_accrual_low Accrual.total_accrual_base
       Accrual.total_accrual_high].
  match goal with
  | |- context [(?b * (1 - scenario_band ai))%Q] => set (base := b)
  end.
  set (band := scenario_band ai) in *.
  split; [|split].
  - intros H0. pose proof (Qmult_le_0_compat _ _ H0 Hb) as Hp. split; lra.
  - intros H0.
    assert (Hp : (0 <= (- base) * band)%Q) by (apply Qmult_le_0_compat; [lra|exact Hb]).
    split; lra.
  - ring.
Qed.

Lemma accrual_band_ordering_witness :
  let ai := AccrualInputs_default (-3.25) in
  let r := {| Roll.month_end := mkDate 2025 8 31;
              Roll.region := "US";
              Roll.stratum := "none";
              Roll.beg_working_gas_bcf := 3150;
              Roll.est_injections_bcf := 50;
              Roll.est_withdrawals_bcf := 0;
              Roll.gap_delta_bcf := 75;
              Roll.gap_days := 30;
              Roll.end_working_gas_bcf := 3275 |} in
  (0 <= scenario_band ai)%Q /\
  Forall
    (fun a =>
       (Accrual.total_accrual_base a <= 0)%Q /\
       (Accrual.total_accrual_high a <= Accrual.total_accrual_base a)%Q /\
       (Accrual.total_accrual_base a <= Accrual.total_accrual_low a)%Q)
    (calc_accruals [r] ai).
Proof.
  intros ai r.
  assert (Hb : (0 <= scenario_band ai)%Q) by (vm_compute; discriminate).
  split; [exact Hb|].
  pose proof (accrual_band_ordering [r] ai Hb) as H.
  apply Forall_forall. intros a Ha.
  rewrite Forall_forall in H. destruct (H a Ha) as (_ & Hneg & _).
  apply list_elem_of_singleton in Ha.
  assert (H0 : (Accrual.total_accrual_base a <= 0)%Q)
    by (rewrite Ha; vm_compute; discriminate).
  split; [exact H0|]. exact (Hneg H0).
Defined.

(** X15. On the frame the builder returns, the variable fees are never
    negative when the conversion factor and the two tariffs are not: the
    builder's injections and withdrawals are both non-negative volumes. *)
Theorem builder_rows_have_nonnegative_fees
    (fs : filesystem) (weekly : list WeeklyObservation) (asof : date)
    (ws : Q * Q * Q) (rg : string) (st : option string)
    (rows : list Roll.row) (ai : AccrualInputs) :
  build_monthly_rollforward fs weekly asof ws rg st = Ok rows ->
  (0 <= bcf_to_mmbtu_factor ai)%Q ->
  (0 <= tariff_injection_per_mmbtu ai)%Q ->
  (0 <= tariff_withdrawal_per_mmbtu ai)%Q ->
  Forall (fun a => (0 <= Accrual.variable_fees a)%Q) (calc_accruals rows ai).
Proof.
  intros H Hf Hi Hw.
  apply build_monthly_rollforward_Ok in H as (beg & d & gap & _ & _ & _ & ->).
  cbv zeta. unfold calc_accruals. cbn [map]. constructor; [|constructor].
  cbn [calc_accruals_row Accrual.variable_fees Roll.est_injections_bcf
       Roll.est_withdrawals_bcf].
  pose proof (injections_of_nonneg (in_month_rows weekly asof rg st)) as Hinj.
  pose proof (withdrawals_of_nonneg (in_month_rows weekly asof rg st)) as Hwd.
  change 0%Q with (0 + 0)%Q. apply Qplus_le_compat;
    repeat apply Qmult_le_0_compat; assumption.
Qed.

Lemma builder_rows_have_nonnegative_fees_witness :
  let ai := {| wacog_per_mmbtu := 3.25;
               bcf_to_mmbtu_factor := DEFAULT_BCF_TO_MMBTU;
               tariff_fixed_monthly := 120000;
               tariff_injection_per_mmbtu := 0.02;
               tariff_withdrawal_per_mmbtu := 0.03;
               scenario_band := 0.10;
               penalty_probability := 0;
               penalty_amount := 0 |} in
  exists rows,
    build_monthly_rollforward Samples.no_files Samples.aug_weekly Samples.asof_aug
      Samples.default_weights "East" None = Ok rows /\
    Forall (fun a => (0 <= Accrual.variable_fees a)%Q) (calc_accruals rows ai).
Proof.
  intros ai. eexists. split.
  - vm_compute. reflexivity.
  - apply (builder_rows_have_nonnegative_fees Samples.no_files Samples.aug_weekly
             Samples.asof_aug Samples.default_weights "East" None _ ai).
    + vm_compute. reflexivity.
    + vm_compute. discriminate.
    + vm_compute. discriminate.
    + vm_compute. discriminate.
Defined.

(** ** KPIs *)

Import Kpis.

Lemma has_key_true k c : has_key k c = true <-> cap_key c = Some k.
Proof. unfold has_key. apply bool_decide_eq_true. Qed.

Lemma existsb_has_key k (l : list CapacityRow) :
  existsb (has_key k) l = false <-> List.filter (has_key k) l = [].
Proof.
  induction l as [|c l IH]; simpl; [tauto|].
  destruct (has_key k c); simpl; [split; discriminate|exact IH].
Qed.

(** Of each group, [groupby(...).tail(1)] keeps the last row and only it. *)
Lemma groupby_tail_1_filter k (l : list CapacityRow) :
  List.filter (has_key k) (groupby_tail_1 l)
  = option_list (last (List.filter (has_key k) l)).
Proof.
  induction l as [|c l IH]; [reflexivity|]. simpl.
  destruct (cap_key c) as [k0|] eqn:Ek.
  - destruct (existsb (has_key k0) l) eqn:Ex.
    + destruct (has_key k c) eqn:Hk; [|exact IH].
      apply has_key_true in Hk. rewrite Ek in Hk. injection Hk as ->.
      rewrite IH. destruct (List.filter (has_key k) l) as [|x xs] eqn:Ef.
      * apply existsb_has_key in Ef. congruence.
      * rewrite last_cons_cons. reflexivity.
    + simpl. destruct (has_key k c) eqn:Hk; [|exact IH].
      apply has_key_true in Hk. rewrite Ek in Hk. injection Hk as ->.
      apply existsb_has_key in Ex. rewrite IH, Ex. reflexivity.
  - replace (has_key k c) with false; [exact IH|].
    symmetry. apply bool_decide_eq_false. rewrite Ek. discriminate.
Qed.

Lemma merge_left_rolls (monthly_roll : list Roll.row) (latest_cap : list CapacityRow) :
  (forall k, (length (List.filter (has_key k) latest_cap) <= 1)%nat) ->
  map roll (merge_left monthly_roll latest_cap) = monthly_roll.
Proof.
  intros Huniq. unfold merge_left.
  induction monthly_roll as [|r l IH]; [reflexivity|]. cbn [flat_map].
  rewrite map_app, IH.
  specialize (Huniq (Roll.region r, Roll.stratum r)).
  destruct (List.filter _ latest_cap) as [|c [|c' ms]]; simpl in *; [reflexivity..|lia].
Qed.

Lemma groupby_tail_1_unique k (l : list CapacityRow) :
  (length (List.filter (has_key k) (groupby_tail_1 l)) <= 1)%nat.
Proof.
  rewrite groupby_tail_1_filter. destruct (last _); simpl; lia.
Qed.

(** X16. [compute_kpis] returns one row per rollforward row, in the same
    order and with the rollforward columns untouched, whatever the capacity
    table holds: the merge never duplicates or drops a row. *)
Theorem compute_kpis_keeps_rows
    (monthly_roll : list Roll.row) (capacity : option (list CapacityRow)) :
  map roll (compute_kpis monthly_roll capacity) = monthly_roll.
Proof.
  unfold compute_kpis.
  assert (Hmap : forall f : Roll.row -> row,
             (forall r, roll (f r) = r) -> map roll (map f monthly_roll) = monthly_roll).
  { intros f Hf. rewrite map_map. rewrite <- (map_id monthly_roll) at 2.
    apply map_ext. exact Hf. }
  destruct capacity as [caps|]; [|apply Hmap; reflexivity].
  destruct (negb (empty caps)); [|apply Hmap; reflexivity].
  cbv zeta. apply merge_left_rolls. intros k. apply groupby_tail_1_unique.
Qed.

Lemma StronglySorted_last_max {A : Type} (R : relation A) `{!Reflexive R}
    (l : list A) (c : A) :
  StronglySorted R l -> last l = Some c -> forall x, x ∈ l -> R x c.
Proof.
  induction 1 as [|a l Hs IH Hall]; intros Hlast x Hx; [inversion Hx|].
  destruct l as [|b l'].
  - simpl in Hlast. injection Hlast as <-.
    apply list_elem_of_singleton in Hx as ->. reflexivity.
  - rewrite last_cons_cons in Hlast.
    apply elem_of_cons in Hx as [->|Hx]; [|apply IH; assumption].
    rewrite Forall_forall in Hall. apply Hall.
    apply last_Some_elem_of, Hlast.
Qed.

#[local] Instance year_le_refl : Reflexive year_le.
Proof. intros a. unfold year_le. lia. Qed.

#[local] Instance year_le_trans : Transitive year_le.
Proof. intros a b c. unfold year_le. lia. Qed.

#[local] Instance year_le_total : Total year_le.
Proof. intros a b. unfold year_le. lia. Qed.

(** X17. When the capacity table has a row for the group of a rollforward
    row, the KPI row carries the working capacity of such a row with the
    latest year, and [pct_of_capacity] is the ending volume over that capacity
    times 100 (not a number when that capacity is blank or zero). *)
Theorem compute_kpis_latest_capacity
    (monthly_roll : list Roll.row) (caps : list CapacityRow) (k : row) :
  k ∈ compute_kpis monthly_roll (Some caps) ->
  capacity_of caps (roll k) <> [] ->
  exists c,
    c ∈ capacity_of caps (roll k) /\
    (forall c', c' ∈ capacity_of caps (roll k) -> (cap_year c' <= cap_year c)%Z) /\
    capacity_bcf k = Some (to_cell (working_capacity_bcf c)) /\
    pct_of_capacity k
    = pct (Roll.end_working_gas_bcf (roll k)) (working_capacity_bcf c).
Proof.
  intros Hk Hcap. unfold compute_kpis in Hk.
  assert (Hne : empty caps = false).
  { apply empty_false. intros ->. apply Hcap. reflexivity. }
  rewrite Hne in Hk. simpl negb in Hk. cbv iota zeta in Hk.
  unfold merge_left in Hk.
  apply list_elem_of_In, in_flat_map in Hk as (r & _ & Hk).
  rewrite groupby_tail_1_filter in Hk.
  set (key := (Roll.region r, Roll.stratum r)) in *.
  pose proof (filter_perm (has_key key) _ _ (stable_sort_Permutation year_le caps))
    as Hp.
  pose proof (filter_StronglySorted year_le (has_key key) _
                (StronglySorted_stable_sort year_le caps)) as Hs.
  fold (sort_by_year caps) in Hp, Hs.
  destruct (last (List.filter (has_key key) (sort_by_year caps))) as [c|] eqn:El.
  - simpl in Hk. destruct Hk as [<-|[]]. simpl.
    exists c. split; [|split; [|split; reflexivity]].
    + unfold capacity_of. fold key. rewrite <- Hp. apply last_Some_elem_of, El.
    + intros c' Hc'. unfold capacity_of in Hc'. fold key in Hc'. rewrite <- Hp in Hc'.
      exact (StronglySorted_last_max year_le _ c Hs El c' Hc').
  - simpl in Hk. destruct Hk as [<-|[]]. simpl in Hcap.
    exfalso. apply Hcap. unfold capacity_of. fold key.
    apply last_None in El. apply (perm_nil_iff _ _ Hp). exact El.
Qed.

Lemma compute_kpis_latest_capacity_witness :
  let rolls := [ Samples.roll_row "US" 3298; Samples.roll_row "East" 700 ] in
  let k := {| roll := Samples.roll_row "US" 3298;
              capacity_bcf := Some (Num 3800);
              pct_of_capacity := Num (329800 # 3800);
              zscore_vs_5yr := NaN |} in
  k ∈ compute_kpis rolls (Some Samples.capacity) /\
  capacity_of Samples.capacity (roll k) <> [] /\
  exists c,
    c ∈ capacity_of Samples.capacity (roll k) /\
    (forall c', c' ∈ capacity_of Samples.capacity (roll k) ->
                (cap_year c' <= cap_year c)%Z) /\
    capacity_bcf k = Some (to_cell (working_capacity_bcf c)) /\
    pct_of_capacity k
    = pct (Roll.end_working_gas_bcf (roll k)) (working_capacity_bcf c).
Proof.
  intros rolls k.
  assert (Hk : k ∈ compute_kpis rolls (Some Samples.capacity)) by left.
  assert (Hc : capacity_of Samples.capacity (roll k) <> [])
    by (vm_compute; discriminate).
  split; [exact Hk|]. split; [exact Hc|].
  exact (compute_kpis_latest_capacity rolls Samples.capacity k Hk Hc).
Defined.

(** X18. [zscore_vs_5yr] is blank in every KPI row, and [pct_of_capacity] is
    blank in the rows whose group has no capacity row, which is every row
    when the capacity table is absent or empty. *)
Theorem compute_kpis_blank_columns
    (monthly_roll : list Roll.row) (capacity : option (list CapacityRow)) :
  Forall
    (fun k =>
       zscore_vs_5yr k = NaN /\
       (match capacity with
        | Some caps => capacity_of caps (roll k) = []
        | None => True
        end -> pct_of_capacity k = NaN))
    (compute_kpis monthly_roll capacity).
Proof.
  apply Forall_forall. intros k Hk. unfold compute_kpis in Hk.
  assert (Hplain : k ∈ map (fun r => {| roll := r; capacity_bcf := None;
                                        pct_of_capacity := NaN;
                                        zscore_vs_5yr := NaN |}) monthly_roll ->
                   zscore_vs_5yr k = NaN /\ pct_of_capacity k = NaN).
  { intros H. apply list_elem_of_In, in_map_iff in H as (r & <- & _).
    split; reflexivity. }
  destruct capacity as [caps|]; [|destruct (Hplain Hk); split; auto].
  destruct (negb (empty caps)); [|destruct (Hplain Hk); split; auto].
  cbv zeta in Hk. unfold merge_left in Hk.
  apply list_elem_of_In, in_flat_map in Hk as (r & _ & Hk).
  rewrite groupby_tail_1_filter in Hk.
  set (key := (Roll.region r, Roll.stratum r)) in *.
  pose proof (filter_perm (has_key key) _ _ (stable_sort_Permutation year_le caps))
    as Hp.
  fold (sort_by_year caps) in Hp.
  destruct (last (List.filter (has_key key) (sort_by_year caps))) as [c|] eqn:El;
    simpl in Hk; destruct Hk as [<-|[]]; simpl; (split; [reflexivity|]).
  - intros Hnone. exfalso. unfold capacity_of in Hnone. fold key in Hnone.
    apply (perm_nil_iff _ _ Hp) in Hnone. rewrite Hnone in El. discriminate.
  - reflexivity.
Qed.

(** ** The weekly normalizer *)

Import NormalizeWeekly.

Lemma with_deltas_chained (rows : list RawWeekly) :
  forall (prev : gmap (string * string) Q) (k : string * string),
    chained (prev !! k) (group_of k (with_deltas prev rows)).
Proof.
  induction rows as [|r rest IH]; intros prev k; [exact I|].
  unfold group_of in *. cbn [with_deltas List.filter]. cbv zeta.
  cbn [region stratum].
  destruct (group_key r) as [k'|] eqn:Ek.
  - unfold group_key in Ek. destruct (raw_stratum r) as [s|] eqn:Es; [|discriminate].
    injection Ek as <-.
    case_bool_decide as Hin.
    + destruct Hin as [Hr Hs]. injection Hs as Hs.
      assert (Hk : (raw_region r, s) = k) by (destruct k; simpl in *; congruence).
      rewrite Hk. cbn [chained delta_week_bcf working_gas_bcf]. split; [reflexivity|].
      specialize (IH (<[k := raw_working_gas_bcf r]> prev) k).
      rewrite lookup_insert_eq in IH. exact IH.
    + specialize (IH (<[(raw_region r, s) := raw_working_gas_bcf r]> prev) k).
      rewrite lookup_insert_ne in IH; [exact IH|].
      intros <-. apply Hin. split; reflexivity.
  - unfold group_key in Ek. destruct (raw_stratum r) as [s|] eqn:Es; [discriminate|].
    case_bool_decide as Hin; [destruct Hin as [_ Hs]; discriminate Hs|].
    apply IH.
Qed.

Lemma chained_prefix (l post : list WeeklyObservation) :
  forall p, chained p (l ++ post) -> chained p l.
Proof.
  induction l as [|o l IH]; intros p H; [exact I|].
  destruct H as [Hd H]. split; [exact Hd|]. apply IH, H.
Qed.

Lemma chained_step (pre post : list WeeklyObservation) (a b : WeeklyObservation) :
  forall p, chained p (pre ++ a :: b :: post) ->
            delta_week_bcf b = (working_gas_bcf b - working_gas_bcf a)%Q.
Proof.
  induction pre as [|o pre IH]; intros p H.
  - destruct H as [_ [Hb _]]. exact Hb.
  - destruct H as [_ H]. eapply IH, H.
Qed.

Lemma chained_sum (mid : list WeeklyObservation) (o : WeeklyObservation) :
  forall pv, chained (Some pv) (mid ++ [o]) ->
             (Qsum (map delta_week_bcf (mid ++ [o])) == working_gas_bcf o - pv)%Q.
Proof.
  induction mid as [|m mid IH]; intros pv H.
  - destruct H as [Hd _]. simpl. rewrite Hd. ring.
  - destruct H as [Hd H]. cbn [app map Qsum fold_right].
    change (fold_right Qplus 0%Q (map delta_week_bcf (mid ++ [o])))
      with (Qsum (map delta_week_bcf (mid ++ [o]))).
    rewrite (IH _ H), Hd. ring.
Qed.

Lemma with_deltas_blank (rows : list RawWeekly) :
  forall prev o, o ∈ with_deltas prev rows -> stratum o = None ->
                 delta_week_bcf o = 0%Q.
Proof.
  induction rows as [|r rest IH]; intros prev o Ho Hs; [inversion Ho|].
  cbn [with_deltas] in Ho. cbv zeta in Ho.
  apply elem_of_cons in Ho as [->|Ho]; [|eapply IH; eassumption].
  cbn [stratum] in Hs. cbn [delta_week_bcf]. unfold group_key. rewrite Hs. reflexivity.
Qed.

(** X19. In the table [normalize_weekly] returns, the first row of every
    (region, stratum) group has delta 0, every later row of the group has the
    difference between its volume and the volume of the group's row before
    it, and a row with a blank stratum has delta 0. *)
Theorem normalize_weekly_deltas
    (has_stratum : bool) (raw : list RawWeekly) (k : string * string) :
  let out := normalize_weekly has_stratum raw in
  (forall o rest, group_of k out = o :: rest -> delta_week_bcf o = 0%Q) /\
  (forall pre a b post,
      group_of k out = pre ++ a :: b :: post ->
      delta_week_bcf b = (working_gas_bcf b - working_gas_bcf a)%Q) /\
  (forall o, o ∈ out -> stratum o = None -> delta_week_bcf o = 0%Q).
Proof.
  cbv zeta. unfold normalize_weekly.
  pose proof (with_deltas_chained
                (sort_by_key (map (default_stratum has_stratum) raw)) ∅ k) as H.
  rewrite lookup_empty in H.
  split; [|split].
  - intros o rest E. rewrite E in H. destruct H as [Hd _]. exact Hd.
  - intros pre a b post E. rewrite E in H. eapply chained_step, H.
  - intros o Ho Hs. eapply with_deltas_blank; eassumption.
Qed.

(** X20. Within a group of the normalized table the deltas telescope: from
    the group's first row up to any later row of it, they add up to the
    change in volume between the two. *)
Theorem normalize_weekly_deltas_telescope
    (has_stratum : bool) (raw : list RawWeekly) (k : string * string)
    (o0 o : WeeklyObservation) (mid post : list WeeklyObservation) :
  group_of k (normalize_weekly has_stratum raw) = o0 :: mid ++ o :: post ->
  (Qsum (map delta_week_bcf (o0 :: mid ++ [o]))
   == working_gas_bcf o - working_gas_bcf o0)%Q.
Proof.
  intros E. unfold normalize_weekly in E.
  pose proof (with_deltas_chained
                (sort_by_key (map (default_stratum has_stratum) raw)) ∅ k) as H.
  rewrite lookup_empty, E in H. destruct H as [Hd H].
  cbn [map Qsum fold_right].
  change (fold_right Qplus 0%Q (map delta_week_bcf (mid ++ [o])))
    with (Qsum (map delta_week_bcf (mid ++ [o]))).
  rewrite Hd.
  replace (mid ++ o :: post) with ((mid ++ [o]) ++ post) in H
    by (rewrite <- app_assoc; reflexivity).
  apply chained_prefix in H. rewrite (chained_sum _ _ _ H). ring.
Qed.

Lemma normalize_weekly_deltas_telescope_witness :
  let o0 := mkWeekly (mkDate 2025 7 25) "US" (Some "none") 3100 0 in
  let o1 := mkWeekly (mkDate 2025 8 1) "US" (Some "none") 3150 (3150 - 3100) in
  let o2 := mkWeekly (mkDate 2025 8 8) "US" (Some "none") 3130 (3130 - 3150) in
  group_of ("US", "none") (normalize_weekly true Samples.raw_weekly)
  = o0 :: [o1] ++ o2 :: [] /\
  (Qsum (map delta_week_bcf (o0 :: [o1] ++ [o2]))
   == working_gas_bcf o2 - working_gas_bcf o0)%Q.
Proof.
  intros o0 o1 o2.
  assert (E : group_of ("US", "none") (normalize_weekly true Samples.raw_weekly)
              = o0 :: [o1] ++ o2 :: []) by (vm_compute; reflexivity).
  split; [exact E|].
  exact (normalize_weekly_deltas_telescope true Samples.raw_weekly ("US", "none")
           o0 o2 [o1] [] E).
Defined.

(** *** The order of the normalized table *)

Lemma leb_le (a b : string) : String.leb a b = true <-> String.le a b.
Proof. unfold String.le. symmetry. apply Is_true_true. Qed.

Lemma str_ltb_spec (a b : string) :
  str_ltb a b = true <-> String.le a b /\ a <> b.
Proof.
  unfold str_ltb. rewrite andb_true_iff, negb_true_iff, leb_le, String.eqb_neq. tauto.
Qed.

Lemma str_ltb_trans (a b c : string) :
  str_ltb a b = true -> str_ltb b c = true -> str_ltb a c = true.
Proof.
  rewrite !str_ltb_spec. intros [H1 N1] [H2 N2]. split; [etrans; eassumption|].
  intros ->. apply N1. apply (anti_symm String.le); assumption.
Qed.

Lemma str_trichotomy (a b : string) :
  str_ltb a b = true \/ a = b \/ str_ltb b a = true.
Proof.
  rewrite !str_ltb_spec. destruct (decide (a = b)) as [->|Hne]; [tauto|].
  destruct (total String.le a b); [left|right; right]; split; congruence.
Qed.

Lemma str_ltb_irrefl (a : string) : str_ltb a a = false.
Proof.
  destruct (str_ltb a a) eqn:E; [|reflexivity].
  apply str_ltb_spec in E as [_ N]. congruence.
Qed.

Lemma stratum_eqb_eq (a b : option string) : stratum_eqb a b = true <-> a = b.
Proof.
  destruct a as [x|], b as [y|]; simpl; try (split; congruence).
  rewrite String.eqb_eq. split; congruence.
Qed.

Lemma stratum_ltb_trans (a b c : option string) :
  stratum_ltb a b = true -> stratum_ltb b c = true -> stratum_ltb a c = true.
Proof.
  destruct a as [x|], b as [y|], c as [z|]; simpl; try congruence.
  apply str_ltb_trans.
Qed.

Lemma stratum_trichotomy (a b : option string) :
  stratum_ltb a b = true \/ a = b \/ stratum_ltb b a = true.
Proof.
  destruct a as [x|], b as [y|]; simpl; auto.
  destruct (str_trichotomy x y) as [H|[->|H]]; auto.
Qed.

Lemma stratum_ltb_irrefl (a : option string) : stratum_ltb a a = false.
Proof. destruct a; simpl; [apply str_ltb_irrefl|reflexivity]. Qed.

Lemma key_leb_spec (a b : RawWeekly) :
  key_leb a b = true <->
  str_ltb (raw_region a) (raw_region b) = true \/
  (raw_region a = raw_region b /\
   (stratum_ltb (raw_stratum a) (raw_stratum b) = true \/
    (raw_stratum a = raw_stratum b /\
     date_leb (raw_date_reported a) (raw_date_reported b) = true))).
Proof.
  unfold key_leb.
  rewrite !orb_true_iff, !andb_true_iff, !orb_true_iff, !andb_true_iff,
    String.eqb_eq, stratum_eqb_eq.
  tauto.
Qed.

#[local] Instance key_le_trans : Transitive key_le.
Proof.
  intros a b c. unfold key_le. rewrite !Is_true_true, !key_leb_spec.
  intros [Hab|[Rab Hab]] [Hbc|[Rbc Hbc]].
  - left. eapply str_ltb_trans; eassumption.
  - left. rewrite <- Rbc. exact Hab.
  - left. rewrite Rab. exact Hbc.
  - right. split; [congruence|].
    destruct Hab as [Sab|[Sab Dab]], Hbc as [Sbc|[Sbc Dbc]].
    + left. eapply stratum_ltb_trans; eassumption.
    + left. rewrite <- Sbc. exact Sab.
    + left. rewrite Sab. exact Sbc.
    + right. split; [congruence|]. eapply date_leb_trans; eassumption.
Qed.

#[local] Instance key_le_total : Total key_le.
Proof.
  intros a b. unfold key_le. rewrite !Is_true_true, !key_leb_spec.
  destruct (str_trichotomy (raw_region a) (raw_region b)) as [H|[R|H]]; auto.
  destruct (stratum_trichotomy (raw_stratum a) (raw_stratum b)) as [H|[S|H]]; auto.
  destruct (date_leb_total (raw_date_reported a) (raw_date_reported b)); auto 6.
Qed.

Lemma undelta_with_deltas (rows : list RawWeekly) :
  forall prev, map undelta (with_deltas prev rows) = rows.
Proof.
  induction rows as [|r rest IH]; intros prev; [reflexivity|].
  cbn [with_deltas map]. cbv zeta. rewrite IH. destruct r. reflexivity.
Qed.

Lemma StronglySorted_map_inv {A B : Type} (R : relation B) (f : A -> B) (l : list A) :
  StronglySorted R (map f l) -> StronglySorted (fun a b => R (f a) (f b)) l.
Proof.
  induction l as [|a l IH]; intros H; [constructor|].
  cbn [map] in H. apply StronglySorted_inv in H as [Hs Hall].
  constructor; [apply IH, Hs|].
  apply Forall_forall. intros x Hx. rewrite Forall_forall in Hall.
  apply Hall. apply list_elem_of_In, in_map, list_elem_of_In, Hx.
Qed.

Lemma StronglySorted_weaken {A : Type} (R R' : relation A) (l : list A) :
  (forall a b, a ∈ l -> b ∈ l -> R a b -> R' a b) ->
  StronglySorted R l -> StronglySorted R' l.
Proof.
  intros Himp H. induction H as [|a l Hs IH Hall]; [constructor|].
  constructor.
  - apply IH. intros x y Hx Hy. apply Himp; right; assumption.
  - apply Forall_forall. intros x Hx. rewrite Forall_forall in Hall.
    apply Himp; [left | right; exact Hx | apply Hall, Hx].
Qed.

Lemma sort_by_key_sorted (rows : list RawWeekly) :
  StronglySorted key_le (sort_by_key rows).
Proof. apply StronglySorted_stable_sort; apply _. Qed.

(** The rows of a group of the normalized table are in date order. *)
Lemma normalize_weekly_group_sorted
    (has_stratum : bool) (raw : list RawWeekly) (k : string * string) :
  StronglySorted obs_date_le (group_of k (normalize_weekly has_stratum raw)).
Proof.
  unfold normalize_weekly.
  set (rows := map (default_stratum has_stratum) raw).
  pose proof (sort_by_key_sorted rows) as Hs.
  rewrite <- (undelta_with_deltas (sort_by_key rows) ∅) in Hs.
  apply StronglySorted_map_inv in Hs.
  apply (filter_StronglySorted _
           (fun o => bool_decide (region o = k.1 /\ stratum o = Some k.2))) in Hs.
  fold (group_of k (with_deltas ∅ (sort_by_key rows))) in Hs.
  eapply StronglySorted_weaken; [|exact Hs].
  intros a b Ha Hb Hab.
  apply elem_of_filter in Ha as [_ Ha]. apply elem_of_filter in Hb as [_ Hb].
  apply bool_decide_eq_true in Ha as [Ra Sa]. apply bool_decide_eq_true in Hb as [Rb Sb].
  unfold key_le in Hab. apply Is_true_true, key_leb_spec in Hab.
  unfold obs_date_le. apply Is_true_true.
  cbn [undelta raw_region raw_stratum raw_date_reported] in Hab.
  rewrite Ra, Rb, Sa, Sb, str_ltb_irrefl in Hab.
  change (stratum_ltb (Some k.2) (Some k.2)) with (str_ltb k.2 k.2) in Hab.
  rewrite str_ltb_irrefl in Hab.
  destruct Hab as [H|[_ [H|[_ H]]]]; [discriminate..|exact H].
Qed.

(** X21. [normalize_weekly] returns the rows it read, each once, with the
    stratum set to "none" when the frame had no stratum column, sorted by
    region, stratum (blanks last) and date; so the rows of every group are in
    date order. *)
Theorem normalize_weekly_sorts
    (has_stratum : bool) (raw : list RawWeekly) :
  let out := normalize_weekly has_stratum raw in
  map undelta out ≡ₚ map (default_stratum has_stratum) raw /\
  StronglySorted key_le (map undelta out) /\
  forall k, StronglySorted obs_date_le (group_of k out).
Proof.
  cbv zeta. split; [|split].
  - unfold normalize_weekly. rewrite undelta_with_deltas.
    apply stable_sort_Permutation.
  - unfold normalize_weekly. rewrite undelta_with_deltas.
    apply sort_by_key_sorted.
  - intros k. apply normalize_weekly_group_sorted.
Qed.

(** ** The capacity normalizer *)

Section NormalizeCapacityProps.
Import NormalizeCapacity.
Context {A : Type}.
Implicit Types (df raw : list (string * A)) (c : string).

Lemma has_column_In c df : has_column c df = true <-> In c (columns df).
Proof.
  unfold has_column. rewrite existsb_exists. split.
  - intros (x & Hx & E). apply String.eqb_eq in E. congruence.
  - intros H. exists c. split; [exact H|apply String.eqb_refl].
Qed.

Lemma columns_rename raw : columns (rename raw) = map rename_label (columns raw).
Proof. unfold columns, rename. rewrite !map_map. reflexivity. Qed.

Lemma In_columns_rename c raw :
  In c (columns (rename raw)) <-> exists c0, In c0 (columns raw) /\ rename_label c0 = c.
Proof.
  rewrite columns_rename, in_map_iff. split; intros (c0 & H1 & H2); eauto.
Qed.

Lemma rename_label_cases c0 :
  (c0 = "area" /\ rename_label c0 = "region") \/
  (c0 = "working_capacity" /\ rename_label c0 = "working_capacity_bcf") \/
  (c0 = "design_capacity" /\ rename_label c0 = "design_capacity_bcf") \/
  (c0 <> "area" /\ c0 <> "working_capacity" /\ c0 <> "design_capacity" /\
   rename_label c0 = c0).
Proof.
  unfold rename_label.
  destruct (String.eqb_spec c0 "area") as [->|H1]; [left; split; reflexivity|].
  destruct (String.eqb_spec c0 "working_capacity") as [->|H2];
    [right; left; split; reflexivity|].
  destruct (String.eqb_spec c0 "design_capacity") as [->|H3];
    [right; right; left; split; reflexivity|].
  right; right; right. auto.
Qed.

(** The frame the checks run on has a stratum column, and otherwise the
    renamed columns of the raw frame. *)
Lemma has_column_after_default (d : A) c raw :
  has_column c (if negb (has_column "stratum" (rename raw))
                then rename raw ++ [("stratum", d)] else rename raw)
  = has_column c (rename raw) || String.eqb c "stratum".
Proof.
  destruct (has_column "stratum" (rename raw)) eqn:Hs; simpl.
  - destruct (String.eqb_spec c "stratum") as [->|Hne].
    + rewrite Hs. reflexivity.
    + rewrite orb_false_r. reflexivity.
  - unfold has_column, columns. rewrite map_app, existsb_app. simpl.
    rewrite orb_false_r. reflexivity.
Qed.

Lemma renamed_region raw :
  In "region" (columns (rename raw)) <->
  In "area" (columns raw) \/ In "region" (columns raw).
Proof.
  rewrite In_columns_rename. split.
  - intros (c0 & Hin & E).
    destruct (rename_label_cases c0) as [[-> _]|[[-> E']|[[-> E']|(_ & _ & _ & E')]]];
      try (rewrite E' in E; discriminate E); [left; exact Hin|].
    rewrite E' in E. subst. right. exact Hin.
  - intros [H|H]; [exists "area"|exists "region"]; split; auto.
Qed.

Lemma renamed_year raw :
  In "year" (columns (rename raw)) <-> In "year" (columns raw).
Proof.
  rewrite In_columns_rename. split.
  - intros (c0 & Hin & E).
    destruct (rename_label_cases c0) as [[-> E']|[[-> E']|[[-> E']|(_ & _ & _ & E')]]];
      try (rewrite E' in E; discriminate E).
    rewrite E' in E. subst. exact Hin.
  - intros H. exists "year". split; auto.
Qed.

Lemma renamed_working raw :
  In "working_capacity_bcf" (columns (rename raw)) <->
  In "working_capacity" (columns raw) \/ In "working_capacity_bcf" (columns raw).
Proof.
  rewrite In_columns_rename. split.
  - intros (c0 & Hin & E).
    destruct (rename_label_cases c0) as [[-> E']|[[-> _]|[[-> E']|(_ & _ & _ & E')]]];
      try (rewrite E' in E; discriminate E); [left; exact Hin|].
    rewrite E' in E. subst. right. exact Hin.
  - intros [H|H]; [exists "working_capacity"|exists "working_capacity_bcf"];
      split; auto.
Qed.

Lemma renamed_design raw :
  In "design_capacity_bcf" (columns (rename raw)) <->
  In "design_capacity" (columns raw) \/ In "design_capacity_bcf" (columns raw).
Proof.
  rewrite In_columns_rename. split.
  - intros (c0 & Hin & E).
    destruct (rename_label_cases c0) as [[-> E']|[[-> E']|[[-> _]|(_ & _ & _ & E')]]];
      try (rewrite E' in E; discriminate E); [left; exact Hin|].
    rewrite E' in E. subst. right. exact Hin.
  - intros [H|H]; [exists "design_capacity"|exists "design_capacity_bcf"];
      split; auto.
Qed.

Lemma missing_nil_iff (d : A) raw :
  missing_columns (if negb (has_column "stratum" (rename raw))
                   then rename raw ++ [("stratum", d)] else rename raw) = []
  <-> complete_columns raw.
Proof.
  unfold missing_columns, wanted, complete_columns. cbn [List.filter].
  rewrite !has_column_after_default. simpl String.eqb. rewrite !orb_false_r, orb_true_r.
  simpl negb.
  rewrite <- renamed_region, <- renamed_year, <- renamed_working, <- renamed_design.
  rewrite <- !has_column_In.
  destruct (has_column "region" (rename raw)), (has_column "year" (rename raw)),
    (has_column "working_capacity_bcf" (rename raw)),
    (has_column "design_capacity_bcf" (rename raw)); simpl;
    split; intros H; try discriminate H; try tauto;
    destruct H as (H1 & H2 & H3 & H4); discriminate.
Qed.

(** X22. [normalize_capacity] returns a frame exactly when the raw frame has a
    region (as "area" or "region"), a year, a working capacity and a design
    capacity (each under its raw or its canonical name), and raises
    [ValueError] otherwise; a missing stratum column is never an error. *)
Theorem normalize_capacity_accepts_iff (d : A) raw :
  (complete_columns raw -> exists out, normalize_capacity d raw = Ok out) /\
  (~ complete_columns raw -> normalize_capacity d raw = Raise ValueError).
Proof.
  unfold normalize_capacity. cbv zeta.
  pose proof (missing_nil_iff d raw) as Hm.
  destruct (missing_columns _) as [|m ms]; simpl.
  - split; [eauto|]. intros Hn. exfalso. apply Hn, Hm. reflexivity.
  - split; [|reflexivity]. intros Hc. apply Hm in Hc. discriminate Hc.
Qed.

Lemma filter_label_unique c df :
  NoDup (columns df) -> In c (columns df) ->
  exists x, List.filter (fun cx => String.eqb cx.1 c) df = [(c, x)].
Proof.
  induction df as [|[c0 x0] df IH]; intros Hnd Hin; [inversion Hin|].
  cbn [columns map fst] in Hnd, Hin. apply NoDup_cons in Hnd as [Hnot Hnd].
  cbn [List.filter fst]. destruct (String.eqb_spec c0 c) as [->|Hne].
  - exists x0. f_equal.
    apply filter_nil_iff. intros [c1 x1] H1. cbn [fst].
    apply String.eqb_neq. intros ->. apply Hnot.
    apply list_elem_of_In. apply list_elem_of_In in H1.
    change c with (fst (c, x1)). apply in_map. exact H1.
  - destruct Hin as [Hin|Hin]; [congruence|]. apply IH; assumption.
Qed.

Lemma select_unique df (labels : list string) :
  NoDup (columns df) -> (forall c, In c labels -> In c (columns df)) ->
  columns (select df labels) = labels /\
  (forall c x, In (c, x) df -> In c labels -> In (c, x) (select df labels)).
Proof.
  intros Hnd. induction labels as [|l ls IH]; intros Hall.
  - split; [reflexivity|]. intros c x _ [].
  - destruct IH as [IH1 IH2]; [intros c Hc; apply Hall; right; exact Hc|].
    destruct (filter_label_unique l df Hnd (Hall l (or_introl eq_refl))) as [x0 Hf].
    unfold select in *. cbn [flat_map]. rewrite Hf. split.
    + cbn [columns app map fst]. f_equal. exact IH1.
    + intros c x Hin [<-|Hc].
      * left. assert (Hx : In (l, x) (List.filter (fun cx => String.eqb cx.1 l) df)).
        { apply filter_In. split; [exact Hin|apply String.eqb_refl]. }
        rewrite Hf in Hx. destruct Hx as [Hx|[]]. exact Hx.
      * right. apply IH2; assumption.
Qed.

(** X23. When the raw frame's labels stay distinct under the renaming, the
    frame [normalize_capacity] returns has exactly the five canonical columns,
    in their canonical order; each holds the data of the raw column it was
    renamed from, and the stratum column is the filled-in "none" when the raw
    frame had none. *)
Theorem normalize_capacity_columns (d : A) raw out :
  NoDup (columns (rename raw)) ->
  normalize_capacity d raw = Ok out ->
  columns out = wanted /\
  (forall c0 x, In (c0, x) raw -> In (rename_label c0) wanted ->
                In (rename_label c0, x) out) /\
  (~ In "stratum" (columns raw) -> In ("stratum", d) out).
Proof.
  intros Hnd H. unfold normalize_capacity in H. cbv zeta in H.
  set (df := if negb (has_column "stratum" (rename raw))
             then rename raw ++ [("stratum", d)] else rename raw) in *.
  destruct (missing_columns df) as [|m ms] eqn:Hm; [|discriminate H].
  simpl in H. injection H as <-.
  assert (Hnd' : NoDup (columns df)).
  { unfold df. destruct (has_column "stratum" (rename raw)) eqn:Hs; simpl; [exact Hnd|].
    unfold columns. rewrite map_app. cbn [map fst].
    apply NoDup_app. split; [exact Hnd|]. split; [|apply NoDup_singleton].
    intros c Hc Hc'. apply list_elem_of_singleton in Hc' as ->.
    apply list_elem_of_In, has_column_In in Hc. unfold columns in Hs. congruence. }
  assert (Hall : forall c, In c wanted -> In c (columns df)).
  { intros c Hc. apply has_column_In.
    destruct (has_column c df) eqn:E; [reflexivity|]. exfalso.
    assert (Hin : In c (missing_columns df)).
    { unfold missing_columns. apply filter_In. split; [exact Hc|]. rewrite E. reflexivity. }
    rewrite Hm in Hin. exact Hin. }
  destruct (select_unique df wanted Hnd' Hall) as [Hcols Hdata].
  split; [exact Hcols|]. split.
  - intros c0 x Hin Hw. apply Hdata; [|exact Hw].
    assert (Hr : In (rename_label c0, x) (rename raw)).
    { unfold rename. apply in_map_iff. exists (c0, x). split; [reflexivity|exact Hin]. }
    unfold df. destruct (negb _); [apply in_or_app; left|]; exact Hr.
  - intros Hns. apply Hdata; [|right; left; reflexivity].
    unfold df. replace (has_column "stratum" (rename raw)) with false.
    + simpl. apply in_or_app. right. left. reflexivity.
    + symmetry. destruct (has_column "stratum" (rename raw)) eqn:E; [|reflexivity].
      exfalso. apply Hns. apply has_column_In, In_columns_rename in E as (c0 & Hc0 & E).
      destruct (rename_label_cases c0)
        as [[-> E']|[[-> E']|[[-> E']|(_ & _ & _ & E')]]];
        try (rewrite E' in E; discriminate E).
      rewrite E' in E. subst. exact Hc0.
Qed.

End NormalizeCapacityProps.

Lemma normalize_capacity_accepts_iff_witness :
  let good := [("area", 1%nat); ("year", 2%nat); ("working_capacity", 3%nat);
               ("design_capacity_bcf", 4%nat); ("notes", 5%nat)] in
  let bad := [("area", 1%nat); ("stratum", 2%nat); ("working_capacity", 3%nat);
              ("design_capacity", 4%nat)] in
  NormalizeCapacity.complete_columns good /\
  (exists out, NormalizeCapacity.normalize_capacity 0%nat good = Ok out) /\
  ~ NormalizeCapacity.complete_columns bad /\
  NormalizeCapacity.normalize_capacity 0%nat bad = Raise ValueError.
Proof.
  intros good bad.
  assert (Hg : NormalizeCapacity.complete_columns good).
  { unfold NormalizeCapacity.complete_columns. simpl. tauto. }
  assert (Hb : ~ NormalizeCapacity.complete_columns bad).
  { unfold NormalizeCapacity.complete_columns. simpl.
    intros (_ & Hy & _). intuition discriminate. }
  split; [exact Hg|].
  split; [exact (proj1 (normalize_capacity_accepts_iff 0%nat good) Hg)|].
  split; [exact Hb|].
  exact (proj2 (normalize_capacity_accepts_iff 0%nat bad) Hb).
Defined.

Lemma normalize_capacity_columns_witness :
  let raw := [("year", 2%nat); ("area", 1%nat); ("working_capacity", 3%nat);
              ("design_capacity_bcf", 4%nat); ("notes", 5%nat)] in
  let out := [("region", 1%nat); ("stratum", 0%nat); ("year", 2%nat);
              ("working_capacity_bcf", 3%nat); ("design_capacity_bcf", 4%nat)] in
  NoDup (NormalizeCapacity.columns (NormalizeCapacity.rename raw)) /\
  NormalizeCapacity.normalize_capacity 0%nat raw = Ok out /\
  NormalizeCapacity.columns out = NormalizeCapacity.wanted /\
  In ("stratum", 0%nat) out.
Proof.
  intros raw out.
  assert (Hnd : NoDup (NormalizeCapacity.columns (NormalizeCapacity.rename raw))).
  { apply (bool_decide_unpack _). vm_compute. exact I. }
  assert (H : NormalizeCapacity.normalize_capacity 0%nat raw = Ok out)
    by (vm_compute; reflexivity).
  split; [exact Hnd|]. split; [exact H|].
  destruct (normalize_capacity_columns 0%nat raw out Hnd H) as (Hc & _ & Hs).
  split; [exact Hc|]. apply Hs. simpl. intuition discriminate.
Defined.

(** ** The builder on a normalized table *)

Lemma chained_app (l1 l2 : list WeeklyObservation) :
  forall p,
    chained p (l1 ++ l2) ->
    chained (match last l1 with
             | Some b => Some (working_gas_bcf b)
             | None => p
             end) l2.
Proof.
  induction l1 as [|o l1 IH]; intros p H; [exact H|].
  destruct H as [_ H]. apply IH in H.
  destruct l1 as [|o' l1']; [exact H|].
  rewrite last_cons_cons. destruct (last (o' :: l1')) eqn:E; [exact H|].
  apply last_None in E. discriminate E.
Qed.

Lemma chained_sum_from (l : list WeeklyObservation) (p : option Q) :
  chained p l ->
  match last l, (match p with Some pv => Some pv | None => working_gas_bcf <$> head l end)
  with
  | Some o, Some v => (Qsum (map delta_week_bcf l) == working_gas_bcf o - v)%Q
  | _, _ => l = []
  end.
Proof.
  intros H. destruct (last l) as [o|] eqn:El; [|destruct p; apply last_None, El].
  apply last_Some in El as [mid ->].
  destruct p as [pv|]; [apply chained_sum, H|].
  destruct mid as [|m mid]; simpl in *.
  - destruct H as [Hd _]. rewrite Hd. ring.
  - destruct H as [Hd H]. change (fold_right Qplus 0%Q (map delta_week_bcf (mid ++ [o])))
      with (Qsum (map delta_week_bcf (mid ++ [o]))).
    rewrite (chained_sum _ _ _ H), Hd. ring.
Qed.

Lemma in_month_not_before me o : in_month me o = true -> before_month me o = false.
Proof. unfold in_month, same_period_M, before_month. bool_to_Z. lia. Qed.

Lemma before_month_mono me a b :
  obs_date_le a b -> before_month me b = true -> before_month me a = true.
Proof. unfold obs_date_le, date_leb, before_month. bool_to_Z. lia. Qed.

Lemma in_month_mono me a b :
  obs_date_le a b -> in_month me b = true ->
  before_month me a = true \/ in_month me a = true.
Proof.
  unfold obs_date_le, date_leb, before_month, in_month, same_period_M. bool_to_Z. lia.
Qed.

(** A date-sorted group is its reports before the month, then those in the
    month, then the rest. *)
Lemma sorted_month_split me (g : list WeeklyObservation) :
  StronglySorted obs_date_le g ->
  exists rest,
    g = List.filter (before_month me) g ++ List.filter (in_month me) g ++ rest.
Proof.
  induction 1 as [|a g Hs [rest IH] Hall]; [exists []; reflexivity|].
  rewrite Forall_forall in Hall. cbn [List.filter].
  destruct (before_month me a) eqn:Eb.
  - replace (in_month me a) with false.
    + exists rest. cbn [app]. f_equal. exact IH.
    + destruct (in_month me a) eqn:Ei; [|reflexivity].
      apply in_month_not_before in Ei. congruence.
  - assert (Hb : List.filter (before_month me) g = []).
    { apply filter_nil_iff. intros x Hx.
      destruct (before_month me x) eqn:E; [|reflexivity].
      rewrite (before_month_mono me a x (Hall x Hx) E) in Eb. discriminate. }
    rewrite Hb in *. cbn [app] in *.
    destruct (in_month me a) eqn:Ei.
    + exists rest. cbn [app]. f_equal. exact IH.
    + assert (Hi : List.filter (in_month me) g = []).
      { apply filter_nil_iff. intros x Hx.
        destruct (in_month me x) eqn:E; [|reflexivity].
        destruct (in_month_mono me a x (Hall x Hx) E); congruence. }
      rewrite Hi. exists (a :: g). reflexivity.
Qed.

Lemma group_rows_normalized (out : list WeeklyObservation) rg st :
  (forall o, o ∈ out -> stratum o <> None) ->
  group_rows out rg st = group_of (rg, or_none st) out.
Proof.
  intros Hns. unfold group_rows, group_of. apply filter_ext_in. intros o Ho.
  apply list_elem_of_In, Hns in Ho. unfold in_group. cbn [fst snd].
  destruct (stratum o) as [s|]; [|congruence]. cbn [fillna_none].
  destruct (String.eqb_spec (region o) rg) as [Hr|Hr],
           (String.eqb_spec s (or_none st)) as [Hs|Hs]; simpl; symmetry.
  - apply bool_decide_eq_true. split; congruence.
  - apply bool_decide_eq_false. intros [_ H]. congruence.
  - apply bool_decide_eq_false. intros [H _]. congruence.
  - apply bool_decide_eq_false. intros [H _]. congruence.
Qed.

Lemma sort_values_sorted_id (g : list WeeklyObservation) :
  StronglySorted obs_date_le g ->
  (forall a b, a ∈ g -> b ∈ g -> date_reported a = date_reported b -> a = b) ->
  sort_values g = g.
Proof.
  intros Hs Hd. apply (StronglySorted_unique_strong obs_date_le).
  - intros a b Ha Hb Hab Hba. rewrite sort_values_perm in Ha.
    apply Hd; [exact Ha|exact Hb|].
    apply date_leb_antisym; apply Is_true_true; assumption.
  - apply sort_values_sorted.
  - exact Hs.
  - apply sort_values_perm.
Qed.

(** X24. On a table from [normalize_weekly] without blank strata and with one
    report per date in the group, the builder's injections less withdrawals
    are the change in reported working gas across the month: the volume of
    the month's last report less the volume of the last report before the
    month (or of the month's first report, when the group has none before). *)
Theorem rollforward_net_flow_on_normalized_table
    (fs : filesystem) (has_stratum : bool) (raw : list RawWeekly)
    (asof : date) (ws : Q * Q * Q) (rg : string) (st : option string)
    (rows : list Roll.row) (r : Roll.row) (final : WeeklyObservation) :
  let out := normalize_weekly has_stratum raw in
  let g := group_of (rg, or_none st) out in
  (forall o, o ∈ out -> stratum o <> None) ->
  (forall a b, a ∈ g -> b ∈ g -> date_reported a = date_reported b -> a = b) ->
  build_monthly_rollforward fs out asof ws rg st = Ok rows ->
  r ∈ rows ->
  last (List.filter (in_month (month_end asof)) g) = Some final ->
  exists opening,
    opening_volume (List.filter (before_month (month_end asof)) g)
      (List.filter (in_month (month_end asof)) g) = Some opening /\
    (Roll.est_injections_bcf r - Roll.est_withdrawals_bcf r
     == working_gas_bcf final - opening)%Q.
Proof.
  cbv zeta. intros Hns Hd H Hr Hlast.
  set (out := normalize_weekly has_stratum raw) in *.
  set (g := group_of (rg, or_none st) out) in *.
  set (me := month_end asof) in *.
  assert (Hsorted : StronglySorted obs_date_le g)
    by apply normalize_weekly_group_sorted.
  assert (Hin : in_month_rows out asof rg st = List.filter (in_month me) g).
  { unfold in_month_rows. rewrite (group_rows_normalized out rg st Hns). fold g.
    rewrite (sort_values_sorted_id g Hsorted Hd). reflexivity. }
  apply build_monthly_rollforward_Ok in H as (beg & d & gap & _ & _ & _ & ->).
  apply list_elem_of_singleton in Hr as ->.
  cbn [Roll.est_injections_bcf Roll.est_withdrawals_bcf].
  pose proof (injections_minus_withdrawals (in_month_rows out asof rg st)) as Hnet.
  rewrite Hin in Hnet |- *.
  destruct (sorted_month_split me g Hsorted) as [rest Hsplit].
  pose proof (with_deltas_chained
                (sort_by_key (map (default_stratum has_stratum) raw)) ∅
                (rg, or_none st)) as Hch.
  rewrite lookup_empty in Hch. fold (normalize_weekly has_stratum raw) in Hch.
  fold out in Hch. fold g in Hch. rewrite Hsplit in Hch.
  apply chained_app in Hch. apply chained_prefix in Hch.
  apply chained_sum_from in Hch. rewrite Hlast in Hch.
  unfold opening_volume.
  destruct (last (List.filter (before_month me) g)) as [b|].
  - eexists. split; [reflexivity|]. rewrite Hnet. exact Hch.
  - destruct (head (List.filter (in_month me) g)) as [f|] eqn:Eh.
    + eexists. split; [reflexivity|]. rewrite Hnet. exact Hch.
    + simpl in Hch. rewrite Hch in Hlast. discriminate Hlast.
Qed.

Lemma rollforward_net_flow_on_normalized_table_witness :
  let out := normalize_weekly true Samples.raw_clean in
  let g := group_of ("US", or_none None) out in
  let final := mkWeekly (mkDate 2025 8 15) "US" (Some "none") 3145 15 in
  let r := {| Roll.month_end := mkDate 2025 8 31;
              Roll.region := "US";
              Roll.stratum := "none";
              Roll.beg_working_gas_bcf := 3145;
              Roll.est_injections_bcf := 65;
              Roll.est_withdrawals_bcf := 20;
              Roll.gap_delta_bcf := 419832000 # 28812000;
              Roll.gap_days := 16;
              Roll.end_working_gas_bcf := 92330112000 # 28812000 |} in
  build_monthly_rollforward Samples.no_files out Samples.asof_aug
    Samples.default_weights "US" None = Ok [r] /\
  last (List.filter (in_month (month_end Samples.asof_aug)) g) = Some final /\
  exists opening,
    opening_volume (List.filter (before_month (month_end Samples.asof_aug)) g)
      (List.filter (in_month (month_end Samples.asof_aug)) g) = Some opening /\
    (Roll.est_injections_bcf r - Roll.est_withdrawals_bcf r
     == working_gas_bcf final - opening)%Q.
Proof.
  intros out g final r.
  assert (Hns : forall o, o ∈ out -> stratum o <> None).
  { apply Forall_forall. vm_compute. repeat constructor; discriminate. }
  assert (Hd : forall a b, a ∈ g -> b ∈ g ->
                           date_reported a = date_reported b -> a = b).
  { assert (Eg : g = [ mkWeekly (mkDate 2025 7 25) "US" (Some "none") 3100 0;
                       mkWeekly (mkDate 2025 8 1) "US" (Some "none") 3150 50;
                       mkWeekly (mkDate 2025 8 8) "US" (Some "none") 3130 (-20);
                       mkWeekly (mkDate 2025 8 15) "US" (Some "none") 3145 15 ])
      by (vm_compute; reflexivity).
    rewrite Eg. intros a b Ha Hb E.
    repeat (apply elem_of_cons in Ha as [->|Ha]); [| | | |inversion Ha];
      repeat (apply elem_of_cons in Hb as [->|Hb]);
      first [reflexivity | discriminate E | inversion Hb]. }
  assert (H : build_monthly_rollforward Samples.no_files out Samples.asof_aug
                Samples.default_weights "US" None = Ok [r])
    by (vm_compute; reflexivity).
  assert (Hr : r ∈ [r]) by left.
  assert (Hl : last (List.filter (in_month (month_end Samples.asof_aug)) g)
               = Some final) by (vm_compute; reflexivity).
  split; [exact H|]. split; [exact Hl|].
  exact (rollforward_net_flow_on_normalized_table Samples.no_files true
           Samples.raw_clean Samples.asof_aug Samples.default_weights "US" None
           [r] r final Hns Hd H Hr Hl).
Defined.

Lemma compute_kpis_blank_columns_witness :
  let rolls := [ Samples.roll_row "Pacific" 300 ] in
  Forall
    (fun k =>
       capacity_of Samples.capacity (roll k) = [] /\
       zscore_vs_5yr k = NaN /\ pct_of_capacity k = NaN)
    (compute_kpis rolls (Some Samples.capacity)).
Proof.
  intros rolls.
  pose proof (compute_kpis_blank_columns rolls (Some Samples.capacity)) as H.
  apply Forall_forall. intros k Hk. rewrite Forall_forall in H.
  destruct (H k Hk) as [Hz Hp].
  assert (Hc : capacity_of Samples.capacity (roll k) = []).
  { apply list_elem_of_singleton in Hk. rewrite Hk. reflexivity. }
  split; [exact Hc|]. split; [exact Hz|exact (Hp Hc)].
Defined.
